(** * File Indexer TUI: the navigation wizard and its companion-process invoker

    A shallow embedding of the two variants of the terminal front-end
    ([src/main.go], the simple variant, and
    [src/src/file-indexer-tui/main.go], the rich variant with filtering,
    litigant entry and language toggle), followed by the properties the
    specification states about them.

    Conventions.
    - Go strings are byte strings: [string] of the Standard Library.
    - Functions of Go's standard library and of the Bubble Tea widgets that
      the program only calls are interfaces (type classes): every theorem
      holds for all their implementations.  Module [Posix] gives one
      implementation (Unix paths, ASCII case folding, insertion sort), on
      which the concrete scenarios are evaluated.
    - The filesystem and the companion process are the outside world: a
      fixed snapshot [os.Host] / [exec.Runner] read by the program.
    - [isDirEmpty] recurses through the filesystem; its embedding takes a
      recursion budget [fuel] and answers [None] when the budget is
      exhausted.  Theorems give the answer for every tree whose depth fits
      the budget (predicate [Shallow]). *)

From Stdlib Require Import String Ascii List ZArith Bool Arith Lia.
From Stdlib Require Import Permutation Sorted Relations.
Import ListNotations.

Local Open Scope list_scope.
Local Open Scope string_scope.

(** ** Go's standard library *)

(** The line feed, Go's ["\n"]. *)
Definition nl : string := String (ascii_of_nat 10) EmptyString.

Module strings.

(** [strings.HasPrefix(s, prefix)] *)
Definition HasPrefix (s prefix : string) : bool := String.prefix prefix s.

(** [strings.Contains(s, substr)]: [substr] occurs at some offset of [s]. *)
Fixpoint Contains (s substr : string) : bool :=
  if String.prefix substr s then true
  else match s with
       | EmptyString => false
       | String _ s' => Contains s' substr
       end.

(** [strings.HasSuffix(s, suffix)]:
    [len(s) >= len(suffix) && s[len(s)-len(suffix):] == suffix] *)
Definition HasSuffix (s suffix : string) : bool :=
  (String.length suffix <=? String.length s)%nat &&
  String.eqb
    (substring (String.length s - String.length suffix) (String.length suffix) s)
    suffix.

(** [strings.TrimSuffix(s, suffix)]: [s[:len(s)-len(suffix)]] when [s] ends
    with [suffix], [s] otherwise. *)
Definition TrimSuffix (s suffix : string) : string :=
  if HasSuffix s suffix
  then substring 0 (String.length s - String.length suffix) s
  else s.

(** [strings.Split(s, sep)] for a non-empty separator: the pieces between
    the non-overlapping occurrences of [sep], scanning from the left.
    [skip] counts the bytes of a matched separator still to be dropped,
    [cur] is the piece being read. *)
Fixpoint splitFrom (sep : string) (skip : nat) (cur s : string) : list string :=
  match s with
  | EmptyString => [cur]
  | String c s' =>
      match skip with
      | S k => splitFrom sep k cur s'
      | O =>
          if String.prefix sep s
          then cur :: splitFrom sep (String.length sep - 1) EmptyString s'
          else splitFrom sep 0 (cur ++ String c EmptyString) s'
      end
  end.

Definition Split (s sep : string) : list string := splitFrom sep 0 EmptyString s.

(** [strings.Join(elems, sep)] *)
Fixpoint Join (elems : list string) (sep : string) : string :=
  match elems with
  | [] => EmptyString
  | [e] => e
  | e :: rest => e ++ sep ++ Join rest sep
  end.

(** The functions whose result depends on Unicode tables: case mapping and
    white space.  The only law used is that lower-casing the empty string
    gives the empty string. *)
Class Unicode := {
  ToLower : string -> string;
  TrimSpace : string -> string;
  Fields : string -> list string;
  ToLower_empty : ToLower EmptyString = EmptyString
}.

End strings.

Module time.

(** An instant, as a count of nanoseconds from the instant of the zero
    value [time.Time{}]. *)
Definition Time : Type := Z.

(** [time.Time{}] *)
Definition zero : Time := 0%Z.

(** [t.After(u)] *)
Definition After (t u : Time) : bool := (u <? t)%Z.

End time.

Module os.

(** What [entry.Info()] returns when it succeeds. *)
Record FileInfo := {
  ModTime : time.Time;
  Mode_IsDir : bool
}.

(** One entry of [os.ReadDir]: [entry.Name()], [entry.IsDir()] (false for
    every non-directory: regular files, symbolic links, devices) and
    [entry.Info()], [None] when it returns an error. *)
Record DirEntry := {
  Name : string;
  IsDir : bool;
  Info : option FileInfo
}.

(** The host as the program reads it.  [None] stands for a non-nil [err]. *)
Class Host := {
  ReadDir : string -> option (list DirEntry);
  Stat : string -> option FileInfo;
  UserHomeDir : option string;
  Executable : option string;
  Getenv : string -> string
}.

End os.

Module filepath.

(** [filepath.Dir], [filepath.Base] and the two-argument [filepath.Join]. *)
Class Lib := {
  Dir : string -> string;
  Base : string -> string;
  Join : string -> string -> string
}.

End filepath.

Module sort.

(** [sort.Slice(x, less)]: the slice after the call. *)
Class Lib := {
  Slice : forall {A : Type}, (A -> A -> bool) -> list A -> list A
}.

(** What Go documents of [sort.Slice]: the result is sorted by [less], and
    the sort is not stable.  So the interface promises a sorted permutation
    and nothing about ties. *)
Class Laws (lib : Lib) := {
  Slice_perm : forall (A : Type) (less : A -> A -> bool) (x : list A),
    Permutation x (Slice less x);
  Slice_sorted : forall (A : Type) (less : A -> A -> bool) (x : list A),
    (forall a b, less a b = true -> less b a = false) ->
    (forall a b c, less b a = false -> less c b = false -> less c a = false) ->
    StronglySorted (fun a b => less b a = false) (Slice less x)
}.

End sort.

Module exec.

(** [exec.Command(name, args...).CombinedOutput()]: the captured output and
    [err.Error()] when [err] is not nil. *)
Class Runner := {
  GOOS : string;
  CombinedOutput : string -> list string -> string * option string
}.

End exec.

(** ** Bubble Tea: messages, commands and the two widgets *)

Module tea.

(** The messages [Update] receives.  A key press is identified by
    [msg.String()], which is all the program inspects; [processCompleteMsg]
    is the program's own message type; [OtherMsg] stands for every other
    message of the runtime and of the widgets (cursor blink and the like). *)
Inductive Msg :=
| KeyMsg (key : string)
| WindowSizeMsg (Width Height : Z)
| processCompleteMsg (result error : string)
| OtherMsg (tag : nat).

(** The commands [Update] returns: [nil], [tea.Quit], [textinput.Blink], a
    command handed back by a widget's own [Update], and the closure returned
    by [m.runPythonScript()], which captures the model [m]. *)
Inductive Cmd (model : Type) :=
| Nil
| Quit
| Blink
| Widget
| Script (m : model).

Arguments Nil {model}.
Arguments Quit {model}.
Arguments Blink {model}.
Arguments Widget {model}.
Arguments Script {model} m.

End tea.

Module textinput.

(** [textinput.Model], as far as the program touches it. *)
Record Model := {
  value : string;
  focus : bool;
  Placeholder : string;
  Width : Z
}.

(** [textinput.New()] *)
Definition New : Model :=
  {| value := EmptyString; focus := false; Placeholder := EmptyString; Width := 0%Z |}.

Definition Value (m : Model) : string := value m.

(** [m.SetValue(s)] (for text the widget does not sanitise: no control
    characters, no character limit). *)
Definition SetValue (s : string) (m : Model) : Model :=
  {| value := s; focus := focus m; Placeholder := Placeholder m; Width := Width m |}.

Definition Focus (m : Model) : Model :=
  {| value := value m; focus := true; Placeholder := Placeholder m; Width := Width m |}.

Definition Blur (m : Model) : Model :=
  {| value := value m; focus := false; Placeholder := Placeholder m; Width := Width m |}.

Definition SetPlaceholder (s : string) (m : Model) : Model :=
  {| value := value m; focus := focus m; Placeholder := s; Width := Width m |}.

Definition SetWidth (w : Z) (m : Model) : Model :=
  {| value := value m; focus := focus m; Placeholder := Placeholder m; Width := w |}.

(** The widget's own [Update]; the command it returns is [tea.Widget]. *)
Class Lib := {
  Update : Model -> tea.Msg -> Model
}.

End textinput.

Module list.

(** [list.Model] over items of type [Item]: the items, the cursor, the
    title and the size. *)
Record Model (Item : Type) := {
  items : list Item;
  index : nat;
  Title : string;
  width : Z;
  height : Z
}.

Arguments items {Item} m.
Arguments index {Item} m.
Arguments Title {Item} m.
Arguments width {Item} m.
Arguments height {Item} m.

(** [list.New(items, delegate, width, height)] *)
Definition New {Item : Type} (its : list Item) (w h : Z) : Model Item :=
  {| items := its; index := 0; Title := "List"; width := w; height := h |}.

Definition SetItems {Item : Type} (its : list Item) (m : Model Item) : Model Item :=
  {| items := its; index := index m; Title := Title m; width := width m; height := height m |}.

Definition Select {Item : Type} (i : nat) (m : Model Item) : Model Item :=
  {| items := items m; index := i; Title := Title m; width := width m; height := height m |}.

Definition SetTitle {Item : Type} (t : string) (m : Model Item) : Model Item :=
  {| items := items m; index := index m; Title := t; width := width m; height := height m |}.

Definition SetWidth {Item : Type} (w : Z) (m : Model Item) : Model Item :=
  {| items := items m; index := index m; Title := Title m; width := w; height := height m |}.

Definition SetHeight {Item : Type} (h : Z) (m : Model Item) : Model Item :=
  {| items := items m; index := index m; Title := Title m; width := width m; height := h |}.

(** [m.SelectedItem()]: the item under the cursor, [None] for Go's [nil]
    when the cursor is past the end. *)
Definition SelectedItem {Item : Type} (m : Model Item) : option Item :=
  nth_error (items m) (index m).

(** The widget's own [Update] (cursor movement and the rest). *)
Class Lib := {
  Update : forall {Item : Type}, Model Item -> tea.Msg -> Model Item
}.

End list.

(** A small option monad for the computations that spend fuel. *)
Definition bind {A B : Type} (c : option A) (k : A -> option B) : option B :=
  match c with
  | Some a => k a
  | None => None
  end.

Notation "x <- c ;; k" := (bind c (fun x => k))
  (at level 61, c at next level, right associativity).

(** A handler inside [Update]'s key switch either returns from [Update], or
    leaves the switch with the model as modified so far. *)
Inductive Flow (R M : Type) :=
| Return (r : R)
| Break (m : M).

Arguments Return {R M} r.
Arguments Break {R M} m.

(** ** The rich variant: [src/src/file-indexer-tui/main.go] *)

Module Tui.

(** App states *)
Inductive state :=
| selectingDirectory
| selectingOutput
| selectingLitigant
| configuring
| processing
| finished.

Definition state_eqb (a b : state) : bool :=
  match a, b with
  | selectingDirectory, selectingDirectory
  | selectingOutput, selectingOutput
  | selectingLitigant, selectingLitigant
  | configuring, configuring
  | processing, processing
  | finished, finished => true
  | _, _ => false
  end.

(** Directory item for the list *)
Record directoryItem := {
  name : string;
  path : string;
  isDir : bool;
  modTime : time.Time
}.

(** [type model struct]; the fields [state] and [processing] are spelled
    [m_state] and [m_processing], their names being taken by the type and
    by the state constant. *)
Record model := {
  m_state : state;
  directoryList : list.Model directoryItem;
  currentPath : string;
  outputInput : textinput.Model;
  litigantInput : textinput.Model;
  selectedDir : string;
  outputPath : string;
  litigantName : string;
  exportFormat : string;
  debugMode : bool;
  m_processing : bool;
  result : string;
  error : string;
  width : Z;
  height : Z;
  autocompleteOptions : list string;
  autocompleteIndex : Z;
  showingAutocomplete : bool;
  filtering : bool;
  filterInput : textinput.Model;
  allDirectories : list directoryItem;
  filteredDirs : list directoryItem;
  advancedMode : bool;
  isSpanish : bool
}.

Definition set_state (v : state) (m : model) : model :=
  Build_model v (directoryList m) (currentPath m) (outputInput m) (litigantInput m) (selectedDir m) (outputPath m) (litigantName m) (exportFormat m) (debugMode m) (m_processing m) (result m) (error m) (width m) (height m) (autocompleteOptions m) (autocompleteIndex m) (showingAutocomplete m) (filtering m) (filterInput m) (allDirectories m) (filteredDirs m) (advancedMode m) (isSpanish m).

Definition set_directoryList (v : list.Model directoryItem) (m : model) : model :=
  Build_model (m_state m) v (currentPath m) (outputInput m) (litigantInput m) (selectedDir m) (outputPath m) (litigantName m) (exportFormat m) (debugMode m) (m_processing m) (result m) (error m) (width m) (height m) (autocompleteOptions m) (autocompleteIndex m) (showingAutocomplete m) (filtering m) (filterInput m) (allDirectories m) (filteredDirs m) (advancedMode m) (isSpanish m).

Definition set_currentPath (v : string) (m : model) : model :=
  Build_model (m_state m) (directoryList m) v (outputInput m) (litigantInput m) (selectedDir m) (outputPath m) (litigantName m) (exportFormat m) (debugMode m) (m_processing m) (result m) (error m) (width m) (height m) (autocompleteOptions m) (autocompleteIndex m) (showingAutocomplete m) (filtering m) (filterInput m) (allDirectories m) (filteredDirs m) (advancedMode m) (isSpanish m).

Definition set_outputInput (v : textinput.Model) (m : model) : model :=
  Build_model (m_state m) (directoryList m) (currentPath m) v (litigantInput m) (selectedDir m) (outputPath m) (litigantName m) (exportFormat m) (debugMode m) (m_processing m) (result m) (error m) (width m) (height m) (autocompleteOptions m) (autocompleteIndex m) (showingAutocomplete m) (filtering m) (filterInput m) (allDirectories m) (filteredDirs m) (advancedMode m) (isSpanish m).

Definition set_litigantInput (v : textinput.Model) (m : model) : model :=
  Build_model (m_state m) (directoryList m) (currentPath m) (outputInput m) v (selectedDir m) (outputPath m) (litigantName m) (exportFormat m) (debugMode m) (m_processing m) (result m) (error m) (width m) (height m) (autocompleteOptions m) (autocompleteIndex m) (showingAutocomplete m) (filtering m) (filterInput m) (allDirectories m) (filteredDirs m) (advancedMode m) (isSpanish m).

Definition set_selectedDir (v : string) (m : model) : model :=
  Build_model (m_state m) (directoryList m) (currentPath m) (outputInput m) (litigantInput m) v (outputPath m) (litigantName m) (exportFormat m) (debugMode m) (m_processing m) (result m) (error m) (width m) (height m) (autocompleteOptions m) (autocompleteIndex m) (showingAutocomplete m) (filtering m) (filterInput m) (allDirectories m) (filteredDirs m) (advancedMode m) (isSpanish m).

Definition set_outputPath (v : string) (m : model) : model :=
  Build_model (m_state m) (directoryList m) (currentPath m) (outputInput m) (litigantInput m) (selectedDir m) v (litigantName m) (exportFormat m) (debugMode m) (m_processing m) (result m) (error m) (width m) (height m) (autocompleteOptions m) (autocompleteIndex m) (showingAutocomplete m) (filtering m) (filterInput m) (allDirectories m) (filteredDirs m) (advancedMode m) (isSpanish m).

Definition set_litigantName (v : string) (m : model) : model :=
  Build_model (m_state m) (directoryList m) (currentPath m) (outputInput m) (litigantInput m) (selectedDir m) (outputPath m) v (exportFormat m) (debugMode m) (m_processing m) (result m) (error m) (width m) (height m) (autocompleteOptions m) (autocompleteIndex m) (showingAutocomplete m) (filtering m) (filterInput m) (allDirectories m) (filteredDirs m) (advancedMode m) (isSpanish m).

Definition set_exportFormat (v : string) (m : model) : model :=
  Build_model (m_state m) (directoryList m) (currentPath m) (outputInput m) (litigantInput m) (selectedDir m) (outputPath m) (litigantName m) v (debugMode m) (m_processing m) (result m) (error m) (width m) (height m) (autocompleteOptions m) (autocompleteIndex m) (showingAutocomplete m) (filtering m) (filterInput m) (allDirectories m) (filteredDirs m) (advancedMode m) (isSpanish m).

Definition set_debugMode (v : bool) (m : model) : model :=
  Build_model (m_state m) (directoryList m) (currentPath m) (outputInput m) (litigantInput m) (selectedDir m) (outputPath m) (litigantName m) (exportFormat m) v (m_processing m) (result m) (error m) (width m) (height m) (autocompleteOptions m) (autocompleteIndex m) (showingAutocomplete m) (filtering m) (filterInput m) (allDirectories m) (filteredDirs m) (advancedMode m) (isSpanish m).

Definition set_processing (v : bool) (m : model) : model :=
  Build_model (m_state m) (directoryList m) (currentPath m) (outputInput m) (litigantInput m) (selectedDir m) (outputPath m) (litigantName m) (exportFormat m) (debugMode m) v (result m) (error m) (width m) (height m) (autocompleteOptions m) (autocompleteIndex m) (showingAutocomplete m) (filtering m) (filterInput m) (allDirectories m) (filteredDirs m) (advancedMode m) (isSpanish m).

Definition set_result (v : string) (m : model) : model :=
  Build_model (m_state m) (directoryList m) (currentPath m) (outputInput m) (litigantInput m) (selectedDir m) (outputPath m) (litigantName m) (exportFormat m) (debugMode m) (m_processing m) v (error m) (width m) (height m) (autocompleteOptions m) (autocompleteIndex m) (showingAutocomplete m) (filtering m) (filterInput m) (allDirectories m) (filteredDirs m) (advancedMode m) (isSpanish m).

Definition set_error (v : string) (m : model) : model :=
  Build_model (m_state m) (directoryList m) (currentPath m) (outputInput m) (litigantInput m) (selectedDir m) (outputPath m) (litigantName m) (exportFormat m) (debugMode m) (m_processing m) (result m) v (width m) (height m) (autocompleteOptions m) (autocompleteIndex m) (showingAutocomplete m) (filtering m) (filterInput m) (allDirectories m) (filteredDirs m) (advancedMode m) (isSpanish m).

Definition set_width (v : Z) (m : model) : model :=
  Build_model (m_state m) (directoryList m) (currentPath m) (outputInput m) (litigantInput m) (selectedDir m) (outputPath m) (litigantName m) (exportFormat m) (debugMode m) (m_processing m) (result m) (error m) v (height m) (autocompleteOptions m) (autocompleteIndex m) (showingAutocomplete m) (filtering m) (filterInput m) (allDirectories m) (filteredDirs m) (advancedMode m) (isSpanish m).

Definition set_height (v : Z) (m : model) : model :=
  Build_model (m_state m) (directoryList m) (currentPath m) (outputInput m) (litigantInput m) (selectedDir m) (outputPath m) (litigantName m) (exportFormat m) (debugMode m) (m_processing m) (result m) (error m) (width m) v (autocompleteOptions m) (autocompleteIndex m) (showingAutocomplete m) (filtering m) (filterInput m) (allDirectories m) (filteredDirs m) (advancedMode m) (isSpanish m).

Definition set_filtering (v : bool) (m : model) : model :=
  Build_model (m_state m) (directoryList m) (currentPath m) (outputInput m) (litigantInput m) (selectedDir m) (outputPath m) (litigantName m) (exportFormat m) (debugMode m) (m_processing m) (result m) (error m) (width m) (height m) (autocompleteOptions m) (autocompleteIndex m) (showingAutocomplete m) v (filterInput m) (allDirectories m) (filteredDirs m) (advancedMode m) (isSpanish m).

Definition set_filterInput (v : textinput.Model) (m : model) : model :=
  Build_model (m_state m) (directoryList m) (currentPath m) (outputInput m) (litigantInput m) (selectedDir m) (outputPath m) (litigantName m) (exportFormat m) (debugMode m) (m_processing m) (result m) (error m) (width m) (height m) (autocompleteOptions m) (autocompleteIndex m) (showingAutocomplete m) (filtering m) v (allDirectories m) (filteredDirs m) (advancedMode m) (isSpanish m).

Definition set_allDirectories (v : list directoryItem) (m : model) : model :=
  Build_model (m_state m) (directoryList m) (currentPath m) (outputInput m) (litigantInput m) (selectedDir m) (outputPath m) (litigantName m) (exportFormat m) (debugMode m) (m_processing m) (result m) (error m) (width m) (height m) (autocompleteOptions m) (autocompleteIndex m) (showingAutocomplete m) (filtering m) (filterInput m) v (filteredDirs m) (advancedMode m) (isSpanish m).

Definition set_filteredDirs (v : list directoryItem) (m : model) : model :=
  Build_model (m_state m) (directoryList m) (currentPath m) (outputInput m) (litigantInput m) (selectedDir m) (outputPath m) (litigantName m) (exportFormat m) (debugMode m) (m_processing m) (result m) (error m) (width m) (height m) (autocompleteOptions m) (autocompleteIndex m) (showingAutocomplete m) (filtering m) (filterInput m) (allDirectories m) v (advancedMode m) (isSpanish m).

Definition set_advancedMode (v : bool) (m : model) : model :=
  Build_model (m_state m) (directoryList m) (currentPath m) (outputInput m) (litigantInput m) (selectedDir m) (outputPath m) (litigantName m) (exportFormat m) (debugMode m) (m_processing m) (result m) (error m) (width m) (height m) (autocompleteOptions m) (autocompleteIndex m) (showingAutocomplete m) (filtering m) (filterInput m) (allDirectories m) (filteredDirs m) v (isSpanish m).

Definition set_isSpanish (v : bool) (m : model) : model :=
  Build_model (m_state m) (directoryList m) (currentPath m) (outputInput m) (litigantInput m) (selectedDir m) (outputPath m) (litigantName m) (exportFormat m) (debugMode m) (m_processing m) (result m) (error m) (width m) (height m) (autocompleteOptions m) (autocompleteIndex m) (showingAutocomplete m) (filtering m) (filterInput m) (allDirectories m) (filteredDirs m) (advancedMode m) v.


Section Program.

Context {unicode : strings.Unicode} {paths : filepath.Lib} {sorting : sort.Lib}.
Context {host : os.Host} {runner : exec.Runner}.
Context {inputs : textinput.Lib} {lists : list.Lib}.

(** [getDownloadsDirectory]: the first of the candidate directories that
    exists and is a directory. *)
Definition getDownloadsDirectory : string :=
  match os.UserHomeDir with
  | None => "."
  | Some userDir =>
      let downloadDirs :=
        [ filepath.Join userDir "Downloads";
          filepath.Join userDir "Download";
          filepath.Join userDir "Documents";
          userDir;
          "." ] in
      match
        find (fun dir => match os.Stat dir with
                         | Some info => os.Mode_IsDir info
                         | None => false
                         end) downloadDirs
      with
      | Some dir => dir
      | None => "."
      end
  end.

(** The second loop of [isDirEmpty]: the first subdirectory that is not
    empty makes the directory non-empty.  [isDirEmpty'] is the recursive
    call. *)
Fixpoint subdirsEmpty (isDirEmpty' : string -> option bool) (dirPath : string)
    (entries : list os.DirEntry) : option bool :=
  match entries with
  | [] => Some true
  | entry :: rest =>
      if os.IsDir entry then
        let subPath := filepath.Join dirPath (os.Name entry) in
        match isDirEmpty' subPath with
        | None => None
        | Some false => Some false
        | Some true => subdirsEmpty isDirEmpty' dirPath rest
        end
      else subdirsEmpty isDirEmpty' dirPath rest
  end.

(** [isDirEmpty]; [None] when the recursion budget is exhausted. *)
Fixpoint isDirEmpty (fuel : nat) (dirPath : string) : option bool :=
  match fuel with
  | O => None
  | S fuel' =>
      match os.ReadDir dirPath with
      | None => Some true
      | Some entries =>
          if existsb (fun entry => negb (os.IsDir entry)) entries
          then Some false
          else subdirsEmpty (isDirEmpty fuel') dirPath entries
      end
  end.

(** The parent entry of [getDirectoryItems], present when
    [filepath.Dir(dirPath) != dirPath]. *)
Definition parentItems (dirPath : string) : list directoryItem :=
  let parent := filepath.Dir dirPath in
  if String.eqb parent dirPath then []
  else [ {| name := ".."; path := parent; isDir := true; modTime := time.zero |} ].

(** The item [getDirectoryItems] builds for a directory entry. *)
Definition itemOf (dirPath : string) (entry : os.DirEntry) : directoryItem :=
  {| name := os.Name entry;
     path := filepath.Join dirPath (os.Name entry);
     isDir := true;
     modTime := match os.Info entry with
                | Some info => os.ModTime info
                | None => time.zero
                end |}.

(** The names [getDirectoryItems] skips: empty, hidden, blank. *)
Definition skippedName (name : string) : bool :=
  String.eqb name "" || strings.HasPrefix name "." ||
  Nat.eqb (String.length (strings.TrimSpace name)) 0.

(** The collecting loop of [getDirectoryItems], [dirItems] being the slice
    appended to. *)
Fixpoint collectDirs (fuel : nat) (dirPath : string) (entries : list os.DirEntry)
    (dirItems : list directoryItem) : option (list directoryItem) :=
  match entries with
  | [] => Some dirItems
  | entry :: rest =>
      if os.IsDir entry then
        if skippedName (os.Name entry) then collectDirs fuel dirPath rest dirItems
        else
          let fullPath := filepath.Join dirPath (os.Name entry) in
          empty <- isDirEmpty fuel fullPath ;;
          if negb empty
          then collectDirs fuel dirPath rest (dirItems ++ [itemOf dirPath entry])%list
          else collectDirs fuel dirPath rest dirItems
      else collectDirs fuel dirPath rest dirItems
  end.

(** The order [getDirectoryItems] sorts by: most recent first. *)
Definition moreRecent (a b : directoryItem) : bool :=
  time.After (modTime a) (modTime b).

Definition getDirectoryItems (fuel : nat) (dirPath : string) : option (list directoryItem) :=
  let items := parentItems dirPath in
  match os.ReadDir dirPath with
  | None => Some items
  | Some entries =>
      dirItems <- collectDirs fuel dirPath entries [] ;;
      Some (items ++ sort.Slice moreRecent dirItems)%list
  end.

(** Every [list.Item] of the program is a [directoryItem], so the type
    assertion always succeeds. *)
Definition convertToDirectoryItems (items : list directoryItem) : list directoryItem :=
  items.

Definition filterDirectories (dirs : list directoryItem) (filter : string)
    : list directoryItem :=
  if String.eqb filter "" then dirs
  else
    let filter := strings.ToLower filter in
    fold_left
      (fun filtered dir =>
         if strings.Contains (strings.ToLower (name dir)) filter
         then (filtered ++ [dir])%list
         else filtered)
      dirs [].

Definition initialModel (fuel : nat) : option model :=
  let startDir := getDownloadsDirectory in
  items <- getDirectoryItems fuel startDir ;;
  let directoryList :=
    list.SetTitle ("Navigate: " ++ startDir) (list.New items 120 15) in
  let ti :=
    textinput.SetWidth 100
      (textinput.Focus
         (textinput.SetPlaceholder "Enter filename (e.g. my_index.xlsx)" textinput.New)) in
  let filterInput :=
    textinput.SetWidth 100
      (textinput.SetPlaceholder "Type to filter directories..." textinput.New) in
  let litigantInput :=
    textinput.SetWidth 100
      (textinput.SetPlaceholder "Enter litigant name (e.g. Juan Pérez)" textinput.New) in
  Some {| m_state := selectingDirectory;
          directoryList := directoryList;
          currentPath := startDir;
          outputInput := ti;
          litigantInput := litigantInput;
          selectedDir := "";
          outputPath := "";
          litigantName := "";
          exportFormat := "excel";
          debugMode := false;
          m_processing := false;
          result := "";
          error := "";
          width := 0;
          height := 0;
          autocompleteOptions := [];
          autocompleteIndex := 0;
          showingAutocomplete := false;
          filtering := false;
          filterInput := filterInput;
          allDirectories := convertToDirectoryItems items;
          filteredDirs := [];
          advancedMode := false;
          isSpanish := true |}.

(** *** The companion process *)

Definition findPythonScript : string :=
  match os.Executable with
  | None => ""
  | Some execPath =>
      let execDir := filepath.Dir execPath in
      let searchPaths :=
        [ filepath.Join execDir "file_metadata_extractor.py";
          "file_metadata_extractor.py";
          filepath.Join ".." "file_metadata_extractor.py" ] in
      match
        find (fun path => match os.Stat path with
                          | Some _ => true
                          | None => false
                          end) searchPaths
      with
      | Some path => path
      | None => ""
      end
  end.

(** The file name given to the companion: [.csv] or [.xlsx] is appended
    when the name holds no dot. *)
Definition outputFilename (m : model) : string :=
  let filename := outputPath m in
  if negb (strings.Contains filename ".") then
    if String.eqb (exportFormat m) "csv"
    then filename ++ ".csv"
    else filename ++ ".xlsx"
  else filename.

Definition fullOutputPath (m : model) : string :=
  filepath.Join (selectedDir m) (outputFilename m).

(** The argument list [runPythonScript] builds ("Build command arguments"
    up to "Add litigant name if provided"). *)
Definition scriptArgs (m : model) (scriptPath : string) : list string :=
  let args := [scriptPath] in
  let args := (args ++ ["--directory"; selectedDir m])%list in
  let args := (args ++ ["--output"; fullOutputPath m])%list in
  let args :=
    if String.eqb (exportFormat m) "csv" then (args ++ ["--csv-only"])%list
    else if String.eqb (exportFormat m) "both" then (args ++ ["--csv"])%list
    else args in
  let args := if debugMode m then (args ++ ["--debug"])%list else args in
  let args :=
    if negb (String.eqb (litigantName m) "")
    then (args ++ ["--litigant"; litigantName m])%list
    else args in
  args.

(** The text shown when the companion fails. *)
Definition executionError (err output : string) : string :=
  let errorMsg := "❌ Python execution failed: " ++ err ++ nl ++ nl in
  let errorMsg :=
    if strings.Contains err "executable file not found" then
      errorMsg ++ "🐍 Python is not installed or not in PATH" ++ nl ++ nl
        ++ "Solutions:" ++ nl
        ++ "1. Install Python from https://python.org" ++ nl
        ++ "2. Make sure 'Add Python to PATH' is checked during installation" ++ nl
        ++ "3. Restart this application after installing Python" ++ nl ++ nl
    else errorMsg in
  errorMsg ++ "📋 Output:" ++ nl ++ output.

(** The saved path read back from the output, [fullOutputPath] when the
    output does not mention one. *)
Definition savedPathOf (outputStr fullOutputPath : string) : string :=
  if strings.Contains outputStr "saved to:" then
    match find (fun line => strings.Contains line "saved to:")
               (strings.Split outputStr nl) with
    | Some line =>
        match strings.Split line "saved to:" with
        | _ :: part :: _ => strings.TrimSpace part
        | _ => fullOutputPath
        end
    | None => fullOutputPath
    end
  else fullOutputPath.

(** The word before the first word (not the first of the line) that
    contains "file". *)
Fixpoint wordBeforeFile (prev : option string) (words : list string) : option string :=
  match words with
  | [] => None
  | word :: rest =>
      match prev with
      | Some p => if strings.Contains word "file" then Some p
                  else wordBeforeFile (Some word) rest
      | None => wordBeforeFile (Some word) rest
      end
  end.

Definition fileCountOf (outputStr : string) : string :=
  if strings.Contains outputStr "processed" then
    match find (fun line => strings.Contains line "processed" && strings.Contains line "file")
               (strings.Split outputStr nl) with
    | Some line =>
        match wordBeforeFile None (strings.Fields line) with
        | Some count => count
        | None => "multiple"
        end
    | None => "multiple"
    end
  else "multiple".

Definition companionNotFound : string :=
  "❌ Could not find file_metadata_extractor.py" ++ nl ++ nl
  ++ "Please ensure the Python script is in the same directory as this executable."
  ++ nl ++ nl ++ "Required files:" ++ nl
  ++ "• file_metadata_extractor.py" ++ nl ++ "• requirements.txt".

(** The message produced by the command [m.runPythonScript()]. *)
Definition runPythonScript (m : model) : tea.Msg :=
  let scriptPath := findPythonScript in
  if String.eqb scriptPath "" then tea.processCompleteMsg "" companionNotFound
  else
    let args := scriptArgs m scriptPath in
    let python := if String.eqb exec.GOOS "windows" then "python" else "python3" in
    match exec.CombinedOutput python args with
    | (output, Some err) => tea.processCompleteMsg "" (executionError err output)
    | (output, None) =>
        let savedPath := savedPathOf output (fullOutputPath m) in
        let fileCount := fileCountOf output in
        tea.processCompleteMsg
          ("🎉 Index created successfully!" ++ nl ++ nl
           ++ "📋 Files processed: " ++ fileCount ++ nl
           ++ "💾 Saved to: " ++ savedPath ++ nl ++ nl
           ++ "✅ Your file index is ready to use!")
          ""
    end.

(** *** [Update] *)

Definition Cmd : Type := tea.Cmd model.
Definition Handled : Type := Flow (model * Cmd) model.

(** Go's ["\x04"], how some terminals report Ctrl+D. *)
Definition ctrl_d_byte : string := String (ascii_of_nat 4) EmptyString.

(** The block repeated at every change of directory: list [m.currentPath]
    again, put the cursor on the first item, set the title. *)
Definition relist (fuel : nat) (m : model) : option model :=
  items <- getDirectoryItems fuel (currentPath m) ;;
  let m := set_directoryList
             (list.SetTitle ("Navigate: " ++ currentPath m)
                (list.Select 0 (list.SetItems items (directoryList m)))) m in
  Some (set_allDirectories (convertToDirectoryItems items) m).

(** Leaving step 1 with [dir] as the directory to index. *)
Definition chooseDirectory (dir : string) (m : model) : model :=
  let m := set_selectedDir dir m in
  let m := set_state selectingOutput m in
  set_outputInput (textinput.SetValue "index" (outputInput m)) m.

(** [case selectingDirectory], [if m.filtering] *)
Definition keyFiltering (fuel : nat) (m : model) (msg : tea.Msg) (key : string)
    : option Handled :=
  if String.eqb key "ctrl+c" || String.eqb key "q" then Some (Return (m, tea.Quit))
  else if String.eqb key "esc" then
    let m := set_filtering false m in
    let m := set_filterInput (textinput.Blur (textinput.SetValue "" (filterInput m))) m in
    m <- relist fuel m ;;
    Some (Return (m, tea.Nil))
  else if String.eqb key "enter" then
    let m := set_filtering false m in
    let m := set_filterInput (textinput.Blur (filterInput m)) m in
    Some (Return (m, tea.Nil))
  else if String.eqb key "tab" then
    let m := match filteredDirs m with
             | first :: _ =>
                 set_filterInput (textinput.SetValue (name first) (filterInput m)) m
             | [] => m
             end in
    Some (Return (m, tea.Nil))
  else
    let m := set_filterInput (textinput.Update (filterInput m) msg) m in
    let filterText := textinput.Value (filterInput m) in
    let m := set_filteredDirs (filterDirectories (allDirectories m) filterText) m in
    let m := set_directoryList
               (list.Select 0 (list.SetItems (filteredDirs m) (directoryList m))) m in
    Some (Return (m, tea.Widget)).

(** Entering the highlighted directory ([n] and [right]). *)
Definition descend (fuel : nat) (m : model) : option Handled :=
  match list.SelectedItem (directoryList m) with
  | Some selected =>
      if isDir selected && negb (String.eqb (name selected) "..") then
        m <- relist fuel (set_currentPath (path selected) m) ;;
        Some (Return (m, tea.Nil))
      else Some (Break m)
  | None => Some (Break m)
  end.

(** [case selectingDirectory], normal navigation *)
Definition keyNavigating (fuel : nat) (m : model) (key : string) : option Handled :=
  if String.eqb key "ctrl+c" || String.eqb key "q" then Some (Return (m, tea.Quit))
  else if String.eqb key "ctrl+d" then
    Some (Return (set_advancedMode (negb (advancedMode m)) m, tea.Nil))
  else if String.eqb key "i" then
    let m := set_filtering true m in
    let m := set_filterInput (textinput.SetValue "" (textinput.Focus (filterInput m))) m in
    items <- getDirectoryItems fuel (currentPath m) ;;
    let m := set_directoryList
               (list.SetTitle ("Filter in: " ++ currentPath m) (directoryList m)) m in
    let m := set_allDirectories (convertToDirectoryItems items) m in
    let m := set_filteredDirs (allDirectories m) m in
    Some (Return (m, tea.Blink))
  else if String.eqb key "enter" then
    match list.SelectedItem (directoryList m) with
    | Some selected =>
        if String.eqb (name selected) ".." then
          m <- relist fuel (set_currentPath (path selected) m) ;;
          Some (Return (m, tea.Nil))
        else Some (Return (chooseDirectory (path selected) m, tea.Nil))
    | None => Some (Break m)
    end
  else if String.eqb key "n" then descend fuel m
  else if String.eqb key " " || String.eqb key "space" then
    Some (Return (chooseDirectory (currentPath m) m, tea.Nil))
  else if String.eqb key "left" then
    let parentDir := filepath.Dir (currentPath m) in
    if negb (String.eqb parentDir (currentPath m)) then
      m <- relist fuel (set_currentPath parentDir m) ;;
      Some (Return (m, tea.Nil))
    else Some (Break m)
  else if String.eqb key "right" then descend fuel m
  else Some (Break m).

(** Confirming the output name: on to the litigant step. *)
Definition confirmOutput (m : model) : model :=
  let m := set_outputPath (textinput.Value (outputInput m)) m in
  let m := set_state selectingLitigant m in
  set_litigantInput (textinput.Focus (litigantInput m)) m.

(** [case selectingOutput] *)
Definition keyOutput (m : model) (key : string) : Handled :=
  if String.eqb key "ctrl+c" || String.eqb key "q" then Return (m, tea.Quit)
  else if String.eqb key "ctrl+d" || String.eqb key ctrl_d_byte then
    let m := set_advancedMode (negb (advancedMode m)) m in
    let m :=
      if negb (String.eqb (strings.TrimSpace (textinput.Value (outputInput m))) "")
      then confirmOutput m
      else m in
    Return (m, tea.Nil)
  else if String.eqb key "b" || String.eqb key "backspace" || String.eqb key "esc" then
    Return (set_state selectingDirectory m, tea.Nil)
  else if String.eqb key "enter" then
    if negb (String.eqb (textinput.Value (outputInput m)) "")
    then Return (confirmOutput m, tea.Nil)
    else Break m
  else Break m.

(** [case selectingLitigant] *)
Definition keyLitigant (m : model) (key : string) : Handled :=
  if String.eqb key "ctrl+c" || String.eqb key "q" then Return (m, tea.Quit)
  else if String.eqb key "b" || String.eqb key "backspace" || String.eqb key "esc" then
    let m := set_state selectingOutput m in
    Return (set_outputInput (textinput.Focus (outputInput m)) m, tea.Nil)
  else if String.eqb key "enter" then
    let m := set_litigantName (textinput.Value (litigantInput m)) m in
    Return (set_state configuring m, tea.Nil)
  else Break m.

(** [case configuring] *)
Definition keyConfiguring (m : model) (key : string) : Handled :=
  if String.eqb key "ctrl+c" || String.eqb key "q" then Return (m, tea.Quit)
  else if String.eqb key "ctrl+d" || String.eqb key ctrl_d_byte then
    Return (set_advancedMode (negb (advancedMode m)) m, tea.Nil)
  else if String.eqb key "1" then Return (set_state selectingDirectory m, tea.Nil)
  else if String.eqb key "2" then Return (set_state selectingOutput m, tea.Nil)
  else if String.eqb key "3" then
    let m := set_state selectingLitigant m in
    Return (set_litigantInput (textinput.Focus (litigantInput m)) m, tea.Nil)
  else if String.eqb key "4" then
    if advancedMode m then
      if String.eqb (exportFormat m) "excel" then Break (set_exportFormat "csv" m)
      else if String.eqb (exportFormat m) "csv" then Break (set_exportFormat "both" m)
      else Break (set_exportFormat "excel" m)
    else Break m
  else if String.eqb key "d" then
    if advancedMode m then Break (set_debugMode (negb (debugMode m)) m) else Break m
  else if String.eqb key "b" || String.eqb key "backspace" || String.eqb key "esc" then
    Return (set_state selectingOutput m, tea.Nil)
  else if String.eqb key "enter" then
    let m := set_state processing m in
    Return (m, tea.Script m)
  else Break m.

(** [case processing] *)
Definition keyProcessing (m : model) (key : string) : Handled :=
  if String.eqb key "ctrl+c" || String.eqb key "q" then Return (m, tea.Quit)
  else Break m.

(** [case finished] *)
Definition keyFinished (fuel : nat) (m : model) (key : string) : option Handled :=
  if String.eqb key "ctrl+c" || String.eqb key "q" then Some (Return (m, tea.Quit))
  else if String.eqb key "r" then
    m0 <- initialModel fuel ;; Some (Return (m0, tea.Nil))
  else if String.eqb key "b" || String.eqb key "backspace" then
    let m := set_state configuring m in
    let m := set_error "" m in
    let m := set_result "" m in
    Some (Return (m, tea.Nil))
  else if String.eqb key "enter" || String.eqb key "esc" then Some (Return (m, tea.Quit))
  else Some (Break m).

(** [switch m.state] inside [case tea.KeyMsg] *)
Definition keyByState (fuel : nat) (m : model) (msg : tea.Msg) (key : string)
    : option Handled :=
  match m_state m with
  | selectingDirectory =>
      if filtering m then keyFiltering fuel m msg key else keyNavigating fuel m key
  | selectingOutput => Some (keyOutput m key)
  | selectingLitigant => Some (keyLitigant m key)
  | configuring => Some (keyConfiguring m key)
  | processing => Some (keyProcessing m key)
  | finished => keyFinished fuel m key
  end.

(** "Update components based on state": the end of [Update], reached by
    every message the switch above does not return from. *)
Definition updateComponents (m : model) (msg : tea.Msg) : model * Cmd :=
  match m_state m with
  | selectingDirectory =>
      match msg with
      | tea.KeyMsg key =>
          if String.eqb key "up" || String.eqb key "down"
             || String.eqb key "j" || String.eqb key "k" then
            (set_directoryList (list.Update (directoryList m) msg) m, tea.Widget)
          else if String.eqb key "left" || String.eqb key "right" then (m, tea.Nil)
          else if negb (filtering m) then
            (set_directoryList (list.Update (directoryList m) msg) m, tea.Widget)
          else (m, tea.Nil)
      | _ => (m, tea.Nil)
      end
  | selectingOutput =>
      (set_outputInput (textinput.Update (outputInput m) msg) m, tea.Widget)
  | selectingLitigant =>
      (set_litigantInput (textinput.Update (litigantInput m) msg) m, tea.Widget)
  | _ => (m, tea.Nil)
  end.

Definition Update (fuel : nat) (m : model) (msg : tea.Msg) : option (model * Cmd) :=
  match msg with
  | tea.WindowSizeMsg Width Height =>
      let m := set_width Width m in
      let m := set_height Height m in
      let m := set_directoryList (list.SetWidth (Width - 6) (directoryList m)) m in
      let m := set_directoryList (list.SetHeight (Height - 10) (directoryList m)) m in
      Some (m, tea.Nil)
  | tea.KeyMsg key =>
      (* Global shortcuts available in all states *)
      if String.eqb key "ctrl+e" then
        Some (set_isSpanish (negb (isSpanish m)) m, tea.Nil)
      else if String.eqb key "r" && negb (state_eqb (m_state m) processing) then
        m0 <- initialModel fuel ;; Some (m0, tea.Nil)
      else
        handled <- keyByState fuel m msg key ;;
        match handled with
        | Return r => Some r
        | Break m => Some (updateComponents m msg)
        end
  | tea.processCompleteMsg result error =>
      let m := set_processing false m in
      let m := if negb (String.eqb error "") then set_error error m
               else set_result result m in
      let m := set_state finished m in
      Some (m, tea.Nil)
  | tea.OtherMsg _ => Some (updateComponents m msg)
  end.

End Program.

End Tui.

(** ** The simple variant: [src/main.go] *)

Module Simple.

(** App states *)
Inductive state :=
| selectingDirectory
| selectingOutput
| configuring
| processing
| finished.

(** Directory item for the list *)
Record directoryItem := {
  name : string;
  path : string;
  isDir : bool
}.

(** [type model struct] *)
Record model := {
  m_state : state;
  directoryList : list.Model directoryItem;
  currentPath : string;
  outputInput : textinput.Model;
  selectedDir : string;
  outputPath : string;
  exportFormat : string;
  debugMode : bool;
  m_processing : bool;
  result : string;
  error : string;
  width : Z;
  height : Z;
  autocompleteOptions : list string;
  autocompleteIndex : Z;
  showingAutocomplete : bool
}.

Definition set_state (v : state) (m : model) : model :=
  Build_model v (directoryList m) (currentPath m) (outputInput m) (selectedDir m) (outputPath m) (exportFormat m) (debugMode m) (m_processing m) (result m) (error m) (width m) (height m) (autocompleteOptions m) (autocompleteIndex m) (showingAutocomplete m).

Definition set_directoryList (v : list.Model directoryItem) (m : model) : model :=
  Build_model (m_state m) v (currentPath m) (outputInput m) (selectedDir m) (outputPath m) (exportFormat m) (debugMode m) (m_processing m) (result m) (error m) (width m) (height m) (autocompleteOptions m) (autocompleteIndex m) (showingAutocomplete m).

Definition set_currentPath (v : string) (m : model) : model :=
  Build_model (m_state m) (directoryList m) v (outputInput m) (selectedDir m) (outputPath m) (exportFormat m) (debugMode m) (m_processing m) (result m) (error m) (width m) (height m) (autocompleteOptions m) (autocompleteIndex m) (showingAutocomplete m).

Definition set_outputInput (v : textinput.Model) (m : model) : model :=
  Build_model (m_state m) (directoryList m) (currentPath m) v (selectedDir m) (outputPath m) (exportFormat m) (debugMode m) (m_processing m) (result m) (error m) (width m) (height m) (autocompleteOptions m) (autocompleteIndex m) (showingAutocomplete m).

Definition set_selectedDir (v : string) (m : model) : model :=
  Build_model (m_state m) (directoryList m) (currentPath m) (outputInput m) v (outputPath m) (exportFormat m) (debugMode m) (m_processing m) (result m) (error m) (width m) (height m) (autocompleteOptions m) (autocompleteIndex m) (showingAutocomplete m).

Definition set_outputPath (v : string) (m : model) : model :=
  Build_model (m_state m) (directoryList m) (currentPath m) (outputInput m) (selectedDir m) v (exportFormat m) (debugMode m) (m_processing m) (result m) (error m) (width m) (height m) (autocompleteOptions m) (autocompleteIndex m) (showingAutocomplete m).

Definition set_exportFormat (v : string) (m : model) : model :=
  Build_model (m_state m) (directoryList m) (currentPath m) (outputInput m) (selectedDir m) (outputPath m) v (debugMode m) (m_processing m) (result m) (error m) (width m) (height m) (autocompleteOptions m) (autocompleteIndex m) (showingAutocomplete m).

Definition set_debugMode (v : bool) (m : model) : model :=
  Build_model (m_state m) (directoryList m) (currentPath m) (outputInput m) (selectedDir m) (outputPath m) (exportFormat m) v (m_processing m) (result m) (error m) (width m) (height m) (autocompleteOptions m) (autocompleteIndex m) (showingAutocomplete m).

Definition set_processing (v : bool) (m : model) : model :=
  Build_model (m_state m) (directoryList m) (currentPath m) (outputInput m) (selectedDir m) (outputPath m) (exportFormat m) (debugMode m) v (result m) (error m) (width m) (height m) (autocompleteOptions m) (autocompleteIndex m) (showingAutocomplete m).

Definition set_result (v : string) (m : model) : model :=
  Build_model (m_state m) (directoryList m) (currentPath m) (outputInput m) (selectedDir m) (outputPath m) (exportFormat m) (debugMode m) (m_processing m) v (error m) (width m) (height m) (autocompleteOptions m) (autocompleteIndex m) (showingAutocomplete m).

Definition set_error (v : string) (m : model) : model :=
  Build_model (m_state m) (directoryList m) (currentPath m) (outputInput m) (selectedDir m) (outputPath m) (exportFormat m) (debugMode m) (m_processing m) (result m) v (width m) (height m) (autocompleteOptions m) (autocompleteIndex m) (showingAutocomplete m).

Definition set_width (v : Z) (m : model) : model :=
  Build_model (m_state m) (directoryList m) (currentPath m) (outputInput m) (selectedDir m) (outputPath m) (exportFormat m) (debugMode m) (m_processing m) (result m) (error m) v (height m) (autocompleteOptions m) (autocompleteIndex m) (showingAutocomplete m).

Definition set_height (v : Z) (m : model) : model :=
  Build_model (m_state m) (directoryList m) (currentPath m) (outputInput m) (selectedDir m) (outputPath m) (exportFormat m) (debugMode m) (m_processing m) (result m) (error m) (width m) v (autocompleteOptions m) (autocompleteIndex m) (showingAutocomplete m).


Section Program.

Context {paths : filepath.Lib} {host : os.Host} {runner : exec.Runner}.
Context {inputs : textinput.Lib} {lists : list.Lib}.

Definition getDownloadsDirectory : string :=
  match os.UserHomeDir with
  | None => "."
  | Some userDir =>
      let downloadDirs :=
        [ filepath.Join userDir "Downloads";
          filepath.Join userDir "Download";
          filepath.Join userDir "Documents";
          userDir;
          "." ] in
      match
        find (fun dir => match os.Stat dir with
                         | Some info => os.Mode_IsDir info
                         | None => false
                         end) downloadDirs
      with
      | Some dir => dir
      | None => "."
      end
  end.

(** The parent entry, present when [filepath.Dir(dirPath) != dirPath]. *)
Definition parentItems (dirPath : string) : list directoryItem :=
  let parent := filepath.Dir dirPath in
  if String.eqb parent dirPath then []
  else [ {| name := ".."; path := parent; isDir := true |} ].

Definition itemOf (dirPath : string) (dir : bool) (entry : os.DirEntry) : directoryItem :=
  {| name := os.Name entry;
     path := filepath.Join dirPath (os.Name entry);
     isDir := dir |}.

(** Directories first, then the first 20 files. *)
Definition getDirectoryItems (dirPath : string) : list directoryItem :=
  let items := parentItems dirPath in
  match os.ReadDir dirPath with
  | None => items
  | Some entries =>
      let dirs := filter os.IsDir entries in
      let files := filter (fun entry => negb (os.IsDir entry)) entries in
      let items := (items ++ map (itemOf dirPath true) dirs)%list in
      (items ++ map (itemOf dirPath false) (firstn 20 files))%list
  end.

Definition initialModel : model :=
  let startDir := getDownloadsDirectory in
  let items := getDirectoryItems startDir in
  let directoryList :=
    list.SetTitle "Select Directory to Index" (list.New items 60 15) in
  let ti :=
    textinput.SetWidth 50
      (textinput.Focus
         (textinput.SetPlaceholder "Enter filename (e.g. my_index.xlsx)" textinput.New)) in
  {| m_state := selectingDirectory;
     directoryList := directoryList;
     currentPath := startDir;
     outputInput := ti;
     selectedDir := "";
     outputPath := "";
     exportFormat := "both";
     debugMode := false;
     m_processing := false;
     result := "";
     error := "";
     width := 0;
     height := 0;
     autocompleteOptions := [];
     autocompleteIndex := 0;
     showingAutocomplete := false |}.

(** *** The companion process *)

Definition findPythonScript : string :=
  match os.Executable with
  | None => ""
  | Some execPath =>
      let execDir := filepath.Dir execPath in
      let searchPaths :=
        [ filepath.Join execDir "file_metadata_extractor.py";
          "file_metadata_extractor.py";
          filepath.Join ".." "file_metadata_extractor.py" ] in
      match
        find (fun path => match os.Stat path with
                          | Some _ => true
                          | None => false
                          end) searchPaths
      with
      | Some path => path
      | None => ""
      end
  end.

(** The argument list of this variant: the output name is passed as typed. *)
Definition scriptArgs (m : model) (scriptPath : string) : list string :=
  let args := [scriptPath] in
  let args := (args ++ ["--directory"; selectedDir m])%list in
  let args := (args ++ ["--output"; outputPath m])%list in
  let args :=
    if String.eqb (exportFormat m) "csv" then (args ++ ["--csv-only"])%list
    else if String.eqb (exportFormat m) "both" then (args ++ ["--csv"])%list
    else args in
  let args := if debugMode m then (args ++ ["--debug"])%list else args in
  args.

Definition executionError (err output : string) : string :=
  let errorMsg := "❌ Python execution failed: " ++ err ++ nl ++ nl in
  let errorMsg :=
    if strings.Contains err "executable file not found" then
      errorMsg ++ "🐍 Python is not installed or not in PATH" ++ nl ++ nl
        ++ "Solutions:" ++ nl
        ++ "1. Install Python from https://python.org" ++ nl
        ++ "2. Make sure 'Add Python to PATH' is checked during installation" ++ nl
        ++ "3. Restart this application after installing Python" ++ nl ++ nl
    else errorMsg in
  errorMsg ++ "📋 Output:" ++ nl ++ output.

Definition companionNotFound : string :=
  "❌ Could not find file_metadata_extractor.py" ++ nl ++ nl
  ++ "Please ensure the Python script is in the same directory as this executable."
  ++ nl ++ nl ++ "Required files:" ++ nl
  ++ "• file_metadata_extractor.py" ++ nl ++ "• requirements.txt".

Definition runPythonScript (m : model) : tea.Msg :=
  let scriptPath := findPythonScript in
  if String.eqb scriptPath "" then tea.processCompleteMsg "" companionNotFound
  else
    let args := scriptArgs m scriptPath in
    let python := if String.eqb exec.GOOS "windows" then "python" else "python3" in
    match exec.CombinedOutput python args with
    | (output, Some err) => tea.processCompleteMsg "" (executionError err output)
    | (output, None) =>
        tea.processCompleteMsg
          ("🎉 Files successfully processed!" ++ nl ++ nl ++ "📊 Results:" ++ nl ++ output)
          ""
    end.

(** *** [Update] *)

Definition Cmd : Type := tea.Cmd model.
Definition Handled : Type := Flow (model * Cmd) model.

(** "Auto-complete file extension": the Tab key of step 2. *)
Definition toggleExtension (exportFormat current : string) : string :=
  if negb (strings.Contains current ".") then
    if String.eqb exportFormat "csv" then current ++ ".csv" else current ++ ".xlsx"
  else if strings.HasSuffix current ".csv" then
    strings.TrimSuffix current ".csv" ++ ".xlsx"
  else if strings.HasSuffix current ".xlsx" then
    strings.TrimSuffix current ".xlsx" ++ ".csv"
  else current.

(** [case selectingDirectory] *)
Definition keyDirectory (m : model) (key : string) : Handled :=
  if String.eqb key "ctrl+c" || String.eqb key "q" then Return (m, tea.Quit)
  else if String.eqb key "enter" then
    match list.SelectedItem (directoryList m) with
    | Some selected =>
        if isDir selected then
          let m := set_currentPath (path selected) m in
          let items := getDirectoryItems (currentPath m) in
          Return (set_directoryList (list.SetItems items (directoryList m)) m, tea.Nil)
        else Break m
    | None => Break m
    end
  else if String.eqb key " " || String.eqb key "space" then
    let m := set_selectedDir (currentPath m) m in
    let m := set_state selectingOutput m in
    let dirName := filepath.Base (selectedDir m) in
    Return (set_outputInput
              (textinput.SetValue (dirName ++ "_index.xlsx") (outputInput m)) m,
            tea.Nil)
  else if String.eqb key "tab" then
    let commonDirs :=
      [ getDownloadsDirectory;
        filepath.Join getDownloadsDirectory "..";
        os.Getenv "USERPROFILE";
        os.Getenv "HOME" ] in
    match
      find (fun dir =>
              negb (String.eqb dir "") && negb (String.eqb dir (currentPath m))
              && match os.Stat dir with
                 | Some info => os.Mode_IsDir info
                 | None => false
                 end) commonDirs
    with
    | Some dir =>
        let m := set_currentPath dir m in
        let items := getDirectoryItems (currentPath m) in
        Return (set_directoryList (list.SetItems items (directoryList m)) m, tea.Nil)
    | None => Break m
    end
  else Break m.

(** [case selectingOutput] *)
Definition keyOutput (m : model) (key : string) : Handled :=
  if String.eqb key "ctrl+c" || String.eqb key "q" then Return (m, tea.Quit)
  else if String.eqb key "esc" then Return (set_state selectingDirectory m, tea.Nil)
  else if String.eqb key "enter" then
    if negb (String.eqb (textinput.Value (outputInput m)) "") then
      let m := set_outputPath (textinput.Value (outputInput m)) m in
      Return (set_state configuring m, tea.Nil)
    else Break m
  else if String.eqb key "tab" then
    let current := textinput.Value (outputInput m) in
    Return (set_outputInput
              (textinput.SetValue (toggleExtension (exportFormat m) current)
                 (outputInput m)) m,
            tea.Nil)
  else Break m.

(** [case configuring] *)
Definition keyConfiguring (m : model) (key : string) : Handled :=
  if String.eqb key "ctrl+c" || String.eqb key "q" then Return (m, tea.Quit)
  else if String.eqb key "esc" then Return (set_state selectingOutput m, tea.Nil)
  else if String.eqb key "1" then Break (set_exportFormat "excel" m)
  else if String.eqb key "2" then Break (set_exportFormat "csv" m)
  else if String.eqb key "3" then Break (set_exportFormat "both" m)
  else if String.eqb key "d" then Break (set_debugMode (negb (debugMode m)) m)
  else if String.eqb key "enter" then
    let m := set_state processing m in
    Return (m, tea.Script m)
  else Break m.

(** [case processing] *)
Definition keyProcessing (m : model) (key : string) : Handled :=
  if String.eqb key "ctrl+c" || String.eqb key "q" then Return (m, tea.Quit)
  else Break m.

(** [case finished] *)
Definition keyFinished (m : model) (key : string) : Handled :=
  if String.eqb key "ctrl+c" || String.eqb key "q" then Return (m, tea.Quit)
  else if String.eqb key "r" then Return (initialModel, tea.Nil)
  else if String.eqb key "enter" || String.eqb key "esc" then Return (m, tea.Quit)
  else Break m.

Definition keyByState (m : model) (key : string) : Handled :=
  match m_state m with
  | selectingDirectory => keyDirectory m key
  | selectingOutput => keyOutput m key
  | configuring => keyConfiguring m key
  | processing => keyProcessing m key
  | finished => keyFinished m key
  end.

(** "Update components based on state" *)
Definition updateComponents (m : model) (msg : tea.Msg) : model * Cmd :=
  match m_state m with
  | selectingDirectory =>
      (set_directoryList (list.Update (directoryList m) msg) m, tea.Widget)
  | selectingOutput =>
      (set_outputInput (textinput.Update (outputInput m) msg) m, tea.Widget)
  | _ => (m, tea.Nil)
  end.

Definition Update (m : model) (msg : tea.Msg) : model * Cmd :=
  match msg with
  | tea.WindowSizeMsg Width Height =>
      let m := set_width Width m in
      let m := set_height Height m in
      let m := set_directoryList (list.SetWidth (Width - 6) (directoryList m)) m in
      let m := set_directoryList (list.SetHeight (Height - 10) (directoryList m)) m in
      (m, tea.Nil)
  | tea.KeyMsg key =>
      match keyByState m key with
      | Return r => r
      | Break m => updateComponents m msg
      end
  | tea.processCompleteMsg result error =>
      let m := set_processing false m in
      let m := if negb (String.eqb error "") then set_error error m
               else set_result result m in
      let m := set_state finished m in
      (m, tea.Nil)
  | tea.OtherMsg _ => updateComponents m msg
  end.

End Program.

End Simple.

(** ** The vocabulary of the properties *)

(** [P] holds of the model and the command returned. *)
Definition pairSat {M C : Type} (P : M -> C -> Prop) (r : M * C) : Prop :=
  P (fst r) (snd r).

(** [P] holds of what is returned, when something is. *)
Definition resultSat {M C : Type} (P : M -> C -> Prop) (r : option (M * C)) : Prop :=
  match r with
  | Some r => pairSat P r
  | None => True
  end.

Section SimpleVocabulary.

Context {paths : filepath.Lib} {host : os.Host}.
Context {inputs : textinput.Lib} {lists : list.Lib}.

(** The model after the Tab key. *)
Definition pressTab (m : Simple.model) : Simple.model :=
  fst (Simple.Update m (tea.KeyMsg "tab")).

(** The name being edited. *)
Definition outputName (m : Simple.model) : string :=
  textinput.Value (Simple.outputInput m).

End SimpleVocabulary.

Section Vocabulary.

Context {unicode : strings.Unicode} {paths : filepath.Lib} {sorting : sort.Lib}.
Context {host : os.Host} {runner : exec.Runner}.
Context {inputs : textinput.Lib} {lists : list.Lib}.

(** *** The filter and the invoker *)

(** Case-insensitive substring containment of the filter in the name. *)
Definition matchesFilter (filter : string) (dir : Tui.directoryItem) : bool :=
  strings.Contains (strings.ToLower (Tui.name dir)) (strings.ToLower filter).

(** The default extension for an export format. *)
Definition defaultExtension (format : string) : string :=
  if String.eqb format "csv" then ".csv" else ".xlsx".

(** The argument list as the specification words it. *)
Definition expectedArgs (script selectedDirectory outputName format : string)
    (debug : bool) (litigant : string) : list string :=
  let name :=
    if strings.Contains outputName "." then outputName
    else outputName ++ defaultExtension format in
  ([script; "--directory"; selectedDirectory;
    "--output"; filepath.Join selectedDirectory name]
   ++ (if String.eqb format "csv" then ["--csv-only"]
       else if String.eqb format "both" then ["--csv"]
       else [])
   ++ (if debug then ["--debug"] else [])
   ++ (if String.eqb litigant "" then [] else ["--litigant"; litigant]))%list.

(** The argument list of the simple variant: the output name goes in as
    it was typed, and there is no litigant. *)
Definition typedArgs (script selectedDirectory outputName format : string)
    (debug : bool) : list string :=
  ([script; "--directory"; selectedDirectory; "--output"; outputName]
   ++ (if String.eqb format "csv" then ["--csv-only"]
       else if String.eqb format "both" then ["--csv"]
       else [])
   ++ (if debug then ["--debug"] else []))%list.

(** The interpreter the companion is run with. *)
Definition python : string :=
  if String.eqb exec.GOOS "windows" then "python" else "python3".

(** *** The filesystem *)

(** A directory holds a file when it can be read and one of its entries is
    not a directory, or one of its subdirectories holds a file.  Names play
    no part: hidden entries count. *)
Inductive HasFile : string -> Prop :=
| HasFile_here (dirPath : string) (entries : list os.DirEntry) (entry : os.DirEntry) :
    os.ReadDir dirPath = Some entries ->
    In entry entries ->
    os.IsDir entry = false ->
    HasFile dirPath
| HasFile_below (dirPath : string) (entries : list os.DirEntry) (entry : os.DirEntry) :
    os.ReadDir dirPath = Some entries ->
    In entry entries ->
    os.IsDir entry = true ->
    HasFile (filepath.Join dirPath (os.Name entry)) ->
    HasFile dirPath.

(** [Shallow n dirPath]: a budget of [n] is enough to search below
    [dirPath]: the directory cannot be read, or [n] is positive and a
    budget of [n - 1] is enough below each of its subdirectories. *)
Inductive Shallow : nat -> string -> Prop :=
| Shallow_unreadable (n : nat) (dirPath : string) :
    os.ReadDir dirPath = None ->
    Shallow (S n) dirPath
| Shallow_readable (n : nat) (dirPath : string) (entries : list os.DirEntry) :
    os.ReadDir dirPath = Some entries ->
    (forall entry, In entry entries -> os.IsDir entry = true ->
                   Shallow n (filepath.Join dirPath (os.Name entry))) ->
    Shallow (S n) dirPath.

(** [Shallow], as a test. *)
Fixpoint shallowb (n : nat) (dirPath : string) : bool :=
  match n with
  | O => false
  | S n' =>
      match os.ReadDir dirPath with
      | None => true
      | Some entries =>
          forallb (fun entry =>
                     if os.IsDir entry
                     then shallowb n' (filepath.Join dirPath (os.Name entry))
                     else true) entries
      end
  end.

(** The entries [getDirectoryItems] keeps: directories, with a name that is
    not skipped, which [isDirEmpty] finds not empty. *)
Definition listed (fuel : nat) (dirPath : string) (entry : os.DirEntry) : bool :=
  os.IsDir entry && negb (Tui.skippedName (os.Name entry)) &&
  match Tui.isDirEmpty fuel (filepath.Join dirPath (os.Name entry)) with
  | Some false => true
  | _ => false
  end.

(** *** The runtime

    Bubble Tea feeds [Update] the messages of the terminal and of the
    widgets, in any order, and runs each command [Update] returns: the
    command of [runPythonScript] runs the companion and feeds its
    completion message back, once.  ([tea.Quit] ends the program; the runs
    below go on after it, which only adds states.) *)

(** The model, and the models captured by the commands of
    [runPythonScript] still running. *)
Record runtime := {
  current : Tui.model;
  pending : list Tui.model
}.

(** What happens next: a message comes in, or the companion started first
    completes. *)
Inductive Event :=
| Incoming (msg : tea.Msg)
| Completion.

(** Messages that come from the terminal and the widgets; completion
    messages come from the program's own command only. *)
Definition fromOutside (msg : tea.Msg) : bool :=
  match msg with
  | tea.processCompleteMsg _ _ => false
  | _ => true
  end.

(** The models whose script a command starts. *)
Definition launched (c : Tui.Cmd) : list Tui.model :=
  match c with
  | tea.Script m => [m]
  | _ => []
  end.

(** One event. *)
Definition deliver (fuel : nat) (rt : runtime) (ev : Event) : option runtime :=
  match ev with
  | Incoming msg =>
      if fromOutside msg then
        r <- Tui.Update fuel (current rt) msg ;;
        Some {| current := fst r; pending := pending rt ++ launched (snd r) |}
      else None
  | Completion =>
      match pending rt with
      | [] => None
      | m0 :: rest =>
          r <- Tui.Update fuel (current rt) (Tui.runPythonScript m0) ;;
          Some {| current := fst r; pending := rest ++ launched (snd r) |}
      end
  end.

Fixpoint run (fuel : nat) (rt : runtime) (events : list Event) : option runtime :=
  match events with
  | [] => Some rt
  | ev :: rest => rt' <- deliver fuel rt ev ;; run fuel rt' rest
  end.

(** The states of the runs from the initial model. *)
Definition reachable (fuel : nat) (rt : runtime) : Prop :=
  exists m0 events,
    Tui.initialModel fuel = Some m0 /\
    run fuel {| current := m0; pending := [] |} events = Some rt.

(** The keys pressed one after the other. *)
Fixpoint pressKeys (fuel : nat) (m : Tui.model) (keys : list string) : option Tui.model :=
  match keys with
  | [] => Some m
  | key :: rest => r <- Tui.Update fuel m (tea.KeyMsg key) ;; pressKeys fuel (fst r) rest
  end.

(** *** The outcome of the companion *)

(** A step keeps the outcome fields and the side of [finished]. *)
Definition outcomeKept (m m' : Tui.model) : Prop :=
  Tui.error m' = Tui.error m /\ Tui.result m' = Tui.result m /\
  (Tui.m_state m' = Tui.finished <-> Tui.m_state m = Tui.finished).

(** A step clears the outcome fields and is not in [finished]. *)
Definition outcomeCleared (m' : Tui.model) : Prop :=
  Tui.error m' = "" /\ Tui.result m' = "" /\ Tui.m_state m' <> Tui.finished.

(** [processing] is not left, the companion is started only on entering
    it, and one at a time. *)
Definition launchRule (m m' : Tui.model) (c : Tui.Cmd) : Prop :=
  (Tui.m_state m = Tui.processing -> Tui.m_state m' = Tui.processing /\ launched c = []) /\
  (launched c <> [] -> Tui.m_state m' = Tui.processing) /\
  List.length (launched c) <= 1.

(** Exactly one of the error and the result is set. *)
Definition exclusiveOutcome (m : Tui.model) : Prop :=
  (Tui.error m <> "" /\ Tui.result m = "") \/ (Tui.error m = "" /\ Tui.result m <> "").

(** The script is in flight only in [processing], one at a time; outside
    [finished] no outcome is recorded; in [finished] exactly one is. *)
Definition consistent (rt : runtime) : Prop :=
  (pending rt <> [] -> Tui.m_state (current rt) = Tui.processing) /\
  List.length (pending rt) <= 1 /\
  (Tui.m_state (current rt) <> Tui.finished ->
   Tui.error (current rt) = "" /\ Tui.result (current rt) = "") /\
  (Tui.m_state (current rt) = Tui.finished -> exclusiveOutcome (current rt)).

(** *** Text entry *)

(** The byte [c] occurs in [s]. *)
Fixpoint occurs (c : ascii) (s : string) : bool :=
  match s with
  | EmptyString => false
  | String d s' => Ascii.eqb c d || occurs c s'
  end.

(** Neither [q] nor [r] occurs. *)
Definition noQR (s : string) : Prop :=
  occurs "q"%char s = false /\ occurs "r"%char s = false.

(** The output name and the litigant name, as edited and as confirmed. *)
Definition entriesNoQR (m : Tui.model) : Prop :=
  noQR (textinput.Value (Tui.outputInput m)) /\
  noQR (textinput.Value (Tui.litigantInput m)) /\
  noQR (Tui.outputPath m) /\
  noQR (Tui.litigantName m).

(** Text comes from typing: the text input gains a byte only from the
    message of that very key. *)
Definition typedOnly : Prop :=
  forall (ti : textinput.Model) (msg : tea.Msg) (c : ascii),
    occurs c (textinput.Value (textinput.Update ti msg)) = true ->
    occurs c (textinput.Value ti) = true \/ msg = tea.KeyMsg (String c "").

(** The keys neither text-entry step has a case for: the rich variant
    hands their message to the text input of the step. *)
Definition entryKey (key : string) : bool :=
  negb (existsb (String.eqb key)
          ["ctrl+e"; "r"; "ctrl+c"; "q"; "ctrl+d"; Tui.ctrl_d_byte;
           "b"; "backspace"; "esc"; "enter"]).

(** The keys the filter sub-mode hands to the filter input. *)
Definition plainKey (key : string) : bool :=
  negb (existsb (String.eqb key) ["ctrl+e"; "r"; "ctrl+c"; "q"; "esc"; "enter"; "tab"]).

End Vocabulary.

(** ** The vocabulary of the further properties *)

(** The line feed as a byte. *)
Definition newline : ascii := ascii_of_nat 10.

(** The settings the companion is started with. *)
Definition configuration (m : Tui.model) : string * string * string * string * bool :=
  (Tui.selectedDir m, Tui.outputPath m, Tui.litigantName m,
   Tui.exportFormat m, Tui.debugMode m).

(** The three export formats the model's declaration names. *)
Definition knownFormat (format : string) : Prop :=
  format = "excel" \/ format = "csv" \/ format = "both".

(** Past step 2 the output name is set. *)
Definition namedOutput (m : Tui.model) : Prop :=
  match Tui.m_state m with
  | Tui.selectingDirectory | Tui.selectingOutput => True
  | _ => Tui.outputPath m <> ""
  end.

(** The key that switches the advanced mode, under the two names the
    program knows it by. *)
Definition advancedKey (ev : Event) : bool :=
  match ev with
  | Incoming (tea.KeyMsg key) => String.eqb key "ctrl+d" || String.eqb key Tui.ctrl_d_byte
  | _ => false
  end.

(** The options of a model the advanced mode was never switched on for. *)
Definition plainOptions (m : Tui.model) : Prop :=
  Tui.advancedMode m = false /\ Tui.exportFormat m = "excel" /\ Tui.debugMode m = false.

(** Two models that differ at most in the display language. *)
Definition sameButLanguage (m1 m2 : Tui.model) : Prop :=
  Tui.set_isSpanish true m1 = Tui.set_isSpanish true m2.

(** Two commands that differ at most in the language of a captured model. *)
Definition sameCmdButLanguage (c1 c2 : Tui.Cmd) : Prop :=
  match c1, c2 with
  | tea.Nil, tea.Nil | tea.Quit, tea.Quit | tea.Blink, tea.Blink
  | tea.Widget, tea.Widget => True
  | tea.Script m1, tea.Script m2 => sameButLanguage m1 m2
  | _, _ => False
  end.

(** Two results of [Update] that differ at most in the display language. *)
Definition sameResultButLanguage (r1 r2 : option (Tui.model * Tui.Cmd)) : Prop :=
  match r1, r2 with
  | Some r1, Some r2 =>
      sameButLanguage (fst r1) (fst r2) /\ sameCmdButLanguage (snd r1) (snd r2)
  | None, None => True
  | _, _ => False
  end.

(** The moves between the steps of the wizard, the reset apart: forward
    one step, back one step, from the review to any earlier step, from the
    result back to the review. *)
Definition follows (a b : Tui.state) : bool :=
  match a, b with
  | Tui.selectingDirectory, Tui.selectingOutput
  | Tui.selectingOutput, Tui.selectingDirectory
  | Tui.selectingOutput, Tui.selectingLitigant
  | Tui.selectingLitigant, Tui.selectingOutput
  | Tui.selectingLitigant, Tui.configuring
  | Tui.configuring, Tui.selectingDirectory
  | Tui.configuring, Tui.selectingOutput
  | Tui.configuring, Tui.selectingLitigant
  | Tui.configuring, Tui.processing
  | Tui.finished, Tui.configuring => true
  | _, _ => false
  end.

(** *** The runs of the simple variant *)

(** The settings the companion of the simple variant is started with. *)
Definition simpleSettings (m : Simple.model) : string * string * string * bool :=
  (Simple.selectedDir m, Simple.outputPath m, Simple.exportFormat m,
   Simple.debugMode m).

(** What holds of every model of the simple variant along its runs: the
    format is one of the three, the output name is set past step 2, and
    the outcome is recorded in [finished] only, as an error or a result. *)
Definition simpleSound (m : Simple.model) : Prop :=
  knownFormat (Simple.exportFormat m) /\
  match Simple.m_state m with
  | Simple.selectingDirectory | Simple.selectingOutput =>
      Simple.error m = "" /\ Simple.result m = ""
  | Simple.configuring | Simple.processing =>
      Simple.outputPath m <> "" /\ Simple.error m = "" /\ Simple.result m = ""
  | Simple.finished =>
      Simple.outputPath m <> "" /\
      ((Simple.error m <> "" /\ Simple.result m = "") \/
       (Simple.error m = "" /\ Simple.result m <> ""))
  end.

(** The model of the simple variant, and the models captured by the
    commands of [runPythonScript] still running. *)
Record simpleRuntime := {
  simpleCurrent : Simple.model;
  simplePending : list Simple.model
}.

(** The models whose script a command starts. *)
Definition simpleLaunched (c : Simple.Cmd) : list Simple.model :=
  match c with
  | tea.Script m => [m]
  | _ => []
  end.

Section SimpleRuns.

Context {paths : filepath.Lib} {host : os.Host} {runner : exec.Runner}.
Context {inputs : textinput.Lib} {lists : list.Lib}.

(** One event: a message from outside, or the completion of the companion
    started first. *)
Definition simpleDeliver (rt : simpleRuntime) (ev : Event) : option simpleRuntime :=
  match ev with
  | Incoming msg =>
      if fromOutside msg then
        let r := Simple.Update (simpleCurrent rt) msg in
        Some {| simpleCurrent := fst r;
                simplePending := simplePending rt ++ simpleLaunched (snd r) |}
      else None
  | Completion =>
      match simplePending rt with
      | [] => None
      | m0 :: rest =>
          let r := Simple.Update (simpleCurrent rt) (Simple.runPythonScript m0) in
          Some {| simpleCurrent := fst r;
                  simplePending := rest ++ simpleLaunched (snd r) |}
      end
  end.

Fixpoint simpleRun (rt : simpleRuntime) (events : list Event) : option simpleRuntime :=
  match events with
  | [] => Some rt
  | ev :: rest => rt' <- simpleDeliver rt ev ;; simpleRun rt' rest
  end.

(** The states of the runs from the initial model. *)
Definition simpleReachable (rt : simpleRuntime) : Prop :=
  exists events,
    simpleRun {| simpleCurrent := Simple.initialModel; simplePending := [] |} events
    = Some rt.

End SimpleRuns.

(** What holds of every state of the runs of the simple variant. *)
Definition simpleInvariant (rt : simpleRuntime) : Prop :=
  simpleSound (simpleCurrent rt) /\
  (Simple.m_state (simpleCurrent rt) = Simple.processing <-> simplePending rt <> []) /\
  List.length (simplePending rt) <= 1 /\
  (forall m0, In m0 (simplePending rt) ->
              simpleSettings m0 = simpleSettings (simpleCurrent rt)).

(** ** The screen of the rich variant: [View] and the language strings *)

Module lipgloss.

(** [lipgloss.RoundedBorder()], the one border the program uses. *)
Inductive Border := RoundedBorder.

(** [lipgloss.Style], as far as the program sets it. *)
Record Style := {
  bold : bool;
  foreground : string;
  border : option Border;
  borderForeground : string;
  padding : Z;
  marginLeft : Z;
  marginRight : Z;
  marginBottom : Z
}.

(** [lipgloss.NewStyle()] *)
Definition NewStyle : Style :=
  {| bold := false; foreground := ""; border := None; borderForeground := "";
     padding := 0; marginLeft := 0; marginRight := 0; marginBottom := 0 |}.

Definition Bold (v : bool) (s : Style) : Style :=
  {| bold := v; foreground := foreground s; border := border s;
     borderForeground := borderForeground s; padding := padding s;
     marginLeft := marginLeft s; marginRight := marginRight s;
     marginBottom := marginBottom s |}.

(** [s.Foreground(lipgloss.Color(c))] *)
Definition Foreground (c : string) (s : Style) : Style :=
  {| bold := bold s; foreground := c; border := border s;
     borderForeground := borderForeground s; padding := padding s;
     marginLeft := marginLeft s; marginRight := marginRight s;
     marginBottom := marginBottom s |}.

Definition SetBorder (b : Border) (s : Style) : Style :=
  {| bold := bold s; foreground := foreground s; border := Some b;
     borderForeground := borderForeground s; padding := padding s;
     marginLeft := marginLeft s; marginRight := marginRight s;
     marginBottom := marginBottom s |}.

(** [s.BorderForeground(lipgloss.Color(c))] *)
Definition BorderForeground (c : string) (s : Style) : Style :=
  {| bold := bold s; foreground := foreground s; border := border s;
     borderForeground := c; padding := padding s;
     marginLeft := marginLeft s; marginRight := marginRight s;
     marginBottom := marginBottom s |}.

Definition Padding (n : Z) (s : Style) : Style :=
  {| bold := bold s; foreground := foreground s; border := border s;
     borderForeground := borderForeground s; padding := n;
     marginLeft := marginLeft s; marginRight := marginRight s;
     marginBottom := marginBottom s |}.

Definition MarginLeft (n : Z) (s : Style) : Style :=
  {| bold := bold s; foreground := foreground s; border := border s;
     borderForeground := borderForeground s; padding := padding s;
     marginLeft := n; marginRight := marginRight s;
     marginBottom := marginBottom s |}.

Definition MarginRight (n : Z) (s : Style) : Style :=
  {| bold := bold s; foreground := foreground s; border := border s;
     borderForeground := borderForeground s; padding := padding s;
     marginLeft := marginLeft s; marginRight := n;
     marginBottom := marginBottom s |}.

Definition MarginBottom (n : Z) (s : Style) : Style :=
  {| bold := bold s; foreground := foreground s; border := border s;
     borderForeground := borderForeground s; padding := padding s;
     marginLeft := marginLeft s; marginRight := marginRight s;
     marginBottom := n |}.

(** [s.Render(text)]: the text laid out and coloured for the terminal. *)
Class Lib := {
  Render : Style -> string -> string
}.

End lipgloss.

Module bubbles.

(** The [View] methods of the two widgets.  The list draws each item
    through the [Title] and [Description] methods of the item. *)
Class Views := {
  inputView : textinput.Model -> string;
  listView : forall {Item : Type},
      (Item -> string) -> (Item -> string) -> list.Model Item -> string
}.

End bubbles.

Module Screen.

(** Nordic-style colors *)
Definition nordicAccent : string := "#88C0D0".
Definition nordicGreen : string := "#A3BE8C".
Definition nordicRed : string := "#BF616A".
Definition nordicPurple : string := "#B48EAD".

Definition titleStyle : lipgloss.Style :=
  lipgloss.MarginBottom 1
    (lipgloss.MarginLeft 2
       (lipgloss.Foreground nordicGreen (lipgloss.Bold true lipgloss.NewStyle))).

Definition helpStyle : lipgloss.Style :=
  lipgloss.MarginLeft 2 (lipgloss.Foreground "#626262" lipgloss.NewStyle).

Definition errorStyle : lipgloss.Style :=
  lipgloss.MarginLeft 2
    (lipgloss.Foreground nordicRed (lipgloss.Bold true lipgloss.NewStyle)).

Definition successStyle : lipgloss.Style :=
  lipgloss.MarginLeft 2
    (lipgloss.Foreground nordicGreen (lipgloss.Bold true lipgloss.NewStyle)).

Definition boxStyle : lipgloss.Style :=
  lipgloss.MarginRight 2
    (lipgloss.MarginLeft 2
       (lipgloss.Padding 1
          (lipgloss.BorderForeground nordicPurple
             (lipgloss.SetBorder lipgloss.RoundedBorder lipgloss.NewStyle)))).

Definition activeBoxStyle : lipgloss.Style :=
  lipgloss.MarginRight 2
    (lipgloss.MarginLeft 2
       (lipgloss.Padding 1
          (lipgloss.BorderForeground nordicAccent
             (lipgloss.SetBorder lipgloss.RoundedBorder lipgloss.NewStyle)))).

(** [func (i directoryItem) Title()] *)
Definition Title (i : Tui.directoryItem) : string :=
  if Tui.isDir i then "📁 " ++ Tui.name i else "📄 " ++ Tui.name i.

(** [func (i directoryItem) Description()] *)
Definition Description (i : Tui.directoryItem) : string :=
  if String.eqb (Tui.name i) ".." then "Go up to parent directory"
  else if Tui.isDir i then ""
  else "File".

(** [func (i directoryItem) FilterValue()] *)
Definition FilterValue (i : Tui.directoryItem) : string := Tui.name i.

(** Language strings *)
Record langStrings := {
  appTitle : string;
  currentPath : string;
  step1Title : string;
  step2Title : string;
  step3Title : string;
  step4Title : string;
  navigation : string;
  browseDirectories : string;
  selectFolder : string;
  navigateInto : string;
  goUp : string;
  selectCurrent : string;
  leftRight : string;
  filterDirectories : string;
  advancedMode : string;
  processing : string;
  processingDetails : string;
  finished : string;
  processingFailed : string;
  processingSuccess : string;
  willSaveAs : string;
  fileExtension : string;
  fileSavedIn : string;
  continueBack : string;
  advancedOptions : string;
  readyToProcess : string;
  changeDirectory : string;
  changeFilename : string;
  enterToStart : string;
  backToGoBack : string;
  filesProcessed : string;
  savedTo : string;
  readyToUse : string;
  tryAgain : string;
  processAnother : string;
  quitAnytime : string;
  filterPrompt : string;
  filterControls : string;
  indexCreated : string;
  goToParent : string;
  filterMode : string;
  applyFilter : string;
  cancelFilter : string;
  autoComplete : string;
  changeLanguage : string;
  reset : string;
  reviewSettings : string;
  directory : string;
  output : string;
  format : string;
  debug : string;
  advancedModeTitle : string;
  toggleFormat : string;
  toggleDebug : string;
  exitAdvancedMode : string;
  toQuit : string
}.

(** [getStrings]: the four fields it does not set hold the empty string. *)
Definition getStrings (isSpanish : bool) : langStrings :=
  if isSpanish then
    {| appTitle := "📁 Indexador de Metadatos de Archivos";
       currentPath := "📍 Actual";
       step1Title := "Paso 1: Navegar y Seleccionar Directorio (Solo Directorios)";
       step2Title := "Paso 2: Nombre del Archivo de Salida";
       step3Title := "Paso 3: Nombre del Litigante";
       step4Title := "Paso 4: Confirmar Configuración";
       navigation := "📍 Navegación:";
       browseDirectories := "↑↓ Explorar directorios";
       selectFolder := "✅ Enter = SELECCIONAR carpeta resaltada";
       navigateInto := "→ = Entrar a carpeta";
       goUp := "← = Subir";
       selectCurrent := "Espacio = Seleccionar actual";
       leftRight := "←→ = Navegar directorios";
       filterDirectories := "I = Filtrar directorios";
       advancedMode := "Ctrl+D = Modo avanzado";
       processing := "⏳ Procesando Archivos...";
       processingDetails := "🔄 Escaneando directorio y extrayendo metadatos" ++ nl ++
         "📊 Esto puede tomar tiempo para directorios grandes" ++ nl ++ nl ++
         "Presiona Ctrl+C para cancelar";
       finished := "Finalizado";
       processingFailed := "❌ Procesamiento Fallido";
       processingSuccess := "✅ ¡Procesamiento Completado Exitosamente!";
       willSaveAs := "💾 Se guardará como:";
       fileExtension := "• Formato Excel (.xlsx)";
       fileSavedIn := "• Archivo guardado en directorio seleccionado";
       continueBack := "• Enter para continuar, B/Esc para regresar";
       advancedOptions := "• Ctrl+D = Opciones avanzadas (CSV, debug)";
       readyToProcess := "✨ Listo para procesar:";
       changeDirectory := "❶ = Cambiar directorio";
       changeFilename := "❷ = Cambiar nombre";
       enterToStart := "⏩ Enter para empezar procesamiento";
       backToGoBack := "B/Esc para regresar";
       filesProcessed := "📋 Archivos procesados:";
       savedTo := "💾 Guardado en:";
       readyToUse := "✅ ¡Tu índice de archivos está listo para usar!";
       tryAgain := "🔄 Presiona 'r' para intentar de nuevo";
       processAnother := "🔄 Presiona 'r' para procesar otro directorio";
       quitAnytime := "Presiona 'q' o Ctrl+C para salir";
       filterPrompt := "🔍 Filtrar Directorios:";
       filterControls := "⌨️ Controles:" ++ nl ++
         "  Escribe para filtrar  Tab = Autocompletar  Enter = Aplicar" ++ nl ++
         "  Esc = Cancelar filtro";
       indexCreated := "🎉 ¡Índice creado exitosamente!";
       goToParent := "Ir al directorio padre";
       filterMode := "";
       applyFilter := "";
       cancelFilter := "";
       autoComplete := "";
       changeLanguage := "Ctrl+E = Cambiar idioma";
       reset := "R = Reiniciar";
       reviewSettings := "Revisar configuración:";
       directory := "Directorio:";
       output := "Salida:";
       format := "Formato:";
       debug := "Debug: Habilitado";
       advancedModeTitle := "MODO AVANZADO - Más Opciones Disponibles:";
       toggleFormat := "❸ = Alternar formato";
       toggleDebug := "🔧 d = Alternar debug";
       exitAdvancedMode := "🔄 Ctrl+D = Salir modo avanzado";
       toQuit := "para salir" |}
  else
    {| appTitle := "📁 File Metadata Indexer";
       currentPath := "📍 Current";
       step1Title := "Step 1: Navigate and Select Directory (Directories Only)";
       step2Title := "Step 2: Output File Name";
       step3Title := "Step 3: Litigant Name";
       step4Title := "Step 4: Confirm Settings";
       navigation := "📍 Navigation:";
       browseDirectories := "↑↓ Browse directories";
       selectFolder := "✅ Enter = SELECT highlighted folder";
       navigateInto := "→ = Enter folder";
       goUp := "← = Go up";
       selectCurrent := "Space = Select current";
       leftRight := "←→ = Navigate directories";
       filterDirectories := "I = Filter directories";
       advancedMode := "Ctrl+D = Advanced mode";
       processing := "⏳ Processing Files...";
       processingDetails := "🔄 Scanning directory and extracting metadata" ++ nl ++
         "📊 This may take a while for large directories" ++ nl ++ nl ++
         "Press Ctrl+C to cancel";
       finished := "Finished";
       processingFailed := "❌ Processing Failed";
       processingSuccess := "✅ Processing Completed Successfully!";
       willSaveAs := "💾 Will save as:";
       fileExtension := "• Excel (.xlsx) format";
       fileSavedIn := "• File saved in selected directory";
       continueBack := "• Enter to continue, B/Esc to go back";
       advancedOptions := "• Ctrl+D = Advanced options (CSV, debug)";
       readyToProcess := "✨ Ready to process:";
       changeDirectory := "❶ = Change directory";
       changeFilename := "❷ = Change filename";
       enterToStart := "⏩ Enter to start processing";
       backToGoBack := "B/Esc to go back";
       filesProcessed := "📋 Files processed:";
       savedTo := "💾 Saved to:";
       readyToUse := "✅ Your file index is ready to use!";
       tryAgain := "🔄 Press 'r' to try again";
       processAnother := "🔄 Press 'r' to process another directory";
       quitAnytime := "Press 'q' or Ctrl+C to quit anytime";
       filterPrompt := "🔍 Filter Directories:";
       filterControls := "⌨️ Controls:" ++ nl ++
         "  Type to filter  Tab = Auto-complete  Enter = Apply" ++ nl ++
         "  Esc = Cancel filter";
       indexCreated := "🎉 Index created successfully!";
       goToParent := "Go up to parent directory";
       filterMode := "";
       applyFilter := "";
       cancelFilter := "";
       autoComplete := "";
       changeLanguage := "Ctrl+E = Change language";
       reset := "R = Reset";
       reviewSettings := "Review your settings:";
       directory := "Directory:";
       output := "Output:";
       format := "Format:";
       debug := "Debug: Enabled";
       advancedModeTitle := "ADVANCED MODE - More Options Available:";
       toggleFormat := "❸ = Toggle format";
       toggleDebug := "🔧 d = Toggle debug";
       exitAdvancedMode := "🔄 Ctrl+D = Exit advanced mode";
       toQuit := "to quit" |}.

(** No background changes *)
Definition getBoxStyle (backgroundOn : bool) : lipgloss.Style := boxStyle.

Definition getActiveBoxStyle (backgroundOn : bool) : lipgloss.Style := activeBoxStyle.

Section Rendering.

Context {paths : filepath.Lib} {styles : lipgloss.Lib} {views : bubbles.Views}.

(** [View]; [content] is the [strings.Builder] written to. *)
Definition View (m : Tui.model) : string :=
  let str := getStrings (Tui.isSpanish m) in
  let dynamicBoxStyle := getBoxStyle false in
  let dynamicActiveBoxStyle := getActiveBoxStyle false in
  let content := lipgloss.Render titleStyle (appTitle str) in
  let content := content ++ nl ++ nl in
  let content :=
    match Tui.m_state m with
    | Tui.selectingDirectory =>
        if Tui.filtering m then
          content ++ lipgloss.Render dynamicActiveBoxStyle
            (filterPrompt str ++ nl ++ nl ++
             bubbles.inputView (Tui.filterInput m) ++ nl ++ nl ++
             bubbles.listView Title Description (Tui.directoryList m) ++ nl ++ nl ++
             filterControls str)
        else
          content ++ lipgloss.Render dynamicActiveBoxStyle
            (step1Title str ++ nl ++ nl ++
             bubbles.listView Title Description (Tui.directoryList m) ++ nl ++ nl ++
             navigation str ++ nl ++
             "  " ++ browseDirectories str ++ "    " ++ selectFolder str ++ nl ++
             "  " ++ leftRight str ++ "  " ++ selectCurrent str ++ nl ++
             "  " ++ filterDirectories str ++ "  " ++ advancedMode str)
    | Tui.selectingOutput =>
        let content :=
          content ++ lipgloss.Render dynamicBoxStyle ("Selected: " ++ Tui.selectedDir m) in
        let content := content ++ nl ++ nl in
        (* Show where file will be saved *)
        let previewName := textinput.Value (Tui.outputInput m) in
        let previewName :=
          if negb (strings.Contains previewName ".") then previewName ++ ".xlsx"
          else previewName in
        let fullPath := filepath.Join (Tui.selectedDir m) previewName in
        content ++ lipgloss.Render dynamicActiveBoxStyle
          ("Step 2: Output File Name" ++ nl ++ nl ++
           bubbles.inputView (Tui.outputInput m) ++ nl ++ nl ++
           ("💾 Will save as: " ++ fullPath ++ nl ++ nl) ++
           "💡 Simple Mode:" ++ nl ++
           "  • Excel (.xlsx) format" ++ nl ++
           "  • File saved in selected directory" ++ nl ++
           "  • Enter to continue, B/Esc to go back" ++ nl ++
           "  • Ctrl+D = Advanced options (CSV, debug)")
    | Tui.selectingLitigant =>
        let content :=
          content ++ lipgloss.Render dynamicBoxStyle ("Selected: " ++ Tui.selectedDir m) in
        let content := content ++ nl ++ nl in
        let content :=
          content ++ lipgloss.Render dynamicBoxStyle ("Output: " ++ Tui.outputPath m) in
        let content := content ++ nl ++ nl in
        content ++ lipgloss.Render dynamicActiveBoxStyle
          ("Step 3: Litigant Name" ++ nl ++ nl ++
           bubbles.inputView (Tui.litigantInput m) ++ nl ++ nl ++
           "💼 Enter the name of the person litigating" ++ nl ++
           "   (e.g., Juan Pérez, María González)" ++ nl ++ nl ++
           "📝 This will be included in the document header" ++ nl ++ nl ++
           "Enter to continue, B/Esc to go back")
    | Tui.configuring =>
        let content :=
          content ++ lipgloss.Render dynamicBoxStyle ("📁 Directory: " ++ Tui.selectedDir m) in
        let content := content ++ nl in
        let content :=
          content ++ lipgloss.Render dynamicBoxStyle ("📄 Output: " ++ Tui.outputPath m) in
        let content := content ++ nl ++ nl in
        let configBox := step4Title str ++ nl ++ nl in
        let configBox := configBox ++ "✨ " ++ reviewSettings str ++ nl ++ nl in
        let configBox :=
          configBox ++ ("📁 " ++ directory str ++ " " ++ filepath.Base (Tui.selectedDir m) ++ nl) in
        let configBox :=
          configBox ++ ("📄 " ++ output str ++ " " ++ Tui.outputPath m ++ nl) in
        let configBox := configBox ++ ("🏛️ Litigante: " ++ Tui.litigantName m ++ nl) in
        let configBox :=
          if Tui.advancedMode m then
            let formatName := "Excel (.xlsx)" in
            let formatName :=
              if String.eqb (Tui.exportFormat m) "csv" then "CSV (.csv)"
              else if String.eqb (Tui.exportFormat m) "both" then "Excel + CSV"
              else formatName in
            let configBox :=
              configBox ++ ("📊 " ++ format str ++ " " ++ formatName ++ nl) in
            let configBox :=
              if Tui.debugMode m then configBox ++ "🔧 " ++ debug str ++ nl
              else configBox in
            let configBox := configBox ++ nl ++ "🅰️ " ++ advancedModeTitle str ++ nl in
            let configBox :=
              configBox ++ "  " ++ changeDirectory str ++ "     " ++ changeFilename str ++ nl in
            let configBox := configBox ++ "  3 = Editar litigante" ++ nl in
            let configBox :=
              configBox ++ "  " ++ toggleFormat str ++ "        " ++ toggleDebug str ++ nl in
            configBox ++ "  " ++ exitAdvancedMode str ++ nl
          else
            let configBox := configBox ++ nl ++ readyToProcess str ++ nl in
            let configBox :=
              configBox ++ "  " ++ changeDirectory str ++ "     " ++ changeFilename str ++ nl in
            let configBox := configBox ++ "  3 = Editar litigante" ++ nl in
            configBox ++ "  🔥 " ++ advancedOptions str ++ nl in
        let configBox :=
          configBox ++ nl ++ "⏩ " ++ enterToStart str ++ "  •  " ++ backToGoBack str in
        content ++ lipgloss.Render dynamicActiveBoxStyle configBox
    | Tui.processing =>
        let content :=
          content ++ lipgloss.Render dynamicBoxStyle ("📁 Directory: " ++ Tui.selectedDir m) in
        let content := content ++ nl in
        let content :=
          content ++ lipgloss.Render dynamicBoxStyle ("📄 Output: " ++ Tui.outputPath m) in
        let content := content ++ nl ++ nl in
        content ++ lipgloss.Render dynamicActiveBoxStyle
          (processing str ++ nl ++ nl ++ processingDetails str)
    | Tui.finished =>
        let content :=
          content ++ lipgloss.Render dynamicBoxStyle ("📁 Directory: " ++ Tui.selectedDir m) in
        let content := content ++ nl in
        let content :=
          content ++ lipgloss.Render dynamicBoxStyle ("📄 Output: " ++ Tui.outputPath m) in
        let content := content ++ nl ++ nl in
        if negb (String.eqb (Tui.error m) "") then
          let content := content ++ lipgloss.Render errorStyle (processingFailed str) in
          let content := content ++ nl in
          let content := content ++ lipgloss.Render dynamicBoxStyle (Tui.error m) in
          let content := content ++ nl in
          content ++ lipgloss.Render helpStyle
            (tryAgain str ++ "  •  Enter/Esc " ++ toQuit str)
        else
          let content := content ++ lipgloss.Render successStyle (processingSuccess str) in
          let content := content ++ nl in
          let content := content ++ lipgloss.Render dynamicBoxStyle (Tui.result m) in
          let content := content ++ nl in
          content ++ lipgloss.Render helpStyle
            (processAnother str ++ "  •  Enter/Esc " ++ toQuit str)
    end in
  let content := content ++ nl ++ nl in
  (* Bottom status bar *)
  let statusBar := quitAnytime str in
  let statusBar :=
    if negb (Tui.advancedMode m) then
      statusBar ++ "  •  " ++ advancedMode str ++ "  •  " ++ changeLanguage str
        ++ "  •  " ++ reset str
    else statusBar ++ "  •  " ++ changeLanguage str ++ "  •  " ++ reset str in
  content ++ lipgloss.Render helpStyle statusBar.

End Rendering.

End Screen.

(** ** One implementation of the interfaces: a Unix host

    Paths as Go cleans them on Unix, ASCII case and white space, the
    insertion sort Go uses for short slices, and two minimal widgets.  The
    scenarios of the specification are evaluated on it. *)

Module Posix.

(** One element of a path being cleaned; [stack] holds the elements kept so
    far, the last one first. *)
Definition cleanStep (rooted : bool) (stack : list string) (elem : string) : list string :=
  if String.eqb elem "" || String.eqb elem "." then stack
  else if String.eqb elem ".." then
    match stack with
    | top :: rest => if String.eqb top ".." then elem :: stack else rest
    | [] => if rooted then [] else [elem]
    end
  else elem :: stack.

(** [filepath.Clean] *)
Definition Clean (path : string) : string :=
  if String.eqb path "" then "."
  else
    let rooted := strings.HasPrefix path "/" in
    let stack := fold_left (cleanStep rooted) (strings.Split path "/") [] in
    let body := strings.Join (rev stack) "/" in
    if rooted then "/" ++ body
    else if String.eqb body "" then "." else body.

(** [filepath.Join(a, b)]: the non-empty elements joined by a slash, cleaned. *)
Definition Join (a b : string) : string :=
  if negb (String.eqb a "") then Clean (a ++ "/" ++ b)
  else if negb (String.eqb b "") then Clean b
  else "".

(** [filepath.Dir]: all but the last element, cleaned. *)
Definition Dir (path : string) : string :=
  match strings.Split path "/" with
  | [] | [_] => Clean ""
  | elems => Clean (strings.Join (removelast elems) "/" ++ "/")
  end.

(** [filepath.Base]: the last element, trailing slashes dropped. *)
Definition Base (path : string) : string :=
  if String.eqb path "" then "."
  else
    match find (fun elem => negb (String.eqb elem "")) (rev (strings.Split path "/")) with
    | Some elem => elem
    | None => "/"
    end.

#[export] Instance paths : filepath.Lib :=
  {| filepath.Dir := Dir; filepath.Base := Base; filepath.Join := Join |}.

(** ASCII letters and white space. *)
Definition lowerByte (c : ascii) : ascii :=
  let n := nat_of_ascii c in
  if (65 <=? n)%nat && (n <=? 90)%nat then ascii_of_nat (n + 32) else c.

Fixpoint ToLower (s : string) : string :=
  match s with
  | EmptyString => EmptyString
  | String c s' => String (lowerByte c) (ToLower s')
  end.

Definition isSpace (c : ascii) : bool :=
  let n := nat_of_ascii c in
  Nat.eqb n 32 || ((9 <=? n)%nat && (n <=? 13)%nat).

Fixpoint trimLeft (s : string) : string :=
  match s with
  | String c s' => if isSpace c then trimLeft s' else s
  | EmptyString => EmptyString
  end.

Fixpoint reverse (s acc : string) : string :=
  match s with
  | EmptyString => acc
  | String c s' => reverse s' (String c acc)
  end.

Definition TrimSpace (s : string) : string :=
  reverse (trimLeft (reverse (trimLeft s) "")) "".

(** [cur] is the field being read, [None] between fields. *)
Fixpoint fieldsFrom (cur : option string) (s : string) : list string :=
  match s with
  | EmptyString => match cur with Some w => [w] | None => [] end
  | String c s' =>
      if isSpace c then
        match cur with
        | Some w => w :: fieldsFrom None s'
        | None => fieldsFrom None s'
        end
      else
        match cur with
        | Some w => fieldsFrom (Some (w ++ String c "")) s'
        | None => fieldsFrom (Some (String c "")) s'
        end
  end.

Definition Fields (s : string) : list string := fieldsFrom None s.

#[export] Instance unicode : strings.Unicode :=
  {| strings.ToLower := ToLower;
     strings.TrimSpace := TrimSpace;
     strings.Fields := Fields;
     strings.ToLower_empty := eq_refl |}.

(** Insertion sort: each element moves left past the elements it is less
    than.  [sortedRev] is the sorted prefix, its last element first. *)
Fixpoint insertBack {A : Type} (less : A -> A -> bool) (x : A) (sortedRev : list A) : list A :=
  match sortedRev with
  | [] => [x]
  | y :: rest => if less x y then y :: insertBack less x rest else x :: sortedRev
  end.

Definition insertionSort {A : Type} (less : A -> A -> bool) (x : list A) : list A :=
  rev (fold_left (fun sortedRev a => insertBack less a sortedRev) x []).

#[export] Instance sorting : sort.Lib := {| sort.Slice := @insertionSort |}.

(** A line editor with the cursor at the end: a one-byte key is typed,
    [backspace] deletes the last byte, everything else leaves the text. *)
Definition dropLast (s : string) : string :=
  substring 0 (String.length s - 1) s.

Definition editLine (m : textinput.Model) (msg : tea.Msg) : textinput.Model :=
  match msg with
  | tea.KeyMsg key =>
      if String.eqb key "backspace" then textinput.SetValue (dropLast (textinput.Value m)) m
      else if Nat.eqb (String.length key) 1
      then textinput.SetValue (textinput.Value m ++ key) m
      else m
  | _ => m
  end.

#[export] Instance inputs : textinput.Lib := {| textinput.Update := editLine |}.

(** The names [msg.String()] gives to the keys that carry no rune. *)
Definition namedKeys : list string :=
  ["enter"; "tab"; "esc"; "backspace"; "delete"; "up"; "down"; "left"; "right";
   "home"; "end"; "pgup"; "pgdown"; "insert"].

(** The runes of a key message, read off [msg.String()]: a key pressed
    with alt has the prefix [alt+], and the characters the terminal
    delivers together come in one message. *)
Definition runesOf (key : string) : string :=
  let pressed :=
    if String.prefix "alt+" key then substring 4 (String.length key - 4) key else key in
  if existsb (String.eqb pressed) namedKeys
     || String.prefix "ctrl+" pressed || String.prefix "shift+" pressed
  then "" else pressed.

(** A line editor that, as the text input of the bubbles library does,
    takes no message while it has no focus and otherwise inserts every rune
    of a key message that none of its own bindings matches. *)
Definition insertRunes (m : textinput.Model) (msg : tea.Msg) : textinput.Model :=
  match msg with
  | tea.KeyMsg key =>
      if negb (textinput.focus m) then m
      else if String.eqb key "backspace"
      then textinput.SetValue (dropLast (textinput.Value m)) m
      else if existsb (String.eqb key) ["alt+b"; "alt+f"; "alt+d"] then m
      else textinput.SetValue (textinput.Value m ++ runesOf key) m
  | _ => m
  end.

Definition runeInputs : textinput.Lib := {| textinput.Update := insertRunes |}.

(** A list whose cursor moves with the arrows and stays inside the items. *)
Definition moveCursor {Item : Type} (m : list.Model Item) (msg : tea.Msg) : list.Model Item :=
  match msg with
  | tea.KeyMsg key =>
      if String.eqb key "down" || String.eqb key "j" then
        if (S (list.index m) <? List.length (list.items m))%nat
        then list.Select (S (list.index m)) m else m
      else if String.eqb key "up" || String.eqb key "k" then
        list.Select (pred (list.index m)) m
      else m
  | _ => m
  end.

#[export] Instance lists : list.Lib := {| list.Update := @moveCursor |}.

End Posix.

(** ** A small world for the scenarios *)

Module Scenario.

Export Posix.

Definition dir (name : string) (modTime : Z) : os.DirEntry :=
  {| os.Name := name; os.IsDir := true;
     os.Info := Some {| os.ModTime := modTime; os.Mode_IsDir := true |} |}.

Definition file (name : string) (modTime : Z) : os.DirEntry :=
  {| os.Name := name; os.IsDir := false;
     os.Info := Some {| os.ModTime := modTime; os.Mode_IsDir := false |} |}.

Definition dataEntries : list os.DirEntry :=
  [dir ".cache" 60; dir "deep" 30; dir "locked" 70; dir "new" 50;
   file "notes.txt" 80; dir "old" 5].

(** [/tmp/docs] holds [a] (with a file inside) and [b] (empty).
    [/srv/data] holds a hidden directory with a file, a directory that
    cannot be read, a file, and three directories with files, one of them
    two levels down. *)
Definition tree (dirPath : string) : option (list os.DirEntry) :=
  if String.eqb dirPath "/" then Some [dir "srv" 1; dir "tmp" 2]
  else if String.eqb dirPath "/tmp" then Some [dir "docs" 3]
  else if String.eqb dirPath "/tmp/docs" then Some [dir "a" 10; dir "b" 20]
  else if String.eqb dirPath "/tmp/docs/a" then Some [file "f.txt" 5]
  else if String.eqb dirPath "/tmp/docs/b" then Some []
  else if String.eqb dirPath "/srv" then Some [dir "data" 4]
  else if String.eqb dirPath "/srv/data" then Some dataEntries
  else if String.eqb dirPath "/srv/data/.cache" then Some [file "blob" 60]
  else if String.eqb dirPath "/srv/data/deep" then Some [dir "deeper" 30]
  else if String.eqb dirPath "/srv/data/deep/deeper" then Some [file ".keep" 30]
  else if String.eqb dirPath "/srv/data/new" then Some [file "x.pdf" 50]
  else if String.eqb dirPath "/srv/data/old" then Some [file "y.pdf" 5]
  else None.

(** The home directory is [/tmp], which has none of the download
    directories; the companion script sits beside the executable. *)
Definition stat (path : string) : option os.FileInfo :=
  if String.eqb path "/opt/indexer/file_metadata_extractor.py"
  then Some {| os.ModTime := 7%Z; os.Mode_IsDir := false |}
  else match tree path with
       | Some _ => Some {| os.ModTime := 9%Z; os.Mode_IsDir := true |}
       | None => None
       end.

#[export] Instance host : os.Host :=
  {| os.ReadDir := tree;
     os.Stat := stat;
     os.UserHomeDir := Some "/tmp";
     os.Executable := Some "/opt/indexer/file-indexer";
     os.Getenv := fun _ => "" |}.

(** A companion that exits with status 1 after printing one line. *)
Definition failing : exec.Runner :=
  {| exec.GOOS := "linux";
     exec.CombinedOutput := fun _ _ => ("permission denied", Some "exit status 1") |}.

(** A companion that succeeds. *)
Definition succeeding : exec.Runner :=
  {| exec.GOOS := "linux";
     exec.CombinedOutput := fun _ _ =>
       ("Done: processed 12 files" ++ nl ++ "Index saved to: /tmp/docs/index.xlsx" ++ nl,
        None) |}.

(** *** Models and runs of the scenarios *)

(** The model of the simple variant in step 2 with [name] typed. *)
Definition namingOutput (name : string) : Simple.model :=
  Simple.set_outputInput
    (textinput.SetValue name (Simple.outputInput Simple.initialModel))
    (Simple.set_state Simple.selectingOutput Simple.initialModel).

(** A model of the rich variant in the review step. *)
Definition reviewing (selectedDir outputPath exportFormat : string) (debugMode : bool)
    (litigantName : string) : Tui.model :=
  {| Tui.m_state := Tui.configuring;
     Tui.directoryList := list.New [] 120 15;
     Tui.currentPath := selectedDir;
     Tui.outputInput := textinput.SetValue outputPath textinput.New;
     Tui.litigantInput := textinput.SetValue litigantName textinput.New;
     Tui.selectedDir := selectedDir;
     Tui.outputPath := outputPath;
     Tui.litigantName := litigantName;
     Tui.exportFormat := exportFormat;
     Tui.debugMode := debugMode;
     Tui.m_processing := false;
     Tui.result := "";
     Tui.error := "";
     Tui.width := 0;
     Tui.height := 0;
     Tui.autocompleteOptions := [];
     Tui.autocompleteIndex := 0;
     Tui.showingAutocomplete := false;
     Tui.filtering := false;
     Tui.filterInput := textinput.New;
     Tui.allDirectories := [];
     Tui.filteredDirs := [];
     Tui.advancedMode := true;
     Tui.isSpanish := true |}.

(** The runtime after [events], from the initial model. *)
Definition afterEvents (companion : exec.Runner) (events : list Event) : option runtime :=
  m0 <- Tui.initialModel 3 ;;
  run (runner := companion) 3 {| current := m0; pending := [] |} events.

(** Key presses as events. *)
Definition keys (pressed : list string) : list Event :=
  map (fun key => Incoming (tea.KeyMsg key)) pressed.

(** Space selects [/tmp], Enter accepts the name [index], Enter accepts an
    empty litigant, Enter starts the companion. *)
Definition toProcessing : list Event := keys [" "; "enter"; "enter"; "enter"].


(** *** More models and hosts *)

(** The same host when the path of the executable cannot be told. *)
Definition stranded : os.Host :=
  {| os.ReadDir := tree;
     os.Stat := stat;
     os.UserHomeDir := Some "/tmp";
     os.Executable := None;
     os.Getenv := fun _ => "" |}.

(** A model of the rich variant while the companion runs. *)
Definition waiting : Tui.model :=
  Tui.set_state Tui.processing (reviewing "/tmp/docs" "index" "csv" false "").

(** A model of the rich variant on the result screen after a failure. *)
Definition failed : Tui.model :=
  Tui.set_state Tui.finished
    (Tui.set_error "exit status 1" (reviewing "/tmp/docs" "index" "both" true "Juan")).

(** A model of the simple variant in the review step. *)
Definition simpleReviewing : Simple.model :=
  Simple.set_state Simple.configuring
    (Simple.set_outputPath "tmp_index.xlsx"
       (Simple.set_selectedDir "/tmp" Simple.initialModel)).

(** A model of the rich variant in step 2 with [name] typed. *)
Definition naming (exportFormat name : string) : Tui.model :=
  Tui.set_state Tui.selectingOutput (reviewing "/tmp/docs" name exportFormat false "").

(** A terminal without colours or frames, and widgets drawn as their
    text: the input as its value, the list as the titles of its items. *)
#[export] Instance plain : lipgloss.Lib :=
  {| lipgloss.Render := fun _ text => text |}.

#[export] Instance drawn : bubbles.Views :=
  {| bubbles.inputView := textinput.Value;
     bubbles.listView := fun Item title _ m => strings.Join (map title (list.items m)) nl |}.

End Scenario.

(** * Properties *)

(** ** Byte strings *)

Section StringFacts.

Lemma prefix_app (s t : string) : String.prefix s (s ++ t) = true.
Proof.
  induction s as [|c s IH]; simpl.
  - now destruct t.
  - destruct (ascii_dec c c) as [_|N]; [exact IH | now elim N].
Qed.

Lemma Contains_here (s sub : string) :
  String.prefix sub s = true -> strings.Contains s sub = true.
Proof. intros P. destruct s; cbn [strings.Contains]; now rewrite P. Qed.

Lemma Contains_later (c : ascii) (s sub : string) :
  strings.Contains s sub = true -> strings.Contains (String c s) sub = true.
Proof.
  intros C. cbn [strings.Contains].
  destruct (String.prefix sub (String c s)); [reflexivity | exact C].
Qed.

(** A string contains each of its infixes. *)
Lemma Contains_infix (pre sub post : string) :
  strings.Contains (pre ++ sub ++ post) sub = true.
Proof.
  induction pre as [|c pre IH]; cbn [append].
  - apply Contains_here. apply prefix_app.
  - apply Contains_later. exact IH.
Qed.

Lemma Contains_suffix (pre sub : string) : strings.Contains (pre ++ sub) sub = true.
Proof.
  pose proof (Contains_infix pre sub "") as C.
  assert (E : sub ++ "" = sub) by (clear; induction sub; simpl; congruence).
  now rewrite E in C.
Qed.

Lemma Contains_empty (s : string) : strings.Contains s "" = true.
Proof. destruct s; reflexivity. Qed.

Lemma string_length_app (s t : string) :
  String.length (s ++ t) = String.length s + String.length t.
Proof. induction s; simpl; congruence. Qed.

Lemma substring_skip (p s : string) (k n : nat) :
  substring (String.length p + k) n (p ++ s) = substring k n s.
Proof. induction p; simpl; auto. Qed.

Lemma substring_take (p s : string) : substring 0 (String.length p) (p ++ s) = p.
Proof.
  induction p as [|c p IH]; simpl.
  - now destruct s.
  - now rewrite IH.
Qed.

Lemma substring_all (s : string) : substring 0 (String.length s) s = s.
Proof. induction s; simpl; congruence. Qed.

Lemma substring_split (s : string) (k : nat) :
  k <= String.length s ->
  s = substring 0 k s ++ substring k (String.length s - k) s.
Proof.
  revert k. induction s as [|c s IH]; intros k L; simpl in *.
  - now destruct k.
  - destruct k as [|k]; simpl.
    + now rewrite substring_all.
    + f_equal. apply IH. lia.
Qed.

(** Whether [p ++ s] ends with [suffix] is decided inside [s] when [s] is
    long enough. *)
Lemma HasSuffix_app (p s suffix : string) :
  String.length suffix <= String.length s ->
  strings.HasSuffix (p ++ s) suffix = strings.HasSuffix s suffix.
Proof.
  intros L. unfold strings.HasSuffix. rewrite string_length_app.
  replace (String.length p + String.length s - String.length suffix)
    with (String.length p + (String.length s - String.length suffix)) by lia.
  rewrite substring_skip.
  apply Nat.leb_le in L. rewrite L.
  replace (String.length suffix <=? String.length p + String.length s)%nat with true;
    [reflexivity|].
  symmetry. apply Nat.leb_le. apply Nat.leb_le in L. lia.
Qed.

Lemma TrimSuffix_app (p suffix : string) : strings.TrimSuffix (p ++ suffix) suffix = p.
Proof.
  unfold strings.TrimSuffix.
  assert (H : strings.HasSuffix (p ++ suffix) suffix = true).
  { rewrite HasSuffix_app by lia. unfold strings.HasSuffix.
    rewrite Nat.leb_refl, Nat.sub_diag, substring_all. apply String.eqb_refl. }
  rewrite H, string_length_app.
  replace (String.length p + String.length suffix - String.length suffix)
    with (String.length p) by lia.
  apply substring_take.
Qed.

(** A string that ends with [suffix] is its trimmed part followed by
    [suffix]. *)
Lemma HasSuffix_split (s suffix : string) :
  strings.HasSuffix s suffix = true -> s = strings.TrimSuffix s suffix ++ suffix.
Proof.
  intros H. unfold strings.TrimSuffix. rewrite H.
  unfold strings.HasSuffix in H. apply andb_true_iff in H as [L E].
  apply Nat.leb_le in L. apply String.eqb_eq in E.
  rewrite (substring_split s (String.length s - String.length suffix)) at 1 by lia.
  f_equal.
  replace (String.length s - (String.length s - String.length suffix))
    with (String.length suffix) by lia.
  exact E.
Qed.

End StringFacts.

(** ** The extension toggle of the simple variant (step 2, Tab) *)

Section ExtensionToggle.

Context {paths : filepath.Lib} {host : os.Host}.
Context {inputs : textinput.Lib} {lists : list.Lib}.

Lemma toggle_csv (format p : string) :
  Simple.toggleExtension format (p ++ ".csv") = p ++ ".xlsx".
Proof.
  unfold Simple.toggleExtension.
  change (p ++ ".csv") with (p ++ "." ++ "csv") at 1.
  rewrite Contains_infix. cbn [negb].
  rewrite HasSuffix_app by (simpl; lia).
  change (strings.HasSuffix ".csv" ".csv") with true. cbv iota.
  now rewrite TrimSuffix_app.
Qed.

Lemma toggle_xlsx (format p : string) :
  Simple.toggleExtension format (p ++ ".xlsx") = p ++ ".csv".
Proof.
  unfold Simple.toggleExtension.
  change (p ++ ".xlsx") with (p ++ "." ++ "xlsx") at 1.
  rewrite Contains_infix. cbn [negb].
  rewrite !HasSuffix_app by (simpl; lia).
  change (strings.HasSuffix ".xlsx" ".csv") with false.
  change (strings.HasSuffix ".xlsx" ".xlsx") with true. cbv iota.
  now rewrite TrimSuffix_app.
Qed.

(** On a name that ends with [.csv] or [.xlsx], two toggles give the name
    back. *)
Lemma toggle_involutive (format current : string) :
  strings.HasSuffix current ".csv" = true \/ strings.HasSuffix current ".xlsx" = true ->
  Simple.toggleExtension format (Simple.toggleExtension format current) = current.
Proof.
  intros [H|H]; apply HasSuffix_split in H; rewrite H.
  - now rewrite toggle_csv, toggle_xlsx.
  - now rewrite toggle_xlsx, toggle_csv.
Qed.

(** A name with a dot and neither extension is left as it is. *)
Lemma toggle_unrecognized (format current : string) :
  strings.Contains current "." = true ->
  strings.HasSuffix current ".csv" = false ->
  strings.HasSuffix current ".xlsx" = false ->
  Simple.toggleExtension format current = current.
Proof.
  intros C H1 H2. unfold Simple.toggleExtension. now rewrite C, H1, H2.
Qed.

(** A name with no dot gets the extension of the export format. *)
Lemma toggle_appends (format current : string) :
  strings.Contains current "." = false ->
  Simple.toggleExtension format current =
  current ++ (if String.eqb format "csv" then ".csv" else ".xlsx").
Proof.
  intros C. unfold Simple.toggleExtension. rewrite C. cbn [negb].
  now destruct (String.eqb format "csv").
Qed.

(** In step 2 the Tab key rewrites the name by [toggleExtension] and
    changes nothing else. *)
Lemma pressTab_selectingOutput (m : Simple.model) :
  Simple.m_state m = Simple.selectingOutput ->
  pressTab m =
  Simple.set_outputInput
    (textinput.SetValue
       (Simple.toggleExtension (Simple.exportFormat m) (outputName m))
       (Simple.outputInput m)) m.
Proof.
  intros S. unfold pressTab, Simple.Update, Simple.keyByState. rewrite S.
  reflexivity.
Qed.

Lemma pressTab_name (m : Simple.model) :
  Simple.m_state m = Simple.selectingOutput ->
  Simple.m_state (pressTab m) = Simple.selectingOutput /\
  Simple.exportFormat (pressTab m) = Simple.exportFormat m /\
  outputName (pressTab m) =
  Simple.toggleExtension (Simple.exportFormat m) (outputName m).
Proof.
  intros S. rewrite (pressTab_selectingOutput m S). cbn. auto.
Qed.

(** C5.  In the output-naming step of the simple variant, with the export
    format unchanged: when the name ends with a recognised extension
    ([.csv] or [.xlsx]), pressing Tab twice gives the name back; when the
    name has a dot but neither extension, each of the two presses leaves it
    as it is; when the name has no dot, the first press appends the default
    extension of the selected export format ([.csv] for csv, [.xlsx]
    otherwise).  Tab stays in the step and keeps the format. *)
Theorem toggle_extension_twice (m : Simple.model) :
  Simple.m_state m = Simple.selectingOutput ->
  (Simple.m_state (pressTab m) = Simple.selectingOutput /\
   Simple.exportFormat (pressTab m) = Simple.exportFormat m) /\
  (strings.HasSuffix (outputName m) ".csv" = true \/
   strings.HasSuffix (outputName m) ".xlsx" = true ->
   outputName (pressTab (pressTab m)) = outputName m) /\
  (strings.Contains (outputName m) "." = true ->
   strings.HasSuffix (outputName m) ".csv" = false ->
   strings.HasSuffix (outputName m) ".xlsx" = false ->
   outputName (pressTab m) = outputName m /\
   outputName (pressTab (pressTab m)) = outputName m) /\
  (strings.Contains (outputName m) "." = false ->
   outputName (pressTab m) =
   outputName m ++ (if String.eqb (Simple.exportFormat m) "csv" then ".csv" else ".xlsx")).
Proof.
  intros S.
  destruct (pressTab_name m S) as (S1 & F1 & N1).
  destruct (pressTab_name (pressTab m) S1) as (_ & _ & N2).
  rewrite F1, N1 in N2.
  split; [now split|]. split; [|split].
  - intros R. rewrite N2. now apply toggle_involutive.
  - intros C H1 H2. split.
    + rewrite N1. now apply toggle_unrecognized.
    + rewrite N2, (toggle_unrecognized _ _ C H1 H2). now apply toggle_unrecognized.
  - intros C. rewrite N1. now apply toggle_appends.
Qed.

End ExtensionToggle.

Lemma append_assoc (a b c : string) : (a ++ b) ++ c = a ++ b ++ c.
Proof. induction a; simpl; congruence. Qed.

Lemma append_nonempty (a b : string) : a <> "" -> a ++ b <> "".
Proof. destruct a; [congruence | discriminate]. Qed.

(** ** The filter engine *)

Section FilterEngine.

Context {unicode : strings.Unicode}.

(** The appending loop keeps the entries that pass the test, in order. *)
Lemma append_loop_filter (A : Type) (keep : A -> bool) (l acc : list A) :
  fold_left (fun filtered a => if keep a then (filtered ++ [a])%list else filtered) l acc
  = (acc ++ filter keep l)%list.
Proof.
  revert acc. induction l as [|a l IH]; intros acc; simpl.
  - now rewrite app_nil_r.
  - rewrite IH. destruct (keep a); [|reflexivity].
    now rewrite <- app_assoc.
Qed.

Lemma matchesFilter_empty (dir : Tui.directoryItem) : matchesFilter "" dir = true.
Proof. unfold matchesFilter. rewrite strings.ToLower_empty. apply Contains_empty. Qed.

Lemma filter_all (A : Type) (keep : A -> bool) (l : list A) :
  (forall a, keep a = true) -> filter keep l = l.
Proof.
  intros K. induction l as [|a l IH]; simpl; [reflexivity|].
  now rewrite K, IH.
Qed.

(** The empty filter is the identity. *)
Lemma filterDirectories_empty (dirs : list Tui.directoryItem) :
  Tui.filterDirectories dirs "" = dirs.
Proof. reflexivity. Qed.

(** [filterDirectories] is the sublist of the matching entries. *)
Lemma filterDirectories_filter (dirs : list Tui.directoryItem) (filter : string) :
  Tui.filterDirectories dirs filter = List.filter (matchesFilter filter) dirs.
Proof.
  unfold Tui.filterDirectories. destruct (String.eqb_spec filter "") as [E|N].
  - subst. symmetry. apply filter_all. apply matchesFilter_empty.
  - now rewrite append_loop_filter.
Qed.

End FilterEngine.

(** ** The argument list of the companion process *)

Section Invoker.

Context {unicode : strings.Unicode} {paths : filepath.Lib}.
Context {host : os.Host} {runner : exec.Runner}.

Lemma scriptArgs_expected (m : Tui.model) (script : string) :
  Tui.scriptArgs m script =
  expectedArgs script (Tui.selectedDir m) (Tui.outputPath m) (Tui.exportFormat m)
    (Tui.debugMode m) (Tui.litigantName m).
Proof.
  unfold Tui.scriptArgs, expectedArgs, Tui.fullOutputPath, Tui.outputFilename,
    defaultExtension.
  destruct (strings.Contains (Tui.outputPath m) "."); cbn [negb];
    destruct (String.eqb (Tui.exportFormat m) "csv");
    destruct (String.eqb (Tui.exportFormat m) "both");
    destruct (Tui.debugMode m);
    destruct (String.eqb (Tui.litigantName m) ""); reflexivity.
Qed.

(** When the script is found, the message is decided by what the
    companion, run on [scriptArgs], prints and returns. *)
Lemma runPythonScript_runs (m : Tui.model) :
  Tui.findPythonScript <> "" ->
  Tui.runPythonScript m =
  match exec.CombinedOutput python (Tui.scriptArgs m Tui.findPythonScript) with
  | (output, Some err) => tea.processCompleteMsg "" (Tui.executionError err output)
  | (output, None) =>
      tea.processCompleteMsg
        ("🎉 Index created successfully!" ++ nl ++ nl
         ++ "📋 Files processed: " ++ Tui.fileCountOf output ++ nl
         ++ "💾 Saved to: " ++ Tui.savedPathOf output (Tui.fullOutputPath m) ++ nl ++ nl
         ++ "✅ Your file index is ready to use!")
        ""
  end.
Proof.
  intros F. unfold Tui.runPythonScript.
  apply String.eqb_neq in F. rewrite F. reflexivity.
Qed.

(** The simple variant passes the output name as typed, with no directory
    joined and no extension added, and has no litigant. *)
Lemma simple_scriptArgs_typed (m : Simple.model) (script : string) :
  Simple.scriptArgs m script =
  typedArgs script (Simple.selectedDir m) (Simple.outputPath m) (Simple.exportFormat m)
    (Simple.debugMode m).
Proof.
  unfold Simple.scriptArgs, typedArgs.
  destruct (String.eqb (Simple.exportFormat m) "csv");
    destruct (String.eqb (Simple.exportFormat m) "both");
    destruct (Simple.debugMode m); reflexivity.
Qed.

Lemma simple_runPythonScript_runs (m : Simple.model) :
  Simple.findPythonScript <> "" ->
  Simple.runPythonScript m =
  match exec.CombinedOutput python (Simple.scriptArgs m Simple.findPythonScript) with
  | (output, Some err) => tea.processCompleteMsg "" (Simple.executionError err output)
  | (output, None) =>
      tea.processCompleteMsg
        ("🎉 Files successfully processed!" ++ nl ++ nl ++ "📊 Results:" ++ nl ++ output)
        ""
  end.
Proof.
  intros F. unfold Simple.runPythonScript.
  apply String.eqb_neq in F. rewrite F. reflexivity.
Qed.

(** C1, as amended.  The argument list of each variant's invoker is a
    function of the wizard state, and it is this list the companion is run
    on.  In the rich variant: the script, [--directory] and the selected
    directory, [--output] and [join(selectedDirectory, name)] where [name]
    is the output name with the default extension of the export format
    appended when it has no extension (no dot), then [--csv-only] for csv or
    [--csv] for both and nothing for any other format, then [--debug]
    exactly when debug is enabled, then [--litigant] and the name exactly
    when the litigant is not empty.  In the simple variant: the script,
    [--directory] and the selected directory, [--output] and the output
    name as it was typed (no directory joined, no extension appended), then
    the same format flag and [--debug] exactly when debug is enabled; there
    is no litigant. *)
Theorem invoker_argument_list (m : Tui.model) (sm : Simple.model) (script : string) :
  Tui.scriptArgs m script =
  expectedArgs script (Tui.selectedDir m) (Tui.outputPath m) (Tui.exportFormat m)
    (Tui.debugMode m) (Tui.litigantName m)
  /\ Tui.fullOutputPath m =
     filepath.Join (Tui.selectedDir m)
       (if strings.Contains (Tui.outputPath m) "." then Tui.outputPath m
        else Tui.outputPath m ++ defaultExtension (Tui.exportFormat m))
  /\ (Tui.findPythonScript = "" \/
      exists result error,
        Tui.runPythonScript m = tea.processCompleteMsg result error /\
        (result, error) =
        match exec.CombinedOutput python
                (expectedArgs Tui.findPythonScript (Tui.selectedDir m) (Tui.outputPath m)
                   (Tui.exportFormat m) (Tui.debugMode m) (Tui.litigantName m)) with
        | (output, Some err) => ("", Tui.executionError err output)
        | (output, None) =>
            ("🎉 Index created successfully!" ++ nl ++ nl
             ++ "📋 Files processed: " ++ Tui.fileCountOf output ++ nl
             ++ "💾 Saved to: " ++ Tui.savedPathOf output (Tui.fullOutputPath m)
             ++ nl ++ nl ++ "✅ Your file index is ready to use!", "")
        end)
  /\ Simple.scriptArgs sm script =
     typedArgs script (Simple.selectedDir sm) (Simple.outputPath sm)
       (Simple.exportFormat sm) (Simple.debugMode sm)
  /\ (Simple.findPythonScript = "" \/
      exists result error,
        Simple.runPythonScript sm = tea.processCompleteMsg result error /\
        (result, error) =
        match exec.CombinedOutput python
                (typedArgs Simple.findPythonScript (Simple.selectedDir sm)
                   (Simple.outputPath sm) (Simple.exportFormat sm)
                   (Simple.debugMode sm)) with
        | (output, Some err) => ("", Simple.executionError err output)
        | (output, None) =>
            ("🎉 Files successfully processed!" ++ nl ++ nl
             ++ "📊 Results:" ++ nl ++ output, "")
        end).
Proof.
  split; [apply scriptArgs_expected|]. split; [|split; [|split]].
  - unfold Tui.fullOutputPath, Tui.outputFilename, defaultExtension.
    destruct (strings.Contains (Tui.outputPath m) "."); cbn [negb]; [reflexivity|].
    now destruct (String.eqb (Tui.exportFormat m) "csv").
  - destruct (String.eqb_spec Tui.findPythonScript "") as [E|N]; [now left | right].
    rewrite (runPythonScript_runs m N), scriptArgs_expected.
    destruct (exec.CombinedOutput _ _) as [output [err|]]; eauto.
  - apply simple_scriptArgs_typed.
  - destruct (String.eqb_spec Simple.findPythonScript "") as [E|N]; [now left | right].
    rewrite (simple_runPythonScript_runs sm N), simple_scriptArgs_typed.
    destruct (exec.CombinedOutput _ _) as [output [err|]]; eauto.
Qed.

(** The same list, written out. *)
Remark simple_argument_list (m : Simple.model) (script : string) :
  Simple.scriptArgs m script =
  ([script; "--directory"; Simple.selectedDir m; "--output"; Simple.outputPath m]
   ++ (if String.eqb (Simple.exportFormat m) "csv" then ["--csv-only"]
       else if String.eqb (Simple.exportFormat m) "both" then ["--csv"]
       else [])
   ++ (if Simple.debugMode m then ["--debug"] else []))%list.
Proof.
  unfold Simple.scriptArgs.
  destruct (String.eqb (Simple.exportFormat m) "csv");
    destruct (String.eqb (Simple.exportFormat m) "both");
    destruct (Simple.debugMode m); reflexivity.
Qed.

(** *** Failure of the companion *)

(** The error text ends with the captured output. *)
Lemma executionError_output (err output : string) :
  exists banner, Tui.executionError err output = banner ++ output.
Proof.
  unfold Tui.executionError.
  destruct (strings.Contains err "executable file not found");
    eexists; rewrite <- !append_assoc; reflexivity.
Qed.

Lemma executionError_contains (err output : string) :
  strings.Contains (Tui.executionError err output) output = true.
Proof.
  destruct (executionError_output err output) as [banner E]. rewrite E.
  apply Contains_suffix.
Qed.

Lemma executionError_nonempty (err output : string) :
  Tui.executionError err output <> "".
Proof.
  unfold Tui.executionError.
  destruct (strings.Contains err "executable file not found");
    rewrite !append_assoc; discriminate.
Qed.

(** Every message of [runPythonScript] carries either an error or a
    result, never both and never neither. *)
Lemma runPythonScript_exclusive (m : Tui.model) :
  exists result error,
    Tui.runPythonScript m = tea.processCompleteMsg result error /\
    ((error <> "" /\ result = "") \/ (error = "" /\ result <> "")).
Proof.
  unfold Tui.runPythonScript.
  destruct (String.eqb Tui.findPythonScript "").
  - do 2 eexists. split; [reflexivity|]. left. split; [discriminate | reflexivity].
  - destruct (exec.CombinedOutput _ _) as [output [err|]].
    + do 2 eexists. split; [reflexivity|]. left.
      split; [apply executionError_nonempty | reflexivity].
    + do 2 eexists. split; [reflexivity|]. right.
      split; [reflexivity | discriminate].
Qed.

End Invoker.

(** ** The filesystem lister of the rich variant *)

Section Lister.

Context {unicode : strings.Unicode} {paths : filepath.Lib}.
Context {sorting : sort.Lib} {sortingLaws : sort.Laws sorting}.
Context {host : os.Host}.

(** *** The second loop of [isDirEmpty] *)

Lemma subdirsEmpty_false (rec : string -> option bool) (dirPath : string)
    (entries : list os.DirEntry) :
  Tui.subdirsEmpty rec dirPath entries = Some false ->
  exists entry, In entry entries /\ os.IsDir entry = true /\
                rec (filepath.Join dirPath (os.Name entry)) = Some false.
Proof.
  induction entries as [|entry rest IH]; simpl; [discriminate|].
  destruct (os.IsDir entry) eqn:D.
  - destruct (rec _) as [[|]|] eqn:R; try discriminate.
    + intros H. destruct (IH H) as (e & I & De & Re). eauto.
    + intros _. eauto.
  - intros H. destruct (IH H) as (e & I & De & Re). eauto.
Qed.

Lemma subdirsEmpty_true (rec : string -> option bool) (dirPath : string)
    (entries : list os.DirEntry) :
  Tui.subdirsEmpty rec dirPath entries = Some true ->
  forall entry, In entry entries -> os.IsDir entry = true ->
                rec (filepath.Join dirPath (os.Name entry)) = Some true.
Proof.
  induction entries as [|entry rest IH]; simpl; [intros _ ? []|].
  destruct (os.IsDir entry) eqn:D.
  - destruct (rec _) as [[|]|] eqn:R; try discriminate.
    intros H e [<-|I] De; [exact R | now apply IH].
  - intros H e [<-|I] De; [congruence | now apply IH].
Qed.

Lemma subdirsEmpty_returns (rec : string -> option bool) (dirPath : string)
    (entries : list os.DirEntry) :
  (forall entry, In entry entries -> os.IsDir entry = true ->
                 exists b, rec (filepath.Join dirPath (os.Name entry)) = Some b) ->
  exists b, Tui.subdirsEmpty rec dirPath entries = Some b.
Proof.
  induction entries as [|entry rest IH]; simpl; intros T; [eauto|].
  destruct (os.IsDir entry) eqn:D.
  - destruct (T entry (or_introl eq_refl) D) as [[|] R]; rewrite R; eauto.
  - eauto.
Qed.

(** *** [isDirEmpty] *)

Lemma isDirEmpty_unreadable (fuel : nat) (dirPath : string) :
  os.ReadDir dirPath = None -> Tui.isDirEmpty (S fuel) dirPath = Some true.
Proof. intros R. simpl. now rewrite R. Qed.

Lemma isDirEmpty_false (fuel : nat) (dirPath : string) :
  Tui.isDirEmpty fuel dirPath = Some false -> HasFile dirPath.
Proof.
  revert dirPath. induction fuel as [|fuel IH]; intros dirPath; simpl; [discriminate|].
  destruct (os.ReadDir dirPath) as [entries|] eqn:R; [|discriminate].
  destruct (existsb _ entries) eqn:E.
  - intros _. apply existsb_exists in E as (entry & I & N).
    apply negb_true_iff in N. eapply HasFile_here; eauto.
  - intros H. apply subdirsEmpty_false in H as (entry & I & D & F).
    eapply HasFile_below; eauto.
Qed.

Lemma isDirEmpty_true (fuel : nat) (dirPath : string) :
  Tui.isDirEmpty fuel dirPath = Some true -> ~ HasFile dirPath.
Proof.
  revert dirPath. induction fuel as [|fuel IH]; intros dirPath; simpl; [discriminate|].
  destruct (os.ReadDir dirPath) as [entries|] eqn:R.
  - destruct (existsb _ entries) eqn:E; [discriminate|].
    intros H F.
    assert (NoFile : forall entry, In entry entries -> os.IsDir entry = true).
    { intros entry I. destruct (os.IsDir entry) eqn:D; [reflexivity|].
      assert (X : existsb (fun entry => negb (os.IsDir entry)) entries = true)
        by (apply existsb_exists; exists entry; now rewrite D).
      congruence. }
    inversion F as [? es entry R' I D | ? es entry R' I D Fsub]; subst;
      rewrite R in R'; injection R' as <-.
    + rewrite (NoFile entry I) in D. discriminate.
    + eapply IH; [|exact Fsub]. eapply subdirsEmpty_true; eauto.
  - intros _ F. inversion F; congruence.
Qed.

Lemma isDirEmpty_returns (fuel : nat) (dirPath : string) :
  Shallow fuel dirPath -> exists b, Tui.isDirEmpty fuel dirPath = Some b.
Proof.
  induction 1 as [n dirPath R | n dirPath entries R _ IH]; simpl; rewrite R; [eauto|].
  destruct (existsb _ entries); [eauto|].
  apply subdirsEmpty_returns. exact IH.
Qed.

(** Within the budget, [isDirEmpty] answers, and answers [false] exactly
    for the directories that hold a file. *)
Lemma isDirEmpty_spec (fuel : nat) (dirPath : string) :
  Shallow fuel dirPath ->
  (HasFile dirPath /\ Tui.isDirEmpty fuel dirPath = Some false) \/
  (~ HasFile dirPath /\ Tui.isDirEmpty fuel dirPath = Some true).
Proof.
  intros Sh. destruct (isDirEmpty_returns fuel dirPath Sh) as [[|] E].
  - right. split; [now apply (isDirEmpty_true fuel) | exact E].
  - left. split; [now apply (isDirEmpty_false fuel) | exact E].
Qed.

Lemma isDirEmpty_HasFile (fuel : nat) (dirPath : string) :
  Shallow fuel dirPath -> HasFile dirPath -> Tui.isDirEmpty fuel dirPath = Some false.
Proof. intros Sh F. destruct (isDirEmpty_spec fuel dirPath Sh) as [[_ E]|[N _]]; tauto. Qed.

(** *** [getDirectoryItems] *)

Lemma collectDirs_listed (fuel : nat) (dirPath : string) (entries : list os.DirEntry)
    (dirItems : list Tui.directoryItem) :
  (forall entry, In entry entries -> os.IsDir entry = true ->
                 Shallow fuel (filepath.Join dirPath (os.Name entry))) ->
  Tui.collectDirs fuel dirPath entries dirItems =
  Some (dirItems ++ map (Tui.itemOf dirPath) (filter (listed fuel dirPath) entries))%list.
Proof.
  revert dirItems. induction entries as [|entry rest IH]; intros dirItems Sh; simpl.
  - now rewrite app_nil_r.
  - assert (Sh' : forall e, In e rest -> os.IsDir e = true ->
                            Shallow fuel (filepath.Join dirPath (os.Name e)))
      by (intros e I; apply Sh; now right).
    unfold listed at 1. destruct (os.IsDir entry) eqn:D; cbn [andb]; [|now apply IH].
    destruct (Tui.skippedName (os.Name entry)); cbn [negb andb]; [now apply IH|].
    destruct (isDirEmpty_returns fuel _ (Sh entry (or_introl eq_refl) D)) as [[|] E];
      rewrite E; cbn [bind negb].
    + now apply IH.
    + rewrite IH by assumption. cbn [map]. now rewrite <- app_assoc.
Qed.

(** The listing of a readable directory: the parent entry when there is
    one, then the kept subdirectories as [sort.Slice] orders them. *)
Lemma getDirectoryItems_readable (fuel : nat) (dirPath : string)
    (entries : list os.DirEntry) :
  os.ReadDir dirPath = Some entries ->
  Shallow (S fuel) dirPath ->
  Tui.getDirectoryItems fuel dirPath =
  Some (Tui.parentItems dirPath ++
        sort.Slice Tui.moreRecent
          (map (Tui.itemOf dirPath) (filter (listed fuel dirPath) entries)))%list.
Proof.
  intros R Sh. unfold Tui.getDirectoryItems. rewrite R.
  inversion Sh as [? ? R' | ? ? es R' Sub]; subst; rewrite R in R'; [discriminate|].
  injection R' as <-.
  now rewrite (collectDirs_listed fuel dirPath entries [] Sub).
Qed.

Lemma getDirectoryItems_unreadable (fuel : nat) (dirPath : string) :
  os.ReadDir dirPath = None ->
  Tui.getDirectoryItems fuel dirPath = Some (Tui.parentItems dirPath).
Proof. intros R. unfold Tui.getDirectoryItems. now rewrite R. Qed.

(** Within the budget the listing is always produced. *)
Lemma getDirectoryItems_returns (fuel : nat) (dirPath : string) :
  Shallow (S fuel) dirPath ->
  exists items, Tui.getDirectoryItems fuel dirPath = Some items.
Proof.
  intros Sh. destruct (os.ReadDir dirPath) as [entries|] eqn:R.
  - rewrite (getDirectoryItems_readable fuel dirPath entries R Sh). eauto.
  - rewrite (getDirectoryItems_unreadable fuel dirPath R). eauto.
Qed.

(** The order of the listing. *)
Lemma moreRecent_asym (a b : Tui.directoryItem) :
  Tui.moreRecent a b = true -> Tui.moreRecent b a = false.
Proof. unfold Tui.moreRecent, time.After. intros H. apply Z.ltb_lt in H. apply Z.ltb_ge. lia. Qed.

Lemma moreRecent_trans (a b c : Tui.directoryItem) :
  Tui.moreRecent b a = false -> Tui.moreRecent c b = false -> Tui.moreRecent c a = false.
Proof.
  unfold Tui.moreRecent, time.After. intros H1 H2.
  apply Z.ltb_ge in H1, H2. apply Z.ltb_ge. lia.
Qed.

Lemma sorted_most_recent_first (dirItems : list Tui.directoryItem) :
  StronglySorted (fun a b => (Tui.modTime b <= Tui.modTime a)%Z)
    (sort.Slice Tui.moreRecent dirItems).
Proof.
  pose proof (sort.Slice_sorted _ Tui.moreRecent dirItems moreRecent_asym moreRecent_trans) as S.
  induction S as [|a l S IH F]; constructor; [exact IH|].
  rewrite Forall_forall in *. intros b I. specialize (F b I).
  unfold Tui.moreRecent, time.After in F. now apply Z.ltb_ge in F.
Qed.

(** Which entries are kept, in terms of the tree. *)
Lemma listed_spec (fuel : nat) (dirPath : string) (entry : os.DirEntry) :
  (os.IsDir entry = true -> Shallow fuel (filepath.Join dirPath (os.Name entry))) ->
  listed fuel dirPath entry = true <->
  os.IsDir entry = true /\ Tui.skippedName (os.Name entry) = false /\
  HasFile (filepath.Join dirPath (os.Name entry)).
Proof.
  intros Sh. unfold listed. split.
  - intros H. apply andb_true_iff in H as [H E]. apply andb_true_iff in H as [D N].
    apply negb_true_iff in N. repeat split; try assumption.
    destruct (Tui.isDirEmpty fuel _) as [[|]|] eqn:X; try discriminate.
    eapply isDirEmpty_false; eauto.
  - intros (D & N & F). rewrite D, N. cbn [negb andb].
    now rewrite (isDirEmpty_HasFile fuel _ (Sh D) F).
Qed.

Lemma skippedName_parent : Tui.skippedName ".." = true.
Proof. reflexivity. Qed.

End Lister.

Section ListerClaims.

Context {unicode : strings.Unicode} {paths : filepath.Lib}.
Context {sorting : sort.Lib} {sortingLaws : sort.Laws sorting}.
Context {host : os.Host}.

(** The items after the parent entry are the items of the kept entries. *)
Lemma listed_items (fuel : nat) (dirPath : string) (entries : list os.DirEntry)
    (item : Tui.directoryItem) :
  In item (sort.Slice Tui.moreRecent
             (map (Tui.itemOf dirPath) (filter (listed fuel dirPath) entries))) <->
  exists entry, In entry entries /\ listed fuel dirPath entry = true /\
                item = Tui.itemOf dirPath entry.
Proof.
  split.
  - intros I. eapply Permutation_in in I; [|apply Permutation_sym, sort.Slice_perm].
    apply in_map_iff in I as (entry & <- & F). apply filter_In in F as [I L]. eauto.
  - intros (entry & I & L & ->).
    eapply Permutation_in; [apply sort.Slice_perm|].
    apply in_map. apply filter_In. auto.
Qed.

Lemma HasFile_readable (dirPath : string) :
  HasFile dirPath -> os.ReadDir dirPath <> None.
Proof. intros F. inversion F; congruence. Qed.

(** C10.  [isDirEmpty] answers [true] for a directory that cannot be read;
    so a subdirectory that cannot be read is never among the listed
    subdirectories (no item after the parent entry bears its name); and a
    directory that holds a non-directory entry at any depth, whatever the
    names on the way, is found not empty. *)
Theorem unreadable_directory_counts_as_empty :
  (forall fuel dirPath,
      os.ReadDir dirPath = None -> Tui.isDirEmpty (S fuel) dirPath = Some true)
  /\ (forall fuel dirPath entries entry,
         os.ReadDir dirPath = Some entries ->
         Shallow (S fuel) dirPath ->
         In entry entries ->
         os.IsDir entry = true ->
         os.ReadDir (filepath.Join dirPath (os.Name entry)) = None ->
         exists rest,
           Tui.getDirectoryItems fuel dirPath = Some (Tui.parentItems dirPath ++ rest)%list /\
           forall item, In item rest -> Tui.name item <> os.Name entry)
  /\ (forall fuel dirPath,
         Shallow fuel dirPath -> HasFile dirPath ->
         Tui.isDirEmpty fuel dirPath = Some false).
Proof.
  split; [exact isDirEmpty_unreadable|]. split; [|exact isDirEmpty_HasFile].
  intros fuel dirPath entries entry R Sh I D U.
  eexists. split; [exact (getDirectoryItems_readable fuel dirPath entries R Sh)|].
  intros item Hitem E.
  apply listed_items in Hitem as (e & _ & L & ->). cbn in E.
  unfold listed in L. apply andb_true_iff in L as [_ L].
  destruct (Tui.isDirEmpty fuel _) as [[|]|] eqn:X; try discriminate.
  apply isDirEmpty_false in X. apply HasFile_readable in X. congruence.
Qed.

(** The item of a kept entry is in the listing exactly when the entry holds
    a file. *)
Lemma listing_membership (fuel : nat) (dirPath : string) (entries : list os.DirEntry)
    (entry : os.DirEntry) :
  os.ReadDir dirPath = Some entries ->
  Shallow (S fuel) dirPath ->
  In entry entries ->
  os.IsDir entry = true ->
  Tui.skippedName (os.Name entry) = false ->
  exists items,
    Tui.getDirectoryItems fuel dirPath = Some items /\
    (In (Tui.itemOf dirPath entry) items <->
     HasFile (filepath.Join dirPath (os.Name entry))).
Proof.
  intros R Sh I D N.
  assert (Sub : forall e, In e entries -> os.IsDir e = true ->
                          Shallow fuel (filepath.Join dirPath (os.Name e))).
  { inversion Sh as [? ? R' | ? ? es R' Sub]; subst; rewrite R in R'; [discriminate|].
    now injection R' as <-. }
  eexists. split; [exact (getDirectoryItems_readable fuel dirPath entries R Sh)|].
  rewrite in_app_iff, listed_items. split.
  - intros [P | (e & Ie & L & E)].
    + unfold Tui.parentItems in P. destruct (String.eqb _ dirPath); [destruct P|].
      destruct P as [P|[]]. apply (f_equal Tui.name) in P. cbn in P.
      rewrite <- P in N. discriminate.
    + apply (f_equal Tui.name) in E. cbn in E. rewrite E.
      apply (listed_spec fuel dirPath e); [intros De; now apply Sub | exact L].
  - intros F. right. exists entry. repeat split; try assumption.
    apply listed_spec; [intros _; now apply Sub | auto].
Qed.

(** A sorted permutation of one item is that item. *)
Lemma Slice_singleton (A : Type) (less : A -> A -> bool) (a : A) :
  sort.Slice less [a] = [a].
Proof. apply Permutation_length_1_inv. apply sort.Slice_perm. Qed.

(** C2, as amended.  In the directory-only listing, a subdirectory whose
    name is not skipped (not empty, not starting with a dot, not blank) is
    left out exactly when it holds no file: it cannot be read, or neither it
    nor any directory below it that can be read has a non-directory entry.
    In particular, for a directory whose entries are the subdirectories [a],
    which holds a file, and [b], which holds none, the listing is the parent
    entry followed by [a] alone. *)
Theorem listing_excludes_empty_subdirectories :
  (forall fuel dirPath entries entry,
      os.ReadDir dirPath = Some entries ->
      Shallow (S fuel) dirPath ->
      In entry entries ->
      os.IsDir entry = true ->
      Tui.skippedName (os.Name entry) = false ->
      exists items,
        Tui.getDirectoryItems fuel dirPath = Some items /\
        (~ In (Tui.itemOf dirPath entry) items <->
         ~ HasFile (filepath.Join dirPath (os.Name entry))))
  /\ (forall fuel dirPath a b,
         os.ReadDir dirPath = Some [a; b] ->
         Shallow (S fuel) dirPath ->
         os.IsDir a = true -> Tui.skippedName (os.Name a) = false ->
         os.IsDir b = true ->
         HasFile (filepath.Join dirPath (os.Name a)) ->
         ~ HasFile (filepath.Join dirPath (os.Name b)) ->
         Tui.getDirectoryItems fuel dirPath =
         Some (Tui.parentItems dirPath ++ [Tui.itemOf dirPath a])%list).
Proof.
  split.
  - intros fuel dirPath entries entry R Sh I D N.
    destruct (listing_membership fuel dirPath entries entry R Sh I D N) as (items & G & M).
    exists items. split; [exact G | now rewrite M].
  - intros fuel dirPath a b R Sh Da Na Db Fa Fb.
    assert (Sub : forall e, In e [a; b] -> os.IsDir e = true ->
                            Shallow fuel (filepath.Join dirPath (os.Name e))).
    { inversion Sh as [? ? R' | ? ? es R' Sub]; subst; rewrite R in R'; [discriminate|].
      now injection R' as <-. }
    rewrite (getDirectoryItems_readable fuel dirPath [a; b] R Sh).
    assert (La : listed fuel dirPath a = true).
    { apply listed_spec; [intros _; apply Sub; simpl; auto | auto]. }
    assert (Lb : listed fuel dirPath b = false).
    { destruct (listed fuel dirPath b) eqn:L; [|reflexivity].
      apply listed_spec in L; [tauto | intros _; apply Sub; simpl; auto]. }
    cbn [filter]. rewrite La, Lb. cbn [map]. now rewrite Slice_singleton.
Qed.

(** C3, as amended.  Listing a readable directory gives, within the budget,
    the parent entry exactly when [filepath.Dir] of the path differs from
    the path, always in first place, followed by one item for each child
    that is a directory, has a name that is not skipped and holds a file;
    none of these [N] items is named [..], and they are in order of
    modification time, most recent first. *)
Theorem listing_of_readable_directory (fuel : nat) (dirPath : string)
    (entries : list os.DirEntry) :
  os.ReadDir dirPath = Some entries ->
  Shallow (S fuel) dirPath ->
  exists rest,
    Tui.getDirectoryItems fuel dirPath = Some (Tui.parentItems dirPath ++ rest)%list
    /\ Tui.parentItems dirPath =
       (if String.eqb (filepath.Dir dirPath) dirPath then []
        else [ {| Tui.name := ".."; Tui.path := filepath.Dir dirPath;
                  Tui.isDir := true; Tui.modTime := time.zero |} ])
    /\ (forall entry, In entry entries ->
          (listed fuel dirPath entry = true <->
           os.IsDir entry = true /\ Tui.skippedName (os.Name entry) = false /\
           HasFile (filepath.Join dirPath (os.Name entry))))
    /\ Permutation (map (Tui.itemOf dirPath) (filter (listed fuel dirPath) entries)) rest
    /\ List.length rest = List.length (filter (listed fuel dirPath) entries)
    /\ (forall item, In item rest -> Tui.name item <> "..")
    /\ StronglySorted (fun a b => (Tui.modTime b <= Tui.modTime a)%Z) rest.
Proof.
  intros R Sh.
  assert (Sub : forall e, In e entries -> os.IsDir e = true ->
                          Shallow fuel (filepath.Join dirPath (os.Name e))).
  { inversion Sh as [? ? R' | ? ? es R' Sub]; subst; rewrite R in R'; [discriminate|].
    now injection R' as <-. }
  eexists. split; [exact (getDirectoryItems_readable fuel dirPath entries R Sh)|].
  split; [reflexivity|]. split; [|split; [|split; [|split]]].
  - intros entry I. apply listed_spec. intros D. now apply Sub.
  - apply sort.Slice_perm.
  - rewrite <- (Permutation_length (sort.Slice_perm _ Tui.moreRecent _)).
    apply length_map.
  - intros item I E. apply listed_items in I as (entry & Ie & L & ->). cbn in E.
    apply listed_spec in L; [|intros D; now apply Sub].
    destruct L as (_ & N & _). rewrite E in N. discriminate N.
  - apply sorted_most_recent_first.
Qed.

End ListerClaims.

(** ** Following the code of [Update] *)

(** The scrutinee of the outermost pending case distinction. *)
Ltac scrutinee t :=
  lazymatch t with
  | match ?x with _ => _ end => scrutinee x
  | _ => t
  end.

Ltac split_on x :=
  let s := scrutinee x in
  let s' := eval cbn in s in
  change s with s';
  first
    [ progress cbv beta iota zeta
    | match goal with H : s' = _ |- _ => rewrite H end
    | destruct s' eqn:? ].

(** Follow the code from the outside in, one goal per path. *)
Ltac walk :=
  cbv beta iota zeta;
  lazymatch goal with
  | |- resultSat _ (match ?x with _ => _ end) => split_on x; walk
  | |- resultSat _ (Some _) => cbn [resultSat]; walk
  | |- pairSat _ (match ?x with _ => _ end) => split_on x; walk
  | |- _ => idtac
  end.

Ltac inner_cases :=
  repeat match goal with
  | H : ?x = _ |- context [match ?x with _ => _ end] => rewrite H
  | |- context [match ?x with _ => _ end] => destruct x eqn:?
  end.

(** ** The wizard of the rich variant *)

Section Wizard.

Context {unicode : strings.Unicode} {paths : filepath.Lib} {sorting : sort.Lib}.
Context {host : os.Host} {runner : exec.Runner}.
Context {inputs : textinput.Lib} {lists : list.Lib}.

(** *** Case analysis over the branches of [Update] *)

Lemma resultSat_elim (P : Tui.model -> Tui.Cmd -> Prop) r m' c :
  resultSat P r -> r = Some (m', c) -> P m' c.
Proof. intros S ->. exact S. Qed.

Lemma initialModel_fields (fuel : nat) (m0 : Tui.model) :
  Tui.initialModel fuel = Some m0 ->
  Tui.m_state m0 = Tui.selectingDirectory /\
  Tui.error m0 = "" /\ Tui.result m0 = "" /\
  Tui.filtering m0 = false /\
  textinput.Value (Tui.outputInput m0) = "" /\
  textinput.Value (Tui.litigantInput m0) = "" /\
  Tui.outputPath m0 = "" /\ Tui.litigantName m0 = "" /\
  Tui.selectedDir m0 = "" /\ Tui.exportFormat m0 = "excel" /\
  Tui.debugMode m0 = false /\ Tui.advancedMode m0 = false /\
  Tui.getDirectoryItems fuel (Tui.currentPath m0) = Some (list.items (Tui.directoryList m0)) /\
  Tui.allDirectories m0 = list.items (Tui.directoryList m0).
Proof.
  unfold Tui.initialModel. destruct (Tui.getDirectoryItems fuel _) as [items|] eqn:G;
    cbn [bind]; [|discriminate].
  intros E. injection E as <-. cbn. repeat split; auto.
Qed.

Lemma state_eqb_false (a b : Tui.state) : Tui.state_eqb a b = false -> a <> b.
Proof. destruct a, b; simpl; congruence. Qed.

Lemma state_eqb_true (a b : Tui.state) : Tui.state_eqb a b = true -> a = b.
Proof. destruct a, b; simpl; congruence. Qed.


Ltac open_update :=
  unfold Tui.Update, Tui.keyByState, Tui.keyFiltering, Tui.keyNavigating,
    Tui.keyOutput, Tui.keyLitigant, Tui.keyConfiguring, Tui.keyProcessing,
    Tui.keyFinished, Tui.descend, Tui.relist, Tui.chooseDirectory, Tui.confirmOutput,
    Tui.updateComponents, bind.

Ltac tidy :=
  repeat match goal with
  | H : andb _ _ = true |- _ => apply andb_true_iff in H as [? ?]
  | H : orb _ _ = false |- _ => apply orb_false_iff in H as [? ?]
  | H : negb _ = true |- _ => apply negb_true_iff in H
  | H : negb _ = false |- _ => apply negb_false_iff in H
  | H : Tui.state_eqb _ _ = false |- _ => apply state_eqb_false in H
  | H : Tui.state_eqb _ _ = true |- _ => apply state_eqb_true in H
  | H : _ /\ _ |- _ => destruct H
  end.

Ltac use_initial :=
  match goal with
  | I : Tui.initialModel _ = Some _ |- _ => apply initialModel_fields in I
  end.

(** *** What a step does to the outcome and to the state *)

(** A message from outside keeps the outcome fields and the side of
    [finished] the wizard is on, or clears them and leaves [finished]; it
    never leaves [processing], and the only command that starts the
    companion enters [processing]. *)
Lemma Update_outside_rules (fuel : nat) (m : Tui.model) (msg : tea.Msg) :
  fromOutside msg = true ->
  resultSat (fun m' c => (outcomeKept m m' \/ outcomeCleared m') /\ launchRule m m' c)
    (Tui.Update fuel m msg).
Proof.
  intros O. destruct msg as [key|w h|r e|tag]; [| | discriminate O |].
  all: open_update; walk.
  all: try exact I; unfold pairSat; cbn [fst snd].
  all: unfold outcomeKept, outcomeCleared, launchRule; try use_initial; tidy.
  all: inner_cases; cbn.
  all: intuition (congruence || discriminate || lia).
Qed.

(** The completion message moves to [finished] and records the error, or
    the result when there is no error. *)
Lemma Update_completion (fuel : nat) (m : Tui.model) (result error : string) :
  exists m',
    Tui.Update fuel m (tea.processCompleteMsg result error) = Some (m', tea.Nil) /\
    Tui.m_state m' = Tui.finished /\
    (error <> "" -> Tui.error m' = error /\ Tui.result m' = Tui.result m) /\
    (error = "" -> Tui.error m' = Tui.error m /\ Tui.result m' = result).
Proof.
  eexists. split; [reflexivity|]. cbn.
  destruct (String.eqb_spec error ""); cbn; intuition congruence.
Qed.

(** *** The outcome of the companion along the runs *)

Lemma consistent_initial (fuel : nat) (m0 : Tui.model) :
  Tui.initialModel fuel = Some m0 -> consistent {| current := m0; pending := [] |}.
Proof.
  intros I. apply initialModel_fields in I. unfold consistent. cbn.
  intuition (congruence || lia).
Qed.

Lemma consistent_deliver (fuel : nat) (rt rt' : runtime) (ev : Event) :
  consistent rt -> deliver fuel rt ev = Some rt' -> consistent rt'.
Proof.
  intros (P & L & N & F) D. destruct ev as [msg|]; cbn in D.
  - destruct (fromOutside msg) eqn:O; [|discriminate].
    pose proof (Update_outside_rules fuel (current rt) msg O) as R.
    destruct (Tui.Update fuel (current rt) msg) as [[m' c]|]; [|discriminate].
    cbn in D. injection D as <-. cbn in R. unfold pairSat in R. cbn in R.
    destruct R as (Out & Lp & Ll & Llen). unfold consistent. cbn.
    assert (Pend : pending rt = [] \/ (Tui.m_state m' = Tui.processing /\ launched c = [])).
    { destruct (pending rt); [now left | right]. apply Lp, P. discriminate. }
    split; [|split; [|split]].
    + intros NE. destruct Pend as [E|[S _]]; [|exact S].
      rewrite E in NE. cbn in NE. now apply Ll.
    + destruct Pend as [E|[_ E]]; rewrite E; [cbn; lia | rewrite app_nil_r; exact L].
    + intros NF. destruct Out as [(E & R & S)|(E & R & _)]; [|now split].
      rewrite E, R. apply N. rewrite <- S. exact NF.
    + intros IsF. destruct Out as [(E & R & S)|(_ & _ & NF)]; [|contradiction].
      unfold exclusiveOutcome. rewrite E, R. apply F. now apply S.
  - destruct (pending rt) as [|m0 rest] eqn:Pe; [discriminate|].
    destruct (runPythonScript_exclusive m0) as (result & error & Msg & Ex).
    rewrite Msg in D.
    destruct (Update_completion fuel (current rt) result error) as (m' & U & S & E1 & E2).
    rewrite U in D. cbn in D. injection D as <-.
    assert (St : Tui.m_state (current rt) = Tui.processing) by (apply P; discriminate).
    assert (Emp : Tui.error (current rt) = "" /\ Tui.result (current rt) = "")
      by (apply N; congruence).
    assert (Re : rest = []) by (destruct rest; [reflexivity | cbn in L; lia]).
    subst rest. unfold consistent, exclusiveOutcome. cbn.
    split; [congruence|]. split; [lia|]. split; [congruence|]. intros _.
    destruct Emp as [Ee Er].
    destruct Ex as [[Ne Rr]|[Ee' Nr]].
    + left. destruct (E1 Ne) as [-> ->]. now split.
    + right. destruct (E2 Ee') as [-> ->]. split; congruence.
Qed.

Lemma consistent_run (fuel : nat) (events : list Event) (rt rt' : runtime) :
  consistent rt -> run fuel rt events = Some rt' -> consistent rt'.
Proof.
  revert rt. induction events as [|ev events IH]; intros rt C R; cbn in R.
  - now injection R as <-.
  - destruct (deliver fuel rt ev) as [rt1|] eqn:D; [|discriminate].
    cbn in R. eapply IH; [|exact R]. eapply consistent_deliver; eauto.
Qed.

Lemma reachable_consistent (fuel : nat) (rt : runtime) :
  reachable fuel rt -> consistent rt.
Proof.
  intros (m0 & events & I & R).
  eapply consistent_run; [|exact R]. now apply (consistent_initial fuel).
Qed.

(** *** Quit and reset *)

Lemma Update_q (fuel : nat) (m : Tui.model) :
  Tui.Update fuel m (tea.KeyMsg "q") = Some (m, tea.Quit).
Proof.
  unfold Tui.Update, Tui.keyByState. cbn [String.eqb Ascii.eqb Bool.eqb andb].
  destruct (Tui.m_state m); cbn [bind]; try reflexivity.
  destruct (Tui.filtering m); reflexivity.
Qed.

Lemma Update_r (fuel : nat) (m : Tui.model) :
  Tui.m_state m <> Tui.processing ->
  Tui.Update fuel m (tea.KeyMsg "r") =
  (m0 <- Tui.initialModel fuel ;; Some (m0, tea.Nil)).
Proof.
  intros N. unfold Tui.Update. cbn [String.eqb Ascii.eqb Bool.eqb andb].
  destruct (Tui.m_state m); try reflexivity. now elim N.
Qed.

Lemma Update_r_processing (fuel : nat) (m : Tui.model) :
  Tui.m_state m = Tui.processing ->
  Tui.Update fuel m (tea.KeyMsg "r") = Some (m, tea.Nil).
Proof.
  intros S. unfold Tui.Update, Tui.keyByState, Tui.updateComponents. rewrite S.
  cbn. now rewrite S.
Qed.

(** *** What can be typed into the two text-entry steps *)

Lemma typed_noQR (ti : textinput.Model) (msg : tea.Msg) :
  typedOnly ->
  noQR (textinput.Value ti) ->
  msg <> tea.KeyMsg "q" -> msg <> tea.KeyMsg "r" ->
  noQR (textinput.Value (textinput.Update ti msg)).
Proof.
  intros T [Q R] Nq Nr. split.
  - destruct (occurs "q" (textinput.Value (textinput.Update ti msg))) eqn:O; [|reflexivity].
    destruct (T ti msg _ O) as [X|X]; [congruence | contradiction].
  - destruct (occurs "r" (textinput.Value (textinput.Update ti msg))) eqn:O; [|reflexivity].
    destruct (T ti msg _ O) as [X|X]; [congruence | contradiction].
Qed.

Ltac key_differs :=
  let E := fresh in
  intros E; first [ discriminate E | injection E as E; subst ];
  repeat match goal with
  | H : (_ && negb (Tui.state_eqb _ _)) = false |- _ =>
      cbn in H; discriminate H
  | H : String.eqb _ _ = false |- _ => cbn in H; discriminate H
  | H : String.eqb _ _ = false |- _ => clear H
  | H : _ = _ |- _ => clear H
  end.

(** No step of [Update] brings a [q] or an [r] into the entries. *)
Lemma Update_entries (fuel : nat) (m : Tui.model) (msg : tea.Msg) :
  typedOnly ->
  entriesNoQR m ->
  resultSat (fun m' _ => entriesNoQR m') (Tui.Update fuel m msg).
Proof.
  intros T C. destruct msg as [key|w h|r e|tag].
  all: open_update; walk.
  all: try exact I; unfold pairSat; cbn [fst snd].
  all: unfold entriesNoQR in *; try use_initial; tidy.
  all: inner_cases; cbn.
  all: repeat match goal with H : _ = "" |- _ => rewrite H end.
  all: split; [|split; [|split]].
  all: first [ assumption
             | split; reflexivity
             | apply typed_noQR; [exact T | assumption | key_differs | key_differs] ].
Qed.

Lemma entries_run (fuel : nat) (events : list Event) (rt rt' : runtime) :
  typedOnly -> entriesNoQR (current rt) -> run fuel rt events = Some rt' ->
  entriesNoQR (current rt').
Proof.
  intros T. revert rt. induction events as [|ev events IH]; intros rt C R; cbn in R.
  - now injection R as <-.
  - destruct (deliver fuel rt ev) as [rt1|] eqn:D; [|discriminate].
    cbn in R. eapply IH; [|exact R].
    destruct ev as [msg|]; cbn in D.
    + destruct (fromOutside msg); [|discriminate].
      pose proof (Update_entries fuel (current rt) msg T C) as U.
      destruct (Tui.Update fuel (current rt) msg) as [r|]; [|discriminate].
      cbn in D. injection D as <-. exact U.
    + destruct (pending rt) as [|m0 rest]; [discriminate|].
      pose proof (Update_entries fuel (current rt) (Tui.runPythonScript m0) T C) as U.
      destruct (Tui.Update fuel (current rt) _) as [r|]; [|discriminate].
      cbn in D. injection D as <-. exact U.
Qed.

Lemma reachable_entries (fuel : nat) (rt : runtime) :
  typedOnly -> reachable fuel rt -> entriesNoQR (current rt).
Proof.
  intros T (m0 & events & I & R).
  eapply entries_run; [exact T | | exact R].
  apply initialModel_fields in I. unfold entriesNoQR. cbn [current].
  destruct I as (_ & _ & _ & _ & O & L & P & N & _). rewrite O, L, P, N.
  repeat split; reflexivity.
Qed.

(** *** The filter sub-mode *)

(** [i] enters the sub-mode and takes a fresh listing as the collection to
    filter; what is displayed stays. *)
Lemma enter_filter (fuel : nat) (m : Tui.model) (all : list Tui.directoryItem) :
  Tui.m_state m = Tui.selectingDirectory ->
  Tui.filtering m = false ->
  Tui.getDirectoryItems fuel (Tui.currentPath m) = Some all ->
  exists m1,
    Tui.Update fuel m (tea.KeyMsg "i") = Some (m1, tea.Blink) /\
    Tui.m_state m1 = Tui.selectingDirectory /\
    Tui.filtering m1 = true /\
    Tui.currentPath m1 = Tui.currentPath m /\
    Tui.allDirectories m1 = all /\
    list.items (Tui.directoryList m1) = list.items (Tui.directoryList m) /\
    textinput.Value (Tui.filterInput m1) = "".
Proof.
  intros S F G. unfold Tui.Update, Tui.keyByState, Tui.keyNavigating.
  rewrite S, F. cbn [String.eqb Ascii.eqb Bool.eqb andb orb negb Tui.state_eqb].
  cbn [Tui.currentPath Tui.set_filterInput Tui.set_filtering]. rewrite G.
  cbn [bind]. eexists. split; [reflexivity|]. cbn. auto 10.
Qed.

(** A plain key edits the filter text and displays the matching part of
    the collection, cursor on the first item. *)
Lemma type_in_filter (fuel : nat) (m : Tui.model) (key : string) :
  Tui.m_state m = Tui.selectingDirectory ->
  Tui.filtering m = true ->
  plainKey key = true ->
  exists m1,
    Tui.Update fuel m (tea.KeyMsg key) = Some (m1, tea.Widget) /\
    Tui.m_state m1 = Tui.selectingDirectory /\
    Tui.filtering m1 = true /\
    Tui.currentPath m1 = Tui.currentPath m /\
    Tui.allDirectories m1 = Tui.allDirectories m /\
    Tui.filterInput m1 = textinput.Update (Tui.filterInput m) (tea.KeyMsg key) /\
    list.items (Tui.directoryList m1) =
      Tui.filterDirectories (Tui.allDirectories m) (textinput.Value (Tui.filterInput m1)) /\
    list.index (Tui.directoryList m1) = 0.
Proof.
  intros S F P. unfold plainKey in P. cbn [existsb] in P. tidy.
  unfold Tui.Update, Tui.keyByState, Tui.keyFiltering. rewrite S, F.
  repeat match goal with H : String.eqb key _ = false |- _ => rewrite H; clear H end.
  cbn [andb orb negb bind]. eexists. split; [reflexivity|]. cbn. auto 10.
Qed.

(** [esc] leaves the sub-mode, empties the filter text and displays a
    fresh listing, cursor on the first item. *)
Lemma escape_filter (fuel : nat) (m : Tui.model) (all : list Tui.directoryItem) :
  Tui.m_state m = Tui.selectingDirectory ->
  Tui.filtering m = true ->
  Tui.getDirectoryItems fuel (Tui.currentPath m) = Some all ->
  exists m2,
    Tui.Update fuel m (tea.KeyMsg "esc") = Some (m2, tea.Nil) /\
    Tui.m_state m2 = Tui.selectingDirectory /\
    Tui.filtering m2 = false /\
    Tui.currentPath m2 = Tui.currentPath m /\
    textinput.Value (Tui.filterInput m2) = "" /\
    list.items (Tui.directoryList m2) = all /\
    list.index (Tui.directoryList m2) = 0 /\
    Tui.allDirectories m2 = all.
Proof.
  intros S F G. unfold Tui.Update, Tui.keyByState, Tui.keyFiltering, Tui.relist.
  rewrite S, F. cbn [String.eqb Ascii.eqb Bool.eqb andb orb negb Tui.state_eqb].
  cbn [Tui.currentPath Tui.set_filterInput Tui.set_filtering]. rewrite G.
  cbn [bind]. eexists. split; [reflexivity|]. cbn. auto 10.
Qed.

(** Typing plain keys stays in the sub-mode, on the same collection. *)
Lemma type_keys_in_filter (fuel : nat) (keys : list string) (m : Tui.model) :
  Tui.m_state m = Tui.selectingDirectory ->
  Tui.filtering m = true ->
  forallb plainKey keys = true ->
  exists m1,
    pressKeys fuel m keys = Some m1 /\
    Tui.m_state m1 = Tui.selectingDirectory /\
    Tui.filtering m1 = true /\
    Tui.currentPath m1 = Tui.currentPath m /\
    Tui.allDirectories m1 = Tui.allDirectories m /\
    (keys <> [] ->
     list.items (Tui.directoryList m1) =
       Tui.filterDirectories (Tui.allDirectories m) (textinput.Value (Tui.filterInput m1)) /\
     list.index (Tui.directoryList m1) = 0).
Proof.
  revert m. induction keys as [|key keys IH]; intros m S F P.
  - exists m. cbn [pressKeys].
    do 5 (split; [assumption || reflexivity|]). intros N. now elim N.
  - cbn [forallb] in P. apply andb_true_iff in P as [Pk Pks].
    destruct (type_in_filter fuel m key S F Pk) as (m1 & U & S1 & F1 & C1 & A1 & _ & I1 & X1).
    destruct (IH m1 S1 F1 Pks) as (m2 & R & S2 & F2 & C2 & A2 & D2).
    exists m2. cbn [pressKeys]. rewrite U. cbn [bind fst].
    repeat split; try congruence.
    + destruct keys as [|k ks].
      * cbn in R. injection R as <-. exact I1.
      * rewrite <- A1. apply D2. discriminate.
    + destruct keys as [|k ks].
      * cbn in R. injection R as <-. exact X1.
      * apply D2. discriminate.
Qed.

(** *** The claims on the wizard *)

Lemma initialModel_returns (fuel : nat) :
  Shallow (S fuel) Tui.getDownloadsDirectory ->
  exists m0, Tui.initialModel fuel = Some m0.
Proof.
  intros Sh. destruct (getDirectoryItems_returns fuel _ Sh) as [items G].
  unfold Tui.initialModel. rewrite G. cbn [bind]. eauto.
Qed.

(** C7.  When the companion is found and run and returns an error with
    some captured output, the completion message has an empty result and an
    error text that ends with that output, so contains it verbatim.  In
    every state the runs of the wizard reach, [finished] comes with exactly
    one of the error and the result set; and when the completion of a
    failed run is delivered, the wizard is in [finished] with the output
    within its error and with no result. *)
Theorem companion_failure_outcome :
  (forall m output err,
      Tui.findPythonScript <> "" ->
      exec.CombinedOutput python (Tui.scriptArgs m Tui.findPythonScript)
        = (output, Some err) ->
      exists error,
        Tui.runPythonScript m = tea.processCompleteMsg "" error /\
        error = Tui.executionError err output /\
        strings.Contains error output = true)
  /\ (forall fuel rt,
         reachable fuel rt ->
         Tui.m_state (current rt) = Tui.finished ->
         exclusiveOutcome (current rt))
  /\ (forall fuel rt m0 rest output err,
         reachable fuel rt ->
         pending rt = m0 :: rest ->
         Tui.findPythonScript <> "" ->
         exec.CombinedOutput python (Tui.scriptArgs m0 Tui.findPythonScript)
           = (output, Some err) ->
         exists rt',
           deliver fuel rt Completion = Some rt' /\
           Tui.m_state (current rt') = Tui.finished /\
           strings.Contains (Tui.error (current rt')) output = true /\
           Tui.result (current rt') = "").
Proof.
  assert (Fail : forall m output err,
             Tui.findPythonScript <> "" ->
             exec.CombinedOutput python (Tui.scriptArgs m Tui.findPythonScript)
               = (output, Some err) ->
             Tui.runPythonScript m =
             tea.processCompleteMsg "" (Tui.executionError err output)).
  { intros m output err F E. rewrite (runPythonScript_runs m F). now rewrite E. }
  split; [|split].
  - intros m output err F E. eexists. split; [exact (Fail m output err F E)|].
    split; [reflexivity | apply executionError_contains].
  - intros fuel rt R. apply (reachable_consistent fuel rt R).
  - intros fuel rt m0 rest output err R P F E.
    destruct (reachable_consistent fuel rt R) as (Pe & _ & Ne & _).
    assert (St : Tui.m_state (current rt) = Tui.processing)
      by (apply Pe; rewrite P; discriminate).
    destruct Ne as [_ Res]; [congruence|].
    destruct (Update_completion fuel (current rt) "" (Tui.executionError err output))
      as (m' & U & S' & E1 & _).
    destruct (E1 (executionError_nonempty err output)) as [Er Rr].
    eexists. unfold deliver. rewrite P, (Fail m0 output err F E), U. cbn [bind fst snd].
    split; [reflexivity|]. cbn [current].
    split; [exact S'|]. split; [|congruence].
    rewrite Er. apply executionError_contains.
Qed.

(** C8.  With the directory contents unchanged, [original] being the
    entry collection of the current directory: entering the filter sub-mode
    from the browsing step and typing any plain keys shows the part of
    [original] that matches the filter text, and clearing the filter with
    [esc] shows [original] again, in its order, cursor on the first item,
    the filter text empty; so the wizard shows what it showed before the
    filter when that was the whole collection.  Filtering with the empty
    text is the identity. *)
Theorem filter_then_clear_restores (fuel : nat) (m : Tui.model)
    (original : list Tui.directoryItem) (keys : list string) :
  Tui.m_state m = Tui.selectingDirectory ->
  Tui.filtering m = false ->
  Tui.getDirectoryItems fuel (Tui.currentPath m) = Some original ->
  forallb plainKey keys = true ->
  keys <> [] ->
  Tui.filterDirectories original "" = original /\
  exists filtered cleared,
    pressKeys fuel m ("i" :: keys) = Some filtered /\
    list.items (Tui.directoryList filtered) =
      Tui.filterDirectories original (textinput.Value (Tui.filterInput filtered)) /\
    Tui.Update fuel filtered (tea.KeyMsg "esc") = Some (cleared, tea.Nil) /\
    list.items (Tui.directoryList cleared) = original /\
    (list.items (Tui.directoryList m) = original ->
     list.items (Tui.directoryList cleared) = list.items (Tui.directoryList m)) /\
    list.index (Tui.directoryList cleared) = 0 /\
    textinput.Value (Tui.filterInput cleared) = "" /\
    Tui.filtering cleared = false.
Proof.
  intros S F G P N. split; [reflexivity|].
  destruct (enter_filter fuel m original S F G) as (m1 & U1 & S1 & F1 & C1 & A1 & _).
  destruct (type_keys_in_filter fuel keys m1 S1 F1 P)
    as (m2 & R2 & S2 & F2 & C2 & A2 & D2).
  destruct (D2 N) as [Shown _].
  assert (G2 : Tui.getDirectoryItems fuel (Tui.currentPath m2) = Some original)
    by (rewrite C2, C1; exact G).
  destruct (escape_filter fuel m2 original S2 F2 G2)
    as (m3 & U3 & _ & F3 & _ & V3 & I3 & X3 & _).
  exists m2, m3. cbn [pressKeys]. rewrite U1. cbn [bind fst].
  split; [exact R2|]. split; [now rewrite Shown, A1|].
  split; [exact U3|]. split; [exact I3|]. split; [congruence|]. auto.
Qed.

(** A key message neither text-entry step has a case for goes to the text
    input of the step as it is. *)
Lemma Update_entry_key (fuel : nat) (m : Tui.model) (key : string) :
  entryKey key = true ->
  (Tui.m_state m = Tui.selectingOutput ->
   Tui.Update fuel m (tea.KeyMsg key) =
   Some (Tui.set_outputInput (textinput.Update (Tui.outputInput m) (tea.KeyMsg key)) m,
         tea.Widget))
  /\ (Tui.m_state m = Tui.selectingLitigant ->
      Tui.Update fuel m (tea.KeyMsg key) =
      Some (Tui.set_litigantInput
              (textinput.Update (Tui.litigantInput m) (tea.KeyMsg key)) m,
            tea.Widget)).
Proof.
  unfold entryKey. cbn [existsb]. intros K. apply negb_true_iff in K.
  repeat (apply orb_false_iff in K; destruct K as [? K]).
  split; intros S; unfold Tui.Update, Tui.keyByState, Tui.keyOutput, Tui.keyLitigant,
    Tui.updateComponents; rewrite S;
  repeat match goal with H : String.eqb _ _ = false |- _ => rewrite H; clear H end;
  cbn; rewrite S; reflexivity.
Qed.


End Wizard.

(** ** Directories that cannot be read *)

Section ListingFailure.

Context {unicode : strings.Unicode} {paths : filepath.Lib} {sorting : sort.Lib}.
Context {host : os.Host} {runner : exec.Runner}.
Context {inputs : textinput.Lib} {lists : list.Lib}.

(** In the simple variant too, only the completion message records an
    error. *)
Lemma simple_Update_error (m : Simple.model) (msg : tea.Msg) :
  fromOutside msg = true ->
  pairSat (fun m' _ => Simple.error m' = Simple.error m \/ Simple.error m' = "")
    (Simple.Update m msg).
Proof.
  intros O. destruct msg as [key|w h|r e|tag]; [| | discriminate O |].
  all: unfold Simple.Update, Simple.keyByState, Simple.keyDirectory, Simple.keyOutput,
         Simple.keyConfiguring, Simple.keyProcessing, Simple.keyFinished,
         Simple.updateComponents.
  all: walk.
  all: unfold pairSat; cbn [fst snd]; inner_cases; cbn; auto.
Qed.

(** C6, as amended.  For a directory that cannot be read, both variants
    of the lister return, without an error and whatever the budget, no entry
    of the directory: the result is the parent entry alone when
    [filepath.Dir] of the path differs from the path, and the empty
    sequence otherwise.  No message other than the completion of the
    companion sets the error text of the wizard: such a step keeps the
    error text or clears it. *)
Theorem unreadable_directory_listing :
  (forall fuel dirPath,
      os.ReadDir dirPath = None ->
      Tui.getDirectoryItems fuel dirPath =
        Some (if String.eqb (filepath.Dir dirPath) dirPath then []
              else [ {| Tui.name := ".."; Tui.path := filepath.Dir dirPath;
                        Tui.isDir := true; Tui.modTime := time.zero |} ])
      /\ Simple.getDirectoryItems dirPath =
           (if String.eqb (filepath.Dir dirPath) dirPath then []
            else [ {| Simple.name := ".."; Simple.path := filepath.Dir dirPath;
                      Simple.isDir := true |} ]))
  /\ (forall fuel m msg m' c,
         fromOutside msg = true ->
         Tui.Update fuel m msg = Some (m', c) ->
         Tui.error m' = Tui.error m \/ Tui.error m' = "")
  /\ (forall m msg,
         fromOutside msg = true ->
         Simple.error (fst (Simple.Update m msg)) = Simple.error m \/
         Simple.error (fst (Simple.Update m msg)) = "").
Proof.
  split; [|split].
  - intros fuel dirPath R. split.
    + now rewrite (getDirectoryItems_unreadable fuel dirPath R).
    + unfold Simple.getDirectoryItems. now rewrite R.
  - intros fuel m msg m' c O U.
    pose proof (Update_outside_rules fuel m msg O) as Rules.
    apply (resultSat_elim _ _ m' c) in Rules; [|exact U].
    destruct Rules as [[(E & _)|(E & _)] _]; auto.
  - intros m msg O. exact (simple_Update_error m msg O).
Qed.

End ListingFailure.

(** ** Budgets that are enough, by computation *)

Section Budget.

Context {paths : filepath.Lib} {host : os.Host}.

Lemma shallowb_sound (n : nat) (dirPath : string) :
  shallowb n dirPath = true -> Shallow n dirPath.
Proof.
  revert dirPath. induction n as [|n IH]; intros dirPath; simpl; [discriminate|].
  destruct (os.ReadDir dirPath) as [entries|] eqn:R.
  - intros F. apply (Shallow_readable n dirPath entries R).
    intros entry I D. apply IH.
    rewrite forallb_forall in F. specialize (F entry I). now rewrite D in F.
  - intros _. now apply Shallow_unreadable.
Qed.

End Budget.

(** ** The filter engine, with the scenario of the specification *)

(** C4.  For every entry collection and every filter string,
    [filterDirectories] returns the entries whose lower-cased name contains
    the lower-cased filter, in their order ([List.filter]); with the empty
    filter it returns the collection.  With ASCII case folding,
    [Invoices, report.pdf, Reports] filtered by [rep] is
    [report.pdf, Reports]. *)
Theorem filter_engine :
  (forall (unicode : strings.Unicode) (dirs : list Tui.directoryItem) (filter : string),
      Tui.filterDirectories dirs filter = List.filter (matchesFilter filter) dirs /\
      Tui.filterDirectories dirs "" = dirs)
  /\ (let entry name :=
        {| Tui.name := name; Tui.path := "/tmp/docs/" ++ name;
           Tui.isDir := true; Tui.modTime := 0%Z |} in
      @Tui.filterDirectories Posix.unicode
        [entry "Invoices"; entry "report.pdf"; entry "Reports"] "rep"
      = [entry "report.pdf"; entry "Reports"]).
Proof.
  split.
  - intros unicode dirs filter. split.
    + apply filterDirectories_filter.
    + apply filterDirectories_empty.
  - reflexivity.
Qed.

(** * Further properties of the wizard and of its helpers *)

(** ** The runs of the rich variant *)

Ltac open_wizard :=
  unfold Tui.Update, Tui.keyByState, Tui.keyFiltering, Tui.keyNavigating,
    Tui.keyOutput, Tui.keyLitigant, Tui.keyConfiguring, Tui.keyProcessing,
    Tui.keyFinished, Tui.descend, Tui.relist, Tui.chooseDirectory, Tui.confirmOutput,
    Tui.updateComponents, bind.

Ltac split_tests :=
  repeat match goal with
  | H : andb _ _ = true |- _ => apply andb_true_iff in H as [? ?]
  | H : orb _ _ = false |- _ => apply orb_false_iff in H as [? ?]
  | H : negb _ = true |- _ => apply negb_true_iff in H
  | H : negb _ = false |- _ => apply negb_false_iff in H
  | H : Tui.state_eqb _ _ = false |- _ => apply state_eqb_false in H
  | H : Tui.state_eqb _ _ = true |- _ => apply state_eqb_true in H
  | H : _ /\ _ |- _ => destruct H
  | I : Tui.initialModel _ = Some _ |- _ => apply initialModel_fields in I
  end.

(** One goal per path through [Update], the property unfolded at each. *)
Ltac each_path :=
  open_wizard; walk; try exact I; unfold pairSat; cbn [fst snd]; split_tests.

Section Runs.

Context {unicode : strings.Unicode} {paths : filepath.Lib} {sorting : sort.Lib}.
Context {host : os.Host} {runner : exec.Runner}.
Context {inputs : textinput.Lib} {lists : list.Lib}.

Lemma run_app (fuel : nat) (rt : runtime) (first second : list Event) :
  run fuel rt (first ++ second) = (rt1 <- run fuel rt first ;; run fuel rt1 second).
Proof.
  revert rt. induction first as [|ev first IH]; intros rt; cbn; [reflexivity|].
  destruct (deliver fuel rt ev); cbn; auto.
Qed.

Lemma reachable_deliver (fuel : nat) (rt rt' : runtime) (ev : Event) :
  reachable fuel rt -> deliver fuel rt ev = Some rt' -> reachable fuel rt'.
Proof.
  intros (m0 & events & I & R) D. exists m0, (events ++ [ev])%list.
  split; [exact I|]. rewrite run_app, R. cbn. now rewrite D.
Qed.

(** Induction along the runs: the initial model, a message from outside,
    the completion of the companion in flight. *)
Lemma reachable_induction (fuel : nat) (P : runtime -> Prop) :
  (forall m0, Tui.initialModel fuel = Some m0 -> P {| current := m0; pending := [] |}) ->
  (forall rt msg m' c,
      reachable fuel rt -> P rt -> fromOutside msg = true ->
      Tui.Update fuel (current rt) msg = Some (m', c) ->
      P {| current := m'; pending := pending rt ++ launched c |}) ->
  (forall rt m0 result error m',
      reachable fuel rt -> P rt ->
      pending rt = [m0] -> Tui.m_state (current rt) = Tui.processing ->
      Tui.runPythonScript m0 = tea.processCompleteMsg result error ->
      Tui.Update fuel (current rt) (tea.processCompleteMsg result error)
        = Some (m', tea.Nil) ->
      P {| current := m'; pending := [] |}) ->
  forall rt, reachable fuel rt -> P rt.
Proof.
  intros Init Outside Done rt (m0 & events & I & R). revert rt R.
  induction events as [|ev events IH] using rev_ind; intros rt R.
  - cbn in R. injection R as <-. now apply Init.
  - rewrite run_app in R.
    destruct (run fuel {| current := m0; pending := [] |} events) as [rt1|] eqn:R1;
      [|discriminate].
    cbn [bind run] in R.
    destruct (deliver fuel rt1 ev) as [rt2|] eqn:D; [|discriminate].
    cbn in R. injection R as <-.
    assert (Re : reachable fuel rt1) by (exists m0, events; auto).
    specialize (IH rt1 eq_refl).
    destruct ev as [msg|]; cbn in D.
    + destruct (fromOutside msg) eqn:O; [|discriminate].
      destruct (Tui.Update fuel (current rt1) msg) as [[m' c]|] eqn:U; [|discriminate].
      cbn in D. injection D as <-. now apply (Outside rt1 msg).
    + destruct (pending rt1) as [|p rest] eqn:Pe; [discriminate|].
      destruct (reachable_consistent fuel rt1 Re) as (St & Len & _).
      assert (rest = []) as ->
        by (destruct rest; [reflexivity | rewrite Pe in Len; cbn in Len; lia]).
      destruct (runPythonScript_exclusive p) as (result & error & Msg & _).
      rewrite Msg in D.
      destruct (Update_completion fuel (current rt1) result error) as (m' & U & _).
      rewrite U in D. cbn in D. injection D as <-.
      apply (Done rt1 p result error m'); auto. apply St. rewrite Pe. discriminate.
Qed.

(** *** What a step does *)

(** [processing] is entered only by the command that starts the
    companion, which captures the model returned with it. *)
Lemma Update_launch (fuel : nat) (m : Tui.model) (msg : tea.Msg) :
  resultSat (fun m' c =>
               (forall m0, In m0 (launched c) -> m0 = m') /\
               (Tui.m_state m' = Tui.processing ->
                Tui.m_state m = Tui.processing \/ launched c <> []))
    (Tui.Update fuel m msg).
Proof.
  destruct msg as [key|w h|r e|tag].
  all: each_path.
  all: inner_cases; cbn.
  all: intuition (congruence || discriminate).
Qed.

(** While the companion runs, no message changes the settings it was
    started with. *)
Lemma Update_processing_configuration (fuel : nat) (m : Tui.model) (msg : tea.Msg) :
  Tui.m_state m = Tui.processing ->
  resultSat (fun m' _ => configuration m' = configuration m) (Tui.Update fuel m msg).
Proof.
  intros S. destruct msg as [key|w h|r e|tag].
  all: each_path.
  all: inner_cases; cbn; try reflexivity; try congruence.
Qed.

(** *** The companion in flight *)

Lemma reachable_in_flight (fuel : nat) (rt : runtime) :
  reachable fuel rt ->
  (Tui.m_state (current rt) = Tui.processing -> pending rt <> []) /\
  (forall m0, In m0 (pending rt) -> configuration m0 = configuration (current rt)).
Proof.
  apply (reachable_induction fuel
           (fun rt => (Tui.m_state (current rt) = Tui.processing -> pending rt <> []) /\
                      (forall m0, In m0 (pending rt) ->
                                  configuration m0 = configuration (current rt)))).
  - intros m0 I. apply initialModel_fields in I as (S & _). cbn. split; [congruence | tauto].
  - intros rt0 msg m' c Re [Fl Cf] O U. cbn [current pending].
    pose proof (resultSat_elim _ _ _ _ (Update_launch fuel (current rt0) msg) U) as [L1 L2].
    destruct (reachable_consistent fuel rt0 Re) as (St & _).
    split.
    + intros S' E. apply app_eq_nil in E as [E1 E2].
      destruct (L2 S') as [S|N]; [now apply Fl | contradiction].
    + intros m0 In0. apply in_app_or in In0 as [In0|In0].
      * assert (S : Tui.m_state (current rt0) = Tui.processing).
        { apply St. intros E. rewrite E in In0. destruct In0. }
        rewrite (Cf m0 In0). symmetry.
        exact (resultSat_elim _ _ _ _
                 (Update_processing_configuration fuel (current rt0) msg S) U).
      * now rewrite (L1 m0 In0).
  - intros rt0 m0 result error m' Re _ _ _ _ U. cbn [current pending].
    destruct (Update_completion fuel (current rt0) result error) as (m'' & U' & S' & _).
    rewrite U in U'. injection U' as <-. split; [congruence | intros ? []].
Qed.

(** X1.  Along the runs of the wizard from its initial model, the wizard is
    in [processing] exactly when a companion is in flight, there is never
    more than one, and the one in flight was started with the settings the
    wizard holds: directory, output name, litigant, format and debug flag. *)
Theorem companion_in_flight_exactly_while_processing (fuel : nat) (rt : runtime) :
  reachable fuel rt ->
  (Tui.m_state (current rt) = Tui.processing <-> pending rt <> []) /\
  List.length (pending rt) <= 1 /\
  (forall m0, In m0 (pending rt) -> configuration m0 = configuration (current rt)).
Proof.
  intros Re. destruct (reachable_in_flight fuel rt Re) as [Fl Cf].
  destruct (reachable_consistent fuel rt Re) as (St & Len & _).
  repeat split; auto.
Qed.

(** X2.  When the companion in flight completes, the wizard moves to
    [finished] holding the very settings that companion was started with,
    and nothing is left in flight: the outcome shown belongs to the
    directory and output name shown with it. *)
Theorem outcome_belongs_to_the_settings_shown (fuel : nat) (rt : runtime)
    (m0 : Tui.model) (rest : list Tui.model) :
  reachable fuel rt ->
  pending rt = m0 :: rest ->
  exists rt',
    deliver fuel rt Completion = Some rt' /\
    Tui.m_state (current rt') = Tui.finished /\
    configuration (current rt') = configuration m0 /\
    pending rt' = [].
Proof.
  intros Re Pe. destruct (reachable_in_flight fuel rt Re) as [_ Cf].
  destruct (reachable_consistent fuel rt Re) as (St & Len & _).
  assert (rest = []) as -> by (destruct rest; [reflexivity | rewrite Pe in Len; cbn in Len; lia]).
  assert (S : Tui.m_state (current rt) = Tui.processing) by (apply St; rewrite Pe; discriminate).
  destruct (runPythonScript_exclusive m0) as (result & error & Msg & _).
  destruct (Update_completion fuel (current rt) result error) as (m' & U & S' & _).
  pose proof (resultSat_elim _ _ _ _
                (Update_processing_configuration fuel (current rt)
                   (tea.processCompleteMsg result error) S) U) as Keep.
  eexists. unfold deliver. rewrite Pe, Msg, U. cbn [bind fst snd launched app].
  split; [reflexivity|]. cbn [current pending].
  split; [exact S'|]. split; [|reflexivity].
  rewrite Keep. symmetry. apply Cf. rewrite Pe. now left.
Qed.

(** *** The export format and the output name *)

Lemma Update_known_format (fuel : nat) (m : Tui.model) (msg : tea.Msg) :
  knownFormat (Tui.exportFormat m) ->
  resultSat (fun m' _ => knownFormat (Tui.exportFormat m')) (Tui.Update fuel m msg).
Proof.
  intros K. destruct msg as [key|w h|r e|tag].
  all: each_path.
  all: inner_cases; cbn; unfold knownFormat; auto.
Qed.

Lemma Update_named (fuel : nat) (m : Tui.model) (msg : tea.Msg) :
  strings.TrimSpace "" = "" ->
  namedOutput m ->
  fromOutside msg = true \/ Tui.m_state m = Tui.processing ->
  resultSat (fun m' _ => namedOutput m') (Tui.Update fuel m msg).
Proof.
  intros T N O. destruct msg as [key|w h|r e|tag].
  all: each_path.
  all: inner_cases; unfold namedOutput in *; cbn in *.
  all: repeat match goal with H : Tui.m_state _ = _ |- _ => rewrite H in * end.
  all: try exact I; try assumption.
  all: try (destruct O as [O|O]; [discriminate | rewrite O in N; exact N]).
  all: intros E; rewrite E in *; try rewrite T in *; discriminate.
Qed.

(** X3.  Along the runs of the wizard the export format is always one of
    [excel], [csv] and [both], in the model and in the settings of the
    companion in flight. *)
Theorem export_format_stays_known (fuel : nat) (rt : runtime) :
  reachable fuel rt ->
  knownFormat (Tui.exportFormat (current rt)) /\
  (forall m0, In m0 (pending rt) -> knownFormat (Tui.exportFormat m0)).
Proof.
  intros Re.
  assert (K : knownFormat (Tui.exportFormat (current rt))).
  { revert rt Re. apply reachable_induction.
    - intros m0 I. apply initialModel_fields in I. unfold knownFormat. cbn. tauto.
    - intros rt msg m' c _ K _ U.
      exact (resultSat_elim _ _ _ _ (Update_known_format fuel (current rt) msg K) U).
    - intros rt m0 result error m' _ K _ _ _ U.
      exact (resultSat_elim _ _ _ _ (Update_known_format fuel (current rt) _ K) U). }
  split; [exact K|]. intros m0 In0.
  destruct (reachable_in_flight fuel rt Re) as [_ Cf].
  specialize (Cf m0 In0). unfold configuration in Cf. injection Cf as _ _ _ F _.
  now rewrite F.
Qed.

(** X4.  Whenever trimming the empty string gives the empty string (as Go's
    [strings.TrimSpace] does): past step 2 the output name of the wizard is
    never empty, so no companion is ever started with an empty output
    name. *)
Theorem companion_started_with_an_output_name (fuel : nat) (rt : runtime) :
  strings.TrimSpace "" = "" ->
  reachable fuel rt ->
  namedOutput (current rt) /\
  (forall m0, In m0 (pending rt) -> Tui.outputPath m0 <> "").
Proof.
  intros T Re.
  assert (N : namedOutput (current rt)).
  { revert rt Re. apply reachable_induction.
    - intros m0 I. apply initialModel_fields in I as (S & _).
      unfold namedOutput. cbn. now rewrite S.
    - intros rt msg m' c _ N O U.
      exact (resultSat_elim _ _ _ _
               (Update_named fuel (current rt) msg T N (or_introl O)) U).
    - intros rt m0 result error m' _ N _ S _ U.
      exact (resultSat_elim _ _ _ _
               (Update_named fuel (current rt) _ T N (or_intror S)) U). }
  split; [exact N|]. intros m0 In0.
  destruct (reachable_in_flight fuel rt Re) as [_ Cf].
  destruct (reachable_consistent fuel rt Re) as (St & _).
  assert (S : Tui.m_state (current rt) = Tui.processing).
  { apply St. intros E. rewrite E in In0. destruct In0. }
  specialize (Cf m0 In0). unfold configuration in Cf. injection Cf as _ O _ _ _.
  unfold namedOutput in N. rewrite S in N. now rewrite O.
Qed.

(** *** The advanced mode *)

Lemma Update_plain_options (fuel : nat) (m : Tui.model) (msg : tea.Msg) :
  plainOptions m ->
  advancedKey (Incoming msg) = false ->
  resultSat (fun m' _ => plainOptions m') (Tui.Update fuel m msg).
Proof.
  intros (A & F & D) K. destruct msg as [key|w h|r e|tag].
  1: { cbn in K. pose proof K as K'. apply orb_false_iff in K' as [K1 _].
       open_wizard. rewrite A. walk.
       all: try exact I; unfold pairSat; cbn [fst snd]; split_tests.
       all: try match goal with
                | H : (String.eqb _ "ctrl+d" || _) = true |- _ =>
                    cbn in H, K; rewrite K in H; discriminate H
                end.
       all: inner_cases; unfold plainOptions; cbn; auto. }
  all: each_path.
  all: inner_cases; unfold plainOptions; cbn; auto.
Qed.

(** X5.  As long as the key of the advanced mode is never pressed, the
    wizard stays in simple mode with the format [excel] and debugging off,
    whatever else happens; so every companion it starts is given the
    script, the directory and the output path, then the litigant when one
    was entered, and no format or debug flag. *)
Theorem simple_mode_runs_excel_without_debug (fuel : nat) (m0 : Tui.model)
    (events : list Event) (rt : runtime) :
  Tui.initialModel fuel = Some m0 ->
  existsb advancedKey events = false ->
  run fuel {| current := m0; pending := [] |} events = Some rt ->
  plainOptions (current rt) /\
  (forall m script, In m (pending rt) ->
     Tui.scriptArgs m script =
     ([script; "--directory"; Tui.selectedDir m; "--output"; Tui.fullOutputPath m]
      ++ (if String.eqb (Tui.litigantName m) "" then []
          else ["--litigant"; Tui.litigantName m]))%list).
Proof.
  intros I K R.
  assert (P : plainOptions (current rt) /\ forall m, In m (pending rt) -> plainOptions m).
  { assert (P0 : plainOptions m0)
      by (apply initialModel_fields in I; unfold plainOptions; tauto).
    clear I.
    assert (Q : plainOptions (current {| current := m0; pending := [] |}) /\
                forall m, In m (pending {| current := m0; pending := [] |}) -> plainOptions m)
      by (split; [exact P0 | intros ? []]).
    clear P0. revert Q R K. generalize {| current := m0; pending := [] |}.
    induction events as [|ev events IH]; intros rt0 Q R K; cbn in R.
    - now injection R as <-.
    - cbn [existsb] in K. apply orb_false_iff in K as [Kev K].
      destruct (deliver fuel rt0 ev) as [rt1|] eqn:D; [|discriminate].
      cbn in R. apply (IH rt1); auto. clear IH R.
      destruct Q as [Pc Pp]. destruct ev as [msg|]; cbn in D.
      + destruct (fromOutside msg); [|discriminate].
        pose proof (Update_plain_options fuel (current rt0) msg Pc Kev) as U.
        pose proof (Update_launch fuel (current rt0) msg) as L.
        destruct (Tui.Update fuel (current rt0) msg) as [[m' c]|]; [|discriminate].
        cbn in D. injection D as <-. cbn in U, L. unfold pairSat in U, L. cbn in U, L.
        cbn [current pending]. split; [exact U|].
        intros m In0. apply in_app_or in In0 as [In0|In0]; [now apply Pp|].
        destruct L as [L _]. now rewrite (L m In0).
      + destruct (pending rt0) as [|p rest] eqn:Pe; [discriminate|].
        destruct (runPythonScript_exclusive p) as (result & error & Msg & _).
        rewrite Msg in D.
        pose proof (Update_plain_options fuel (current rt0)
                      (tea.processCompleteMsg result error) Pc eq_refl) as U.
        pose proof (Update_launch fuel (current rt0) (tea.processCompleteMsg result error)) as L.
        destruct (Tui.Update fuel (current rt0) _) as [[m' c]|]; [|discriminate].
        cbn in D. injection D as <-. cbn in U, L. unfold pairSat in U, L. cbn in U, L.
        cbn [current pending]. split; [exact U|].
        intros m In0. apply in_app_or in In0 as [In0|In0]; [apply Pp; now right|].
        destruct L as [L _]. now rewrite (L m In0). }
  destruct P as [Pc Pp]. split; [exact Pc|].
  intros m script In0. destruct (Pp m In0) as (_ & F & D).
  unfold Tui.scriptArgs. rewrite F, D. cbn [String.eqb Ascii.eqb Bool.eqb andb].
  destruct (String.eqb (Tui.litigantName m) ""); reflexivity.
Qed.

End Runs.

(** ** Single keys *)

(** Follow the code of two calls of [Update] side by side. *)
Ltac walk_both :=
  cbv beta iota zeta;
  lazymatch goal with
  | |- sameResultButLanguage (match ?x with _ => _ end) _ => split_on x; walk_both
  | |- sameResultButLanguage _ (match ?x with _ => _ end) => split_on x; walk_both
  | |- _ => idtac
  end.

Section Keys.

Context {unicode : strings.Unicode} {paths : filepath.Lib} {sorting : sort.Lib}.
Context {sortingLaws : sort.Laws sorting}.
Context {host : os.Host} {runner : exec.Runner}.
Context {inputs : textinput.Lib} {lists : list.Lib}.

(** X6.  The display language never affects the wizard: on every message,
    [Update] applied to a model and to the same model in the other language
    returns the same command and the same model, but for the language; and
    the companion is run in the same way. *)
Theorem language_never_affects_the_wizard (fuel : nat) (m : Tui.model) (language : bool)
    (msg : tea.Msg) :
  sameResultButLanguage
    (Tui.Update fuel (Tui.set_isSpanish language m) msg)
    (Tui.Update fuel m msg)
  /\ Tui.runPythonScript (Tui.set_isSpanish language m) = Tui.runPythonScript m.
Proof.
  split; [|reflexivity].
  destruct msg as [key|w h|r e|tag].
  all: open_wizard; walk_both.
  all: unfold sameResultButLanguage; cbn [fst snd]; try exact I.
  all: cbn; inner_cases; unfold sameButLanguage, sameCmdButLanguage; cbn.
  all: split; reflexivity.
Qed.

(** X7.  While the companion runs the keyboard is ignored: every key but
    the language toggle returns the model untouched, with the quit command
    for [ctrl+c] and [q] and with no command for any other key. *)
Theorem processing_ignores_the_keyboard (fuel : nat) (m : Tui.model) (key : string) :
  Tui.m_state m = Tui.processing ->
  key <> "ctrl+e" ->
  Tui.Update fuel m (tea.KeyMsg key) =
  Some (m, if String.eqb key "ctrl+c" || String.eqb key "q" then tea.Quit else tea.Nil).
Proof.
  intros S N. apply String.eqb_neq in N.
  unfold Tui.Update, Tui.keyByState, Tui.keyProcessing. rewrite N, S.
  cbn [Tui.state_eqb negb]. rewrite andb_false_r. cbn [bind].
  destruct (String.eqb key "ctrl+c" || String.eqb key "q"); [reflexivity|].
  unfold Tui.updateComponents. now rewrite S.
Qed.

(** X8.  In the review step with the advanced mode on, the key [4] changes
    the export format and nothing else, in the cycle [excel], [csv],
    [both]: three presses give the model back. *)
Theorem format_key_cycles_the_three_formats (fuel : nat) (m : Tui.model) :
  Tui.m_state m = Tui.configuring ->
  Tui.advancedMode m = true ->
  knownFormat (Tui.exportFormat m) ->
  exists m1 m2,
    pressKeys fuel m ["4"] = Some m1 /\
    pressKeys fuel m ["4"; "4"] = Some m2 /\
    pressKeys fuel m ["4"; "4"; "4"] = Some m /\
    m1 = Tui.set_exportFormat (Tui.exportFormat m1) m /\
    m2 = Tui.set_exportFormat (Tui.exportFormat m2) m /\
    (Tui.exportFormat m = "excel" ->
     Tui.exportFormat m1 = "csv" /\ Tui.exportFormat m2 = "both") /\
    (Tui.exportFormat m = "csv" ->
     Tui.exportFormat m1 = "both" /\ Tui.exportFormat m2 = "excel") /\
    (Tui.exportFormat m = "both" ->
     Tui.exportFormat m1 = "excel" /\ Tui.exportFormat m2 = "csv").
Proof.
  intros S A K.
  assert (Step : forall x, Tui.m_state x = Tui.configuring -> Tui.advancedMode x = true ->
            Tui.Update fuel x (tea.KeyMsg "4") =
            Some (Tui.set_exportFormat
                    (if String.eqb (Tui.exportFormat x) "excel" then "csv"
                     else if String.eqb (Tui.exportFormat x) "csv" then "both"
                     else "excel") x, tea.Nil)).
  { intros x Sx Ax. unfold Tui.Update, Tui.keyByState, Tui.keyConfiguring.
    rewrite Sx, Ax. cbn [String.eqb Ascii.eqb Bool.eqb andb orb negb bind Tui.ctrl_d_byte].
    destruct (String.eqb (Tui.exportFormat x) "excel");
      [|destruct (String.eqb (Tui.exportFormat x) "csv")];
      unfold Tui.updateComponents; cbn; now rewrite Sx. }
  cbn [pressKeys]. rewrite (Step m S A). cbn [bind fst].
  rewrite Step by (cbn; assumption). cbn [bind fst].
  rewrite Step by (cbn; assumption). cbn [bind fst].
  eexists. eexists. split; [reflexivity|]. split; [reflexivity|].
  destruct m. cbn in *. subst.
  destruct K as [ -> | [ -> | -> ] ]; cbn; repeat split; intros; try discriminate; reflexivity.
Qed.

(** *** The order of the steps *)

Lemma Update_steps (fuel : nat) (m : Tui.model) (msg : tea.Msg) :
  fromOutside msg = true ->
  resultSat (fun m' _ =>
               Tui.m_state m' = Tui.m_state m \/
               follows (Tui.m_state m) (Tui.m_state m') = true \/
               (Tui.m_state m <> Tui.processing /\ msg = tea.KeyMsg "r" /\
                Tui.initialModel fuel = Some m'))
    (Tui.Update fuel m msg).
Proof.
  intros O. destruct msg as [key|w h|r e|tag]; [| | discriminate O |].
  all: open_wizard; walk; try exact I; unfold pairSat; cbn [fst snd].
  all: repeat match goal with
       | H : andb _ _ = true |- _ => apply andb_true_iff in H as [? ?]
       | H : orb _ _ = false |- _ => apply orb_false_iff in H as [? ?]
       | H : negb _ = true |- _ => apply negb_true_iff in H
       | H : Tui.state_eqb _ _ = false |- _ => apply state_eqb_false in H
       | H : String.eqb _ "r" = true |- _ => apply String.eqb_eq in H; subst
       end.
  all: inner_cases; cbn.
  all: repeat match goal with H : Tui.m_state _ = _ |- _ => rewrite H in * end.
  all: cbn; auto.
  right; right. repeat split; congruence.
Qed.

(** X9.  A message from the terminal or from a widget keeps the wizard in
    its step, or moves it along one of the arrows of [follows], or is the
    reset key outside [processing], which gives a fresh initial model.  So
    [processing] is entered from the review step only and left by no key,
    and [finished] is entered by no key. *)
Theorem wizard_steps_in_order (fuel : nat) (m m' : Tui.model) (c : Tui.Cmd) (msg : tea.Msg) :
  fromOutside msg = true ->
  Tui.Update fuel m msg = Some (m', c) ->
  Tui.m_state m' = Tui.m_state m \/
  follows (Tui.m_state m) (Tui.m_state m') = true \/
  (Tui.m_state m <> Tui.processing /\ msg = tea.KeyMsg "r" /\ Tui.initialModel fuel = Some m').
Proof.
  intros O U. exact (resultSat_elim _ _ _ _ (Update_steps fuel m msg O) U).
Qed.

(** *** Moving through the directories *)

Lemma relist_shown (fuel : nat) (m : Tui.model) (dirPath : string) :
  Shallow (S fuel) dirPath ->
  exists m',
    Tui.relist fuel (Tui.set_currentPath dirPath m) = Some m' /\
    Tui.m_state m' = Tui.m_state m /\
    Tui.filtering m' = Tui.filtering m /\
    Tui.selectedDir m' = Tui.selectedDir m /\
    Tui.currentPath m' = dirPath /\
    Tui.getDirectoryItems fuel dirPath = Some (list.items (Tui.directoryList m')) /\
    list.index (Tui.directoryList m') = 0 /\
    Tui.allDirectories m' = list.items (Tui.directoryList m').
Proof.
  intros Sh. destruct (getDirectoryItems_returns fuel dirPath Sh) as [items G].
  unfold Tui.relist. cbn [Tui.currentPath Tui.set_currentPath]. rewrite G. cbn [bind].
  eexists. split; [reflexivity|]. cbn. auto 10.
Qed.

(** X10.  In the browsing step, outside the filter: at a root (a path that
    is its own [filepath.Dir]) the key [left] changes nothing; and with the
    parent entry of the current listing under the cursor, [left] and [enter]
    do the same thing, which is to move to the parent directory and show
    its listing with the cursor on the first row, the selection untouched. *)
Theorem two_ways_up_agree (fuel : nat) (m : Tui.model) :
  Tui.m_state m = Tui.selectingDirectory ->
  Tui.filtering m = false ->
  (filepath.Dir (Tui.currentPath m) = Tui.currentPath m ->
   Tui.Update fuel m (tea.KeyMsg "left") = Some (m, tea.Nil))
  /\ (forall item,
        list.SelectedItem (Tui.directoryList m) = Some item ->
        In item (Tui.parentItems (Tui.currentPath m)) ->
        Shallow (S fuel) (filepath.Dir (Tui.currentPath m)) ->
        exists m',
          Tui.Update fuel m (tea.KeyMsg "left") = Some (m', tea.Nil) /\
          Tui.Update fuel m (tea.KeyMsg "enter") = Some (m', tea.Nil) /\
          Tui.m_state m' = Tui.selectingDirectory /\
          Tui.selectedDir m' = Tui.selectedDir m /\
          Tui.currentPath m' = filepath.Dir (Tui.currentPath m) /\
          Tui.getDirectoryItems fuel (filepath.Dir (Tui.currentPath m))
            = Some (list.items (Tui.directoryList m')) /\
          list.index (Tui.directoryList m') = 0).
Proof.
  intros S F. split.
  - intros Root. unfold Tui.Update, Tui.keyByState, Tui.keyNavigating, Tui.updateComponents.
    rewrite S, F, Root, (String.eqb_refl (Tui.currentPath m)). cbn. now rewrite S.
  - intros item Sel In0 Sh. unfold Tui.parentItems in In0.
    destruct (String.eqb (filepath.Dir (Tui.currentPath m)) (Tui.currentPath m)) eqn:Root;
      [destruct In0|].
    destruct In0 as [<-|[]].
    destruct (relist_shown fuel m _ Sh) as (m' & R & S' & _ & D' & C' & G' & I' & _).
    exists m'. unfold Tui.Update, Tui.keyByState, Tui.keyNavigating.
    rewrite S, F, Sel, Root.
    cbn [String.eqb Ascii.eqb Bool.eqb andb orb negb Tui.state_eqb Tui.name Tui.path].
    rewrite R. cbn [bind]. repeat split; congruence.
Qed.

(** X11.  In the browsing step, outside the filter, with a row of the
    listing of the current directory under the cursor that is not the parent
    entry: the row stands for a subdirectory of the current directory that
    holds a file, and the keys [right] and [n] both move into it and show
    its listing with the cursor on the first row, the selection untouched. *)
Theorem descending_enters_the_highlighted_directory (fuel : nat) (m : Tui.model)
    (entries : list os.DirEntry) (listing : list Tui.directoryItem)
    (item : Tui.directoryItem) :
  Tui.m_state m = Tui.selectingDirectory ->
  Tui.filtering m = false ->
  os.ReadDir (Tui.currentPath m) = Some entries ->
  Shallow (S fuel) (Tui.currentPath m) ->
  Tui.getDirectoryItems fuel (Tui.currentPath m) = Some listing ->
  In item listing ->
  list.SelectedItem (Tui.directoryList m) = Some item ->
  Tui.name item <> ".." ->
  Shallow (S fuel) (Tui.path item) ->
  exists entry m',
    In entry entries /\ os.IsDir entry = true /\
    Tui.name item = os.Name entry /\
    Tui.path item = filepath.Join (Tui.currentPath m) (os.Name entry) /\
    HasFile (Tui.path item) /\
    Tui.Update fuel m (tea.KeyMsg "right") = Some (m', tea.Nil) /\
    Tui.Update fuel m (tea.KeyMsg "n") = Some (m', tea.Nil) /\
    Tui.m_state m' = Tui.selectingDirectory /\
    Tui.selectedDir m' = Tui.selectedDir m /\
    Tui.currentPath m' = Tui.path item /\
    Tui.getDirectoryItems fuel (Tui.path item) = Some (list.items (Tui.directoryList m')) /\
    list.index (Tui.directoryList m') = 0.
Proof.
  intros S F R Sh G In0 Sel Nn Sh'.
  rewrite (getDirectoryItems_readable fuel _ entries R Sh) in G. injection G as <-.
  apply in_app_or in In0 as [In0|In0].
  { unfold Tui.parentItems in In0. destruct (String.eqb _ _); [destruct In0|].
    destruct In0 as [<-|[]]. now elim Nn. }
  apply listed_items in In0 as (entry & Ie & L & ->).
  assert (Sub : Shallow fuel (filepath.Join (Tui.currentPath m) (os.Name entry))).
  { unfold listed in L. apply andb_true_iff in L as [L _]. apply andb_true_iff in L as [D _].
    inversion Sh as [? ? R' | ? ? es R' Sub]; subst; rewrite R in R'; [discriminate|].
    injection R' as <-. now apply Sub. }
  apply listed_spec in L; [|intros _; exact Sub]. destruct L as (D & _ & Hf).
  destruct (relist_shown fuel m _ Sh') as (m' & Re & S' & _ & D' & C' & G' & I' & _).
  exists entry, m'. do 5 (split; [assumption || reflexivity|]).
  apply String.eqb_neq in Nn.
  unfold Tui.Update, Tui.keyByState, Tui.keyNavigating, Tui.descend.
  rewrite S, F, Sel. cbn [Tui.isDir Tui.itemOf] in *.
  cbn [String.eqb Ascii.eqb Bool.eqb andb orb negb Tui.state_eqb].
  change (Tui.name (Tui.itemOf (Tui.currentPath m) entry)) with (os.Name entry).
  cbn [Tui.name Tui.itemOf] in Nn. rewrite Nn. cbn [negb andb].
  rewrite Re. cbn [bind]. repeat split; congruence.
Qed.

(** X12.  From the browsing step, entering the filter, typing plain keys
    and pressing [enter] leaves the filter with the matching rows still
    shown; when the first of them is not the parent entry, a second [enter]
    selects it: the wizard moves to step 2 with that directory selected and
    the output name [index]. *)
Theorem filter_then_enter_selects_the_first_match (fuel : nat) (m : Tui.model)
    (original : list Tui.directoryItem) (keys : list string) :
  Tui.m_state m = Tui.selectingDirectory ->
  Tui.filtering m = false ->
  Tui.getDirectoryItems fuel (Tui.currentPath m) = Some original ->
  forallb plainKey keys = true ->
  keys <> [] ->
  exists filtered applied,
    pressKeys fuel m ("i" :: keys) = Some filtered /\
    Tui.Update fuel filtered (tea.KeyMsg "enter") = Some (applied, tea.Nil) /\
    Tui.m_state applied = Tui.selectingDirectory /\
    Tui.filtering applied = false /\
    list.items (Tui.directoryList applied) =
      Tui.filterDirectories original (textinput.Value (Tui.filterInput filtered)) /\
    forall first rest,
      Tui.filterDirectories original (textinput.Value (Tui.filterInput filtered))
        = first :: rest ->
      Tui.name first <> ".." ->
      exists chosen,
        Tui.Update fuel applied (tea.KeyMsg "enter") = Some (chosen, tea.Nil) /\
        Tui.m_state chosen = Tui.selectingOutput /\
        Tui.selectedDir chosen = Tui.path first /\
        textinput.Value (Tui.outputInput chosen) = "index".
Proof.
  intros S F G P N.
  destruct (enter_filter fuel m original S F G) as (m1 & U1 & S1 & F1 & C1 & A1 & _).
  destruct (type_keys_in_filter fuel keys m1 S1 F1 P)
    as (m2 & R2 & S2 & F2 & C2 & A2 & D2).
  destruct (D2 N) as [Shown Index]. rewrite A1 in Shown.
  exists m2. eexists. cbn [pressKeys]. rewrite U1. cbn [bind fst].
  split; [exact R2|].
  unfold Tui.Update at 1, Tui.keyByState, Tui.keyFiltering. rewrite S2, F2.
  cbn [String.eqb Ascii.eqb Bool.eqb andb orb negb bind Tui.state_eqb].
  split; [reflexivity|].
  cbn [Tui.m_state Tui.filtering Tui.directoryList Tui.set_filtering Tui.set_filterInput].
  split; [exact S2|]. split; [reflexivity|]. split; [exact Shown|].
  intros first rest E Nn. rewrite E in Shown.
  unfold Tui.Update, Tui.keyByState, Tui.keyNavigating, list.SelectedItem.
  cbn [Tui.m_state Tui.filtering Tui.directoryList Tui.set_filtering Tui.set_filterInput].
  rewrite S2, Shown, Index. apply String.eqb_neq in Nn.
  cbn [String.eqb Ascii.eqb Bool.eqb andb orb negb bind Tui.state_eqb nth_error].
  rewrite Nn. eexists. split; [reflexivity|]. cbn. auto.
Qed.

(** *** Whole runs *)

Lemma space_selects (fuel : nat) (m : Tui.model) :
  Tui.m_state m = Tui.selectingDirectory ->
  Tui.filtering m = false ->
  Tui.Update fuel m (tea.KeyMsg " ") = Some (Tui.chooseDirectory (Tui.currentPath m) m, tea.Nil).
Proof.
  intros S F. unfold Tui.Update, Tui.keyByState, Tui.keyNavigating. now rewrite S, F.
Qed.

Lemma enter_confirms_name (fuel : nat) (m : Tui.model) :
  Tui.m_state m = Tui.selectingOutput ->
  textinput.Value (Tui.outputInput m) <> "" ->
  Tui.Update fuel m (tea.KeyMsg "enter") = Some (Tui.confirmOutput m, tea.Nil).
Proof.
  intros S N. apply String.eqb_neq in N.
  unfold Tui.Update, Tui.keyByState, Tui.keyOutput. now rewrite S, N.
Qed.

Lemma enter_confirms_litigant (fuel : nat) (m : Tui.model) :
  Tui.m_state m = Tui.selectingLitigant ->
  Tui.Update fuel m (tea.KeyMsg "enter") =
  Some (Tui.set_state Tui.configuring
          (Tui.set_litigantName (textinput.Value (Tui.litigantInput m)) m), tea.Nil).
Proof.
  intros S. unfold Tui.Update, Tui.keyByState, Tui.keyLitigant. now rewrite S.
Qed.

Lemma enter_starts (fuel : nat) (m : Tui.model) :
  Tui.m_state m = Tui.configuring ->
  Tui.Update fuel m (tea.KeyMsg "enter") =
  Some (Tui.set_state Tui.processing m, tea.Script (Tui.set_state Tui.processing m)).
Proof.
  intros S. unfold Tui.Update, Tui.keyByState, Tui.keyConfiguring. now rewrite S.
Qed.

(** X13.  From the initial model, the space key and three times [enter]
    (the current directory, the proposed name, no litigant, start) put the
    wizard in [processing] with one companion started, whose arguments are
    the script, the start directory, and [index.xlsx] inside the start
    directory as the output, with no other flag. *)
Theorem accepting_the_defaults_indexes_the_start_directory (fuel : nat) (m0 : Tui.model) :
  Tui.initialModel fuel = Some m0 ->
  exists rt m,
    run fuel {| current := m0; pending := [] |}
      (map (fun key => Incoming (tea.KeyMsg key)) [" "; "enter"; "enter"; "enter"]) = Some rt /\
    Tui.m_state (current rt) = Tui.processing /\
    pending rt = [m] /\
    forall script,
      Tui.scriptArgs m script =
      [script; "--directory"; Tui.getDownloadsDirectory;
       "--output"; filepath.Join Tui.getDownloadsDirectory "index.xlsx"].
Proof.
  intros I.
  assert (Start : Tui.currentPath m0 = Tui.getDownloadsDirectory /\
                  textinput.Value (Tui.litigantInput m0) = "").
  { unfold Tui.initialModel in I.
    destruct (Tui.getDirectoryItems fuel Tui.getDownloadsDirectory); [|discriminate].
    cbn [bind] in I. injection I as <-. split; reflexivity. }
  destruct Start as [Cp Li].
  apply initialModel_fields in I as (S & _ & _ & F & _ & _ & _ & _ & _ & Fo & De & _).
  set (m1 := Tui.chooseDirectory (Tui.currentPath m0) m0).
  set (m2 := Tui.confirmOutput m1).
  set (m3 := Tui.set_state Tui.configuring
               (Tui.set_litigantName (textinput.Value (Tui.litigantInput m2)) m2)).
  set (m4 := Tui.set_state Tui.processing m3).
  exists {| current := m4; pending := [m4] |}, m4.
  split; [|split; [reflexivity|split; [reflexivity|]]].
  - cbn [map run deliver fromOutside current pending].
    rewrite (space_selects fuel m0 S F). cbn [bind fst snd launched current pending app].
    fold m1. rewrite (enter_confirms_name fuel m1) by (try reflexivity; discriminate).
    cbn [bind fst snd launched current pending app]. fold m2.
    rewrite (enter_confirms_litigant fuel m2 eq_refl).
    cbn [bind fst snd launched current pending app]. fold m3.
    rewrite (enter_starts fuel m3 eq_refl). reflexivity.
  - intros script. unfold Tui.scriptArgs, Tui.fullOutputPath, Tui.outputFilename.
    change (Tui.selectedDir m4) with (Tui.currentPath m0).
    change (Tui.outputPath m4) with "index".
    change (Tui.exportFormat m4) with (Tui.exportFormat m0).
    change (Tui.debugMode m4) with (Tui.debugMode m0).
    change (Tui.litigantName m4) with (textinput.Value (Tui.litigantInput m0)).
    rewrite Cp, Li, Fo, De. reflexivity.
Qed.

(** X14.  From the result screen, [b] goes back to the review step with
    the outcome cleared, and [enter] then starts the companion again with
    the settings of the run that ended: the same invocation. *)
Theorem retry_reruns_with_the_same_settings (fuel : nat) (m : Tui.model) :
  Tui.m_state m = Tui.finished ->
  exists m1 m2,
    Tui.Update fuel m (tea.KeyMsg "b") = Some (m1, tea.Nil) /\
    Tui.m_state m1 = Tui.configuring /\
    Tui.error m1 = "" /\ Tui.result m1 = "" /\
    Tui.Update fuel m1 (tea.KeyMsg "enter") = Some (m2, tea.Script m2) /\
    Tui.m_state m2 = Tui.processing /\
    configuration m2 = configuration m /\
    Tui.runPythonScript m2 = Tui.runPythonScript m.
Proof.
  intros S. eexists. eexists.
  unfold Tui.Update, Tui.keyByState, Tui.keyFinished. rewrite S.
  cbn [String.eqb Ascii.eqb Bool.eqb andb orb negb bind Tui.state_eqb].
  split; [reflexivity|]. cbn [Tui.m_state Tui.set_state Tui.set_error Tui.set_result
                              Tui.error Tui.result].
  do 3 (split; [reflexivity|]).
  unfold Tui.keyConfiguring.
  cbn [String.eqb Ascii.eqb Bool.eqb andb orb negb bind Tui.state_eqb Tui.ctrl_d_byte].
  split; [reflexivity|]. split; [reflexivity|]. split; reflexivity.
Qed.

End Keys.

(** ** The host: start directory and companion script *)

Section Host.

Context {unicode : strings.Unicode} {paths : filepath.Lib} {sorting : sort.Lib}.
Context {host : os.Host} {runner : exec.Runner}.
Context {inputs : textinput.Lib} {lists : list.Lib}.

(** X15.  The companion script [findPythonScript] returns, when it returns
    one, exists on the host; without the path of the executable nothing is
    searched and none is returned; the script beside the executable wins
    over the other two places; and when it is in none of the three places
    none is returned.  Both variants search in the same way. *)
Theorem companion_script_is_a_file_that_exists :
  (Tui.findPythonScript <> "" -> os.Stat Tui.findPythonScript <> None)
  /\ (os.Executable = None -> Tui.findPythonScript = "")
  /\ (forall execPath,
        os.Executable = Some execPath ->
        os.Stat (filepath.Join (filepath.Dir execPath) "file_metadata_extractor.py") <> None ->
        Tui.findPythonScript =
        filepath.Join (filepath.Dir execPath) "file_metadata_extractor.py")
  /\ (forall execPath,
        os.Executable = Some execPath ->
        os.Stat (filepath.Join (filepath.Dir execPath) "file_metadata_extractor.py") = None ->
        os.Stat "file_metadata_extractor.py" = None ->
        os.Stat (filepath.Join ".." "file_metadata_extractor.py") = None ->
        Tui.findPythonScript = "")
  /\ Simple.findPythonScript = Tui.findPythonScript.
Proof.
  unfold Tui.findPythonScript. split; [|split; [|split; [|split]]].
  - destruct os.Executable as [execPath|]; [|congruence].
    destruct (find _ _) as [path|] eqn:F; [|congruence].
    intros _. apply find_some in F as [_ F]. destruct (os.Stat path); congruence.
  - now intros ->.
  - intros execPath -> St. cbn [find].
    destruct (os.Stat (filepath.Join (filepath.Dir execPath) _)); [reflexivity | congruence].
  - intros execPath -> S1 S2 S3. cbn [find]. now rewrite S1, S2, S3.
  - reflexivity.
Qed.

(** X16.  When the companion script is not found, running the companion
    gives the fixed not-found message whatever the interpreter would have
    done and whatever the settings; and along the runs, the completion then
    puts the wizard in [finished] with that message as its error and no
    result. *)
Theorem missing_companion_is_reported (fuel : nat) (rt : runtime) (m0 : Tui.model)
    (rest : list Tui.model) :
  Tui.findPythonScript = "" ->
  reachable fuel rt ->
  pending rt = m0 :: rest ->
  (forall (other : exec.Runner) (m : Tui.model),
      Tui.runPythonScript (runner := other) m
      = tea.processCompleteMsg "" Tui.companionNotFound)
  /\ exists rt',
       deliver fuel rt Completion = Some rt' /\
       Tui.m_state (current rt') = Tui.finished /\
       Tui.error (current rt') = Tui.companionNotFound /\
       Tui.result (current rt') = "".
Proof.
  intros Missing Re Pe.
  assert (Msg : forall (other : exec.Runner) (m : Tui.model),
             Tui.runPythonScript (runner := other) m
             = tea.processCompleteMsg "" Tui.companionNotFound).
  { intros other m. unfold Tui.runPythonScript. now rewrite Missing. }
  split; [exact Msg|].
  destruct (reachable_consistent fuel rt Re) as (St & _ & Ne & _).
  assert (S : Tui.m_state (current rt) = Tui.processing) by (apply St; rewrite Pe; discriminate).
  destruct Ne as [_ Res]; [congruence|].
  eexists. unfold deliver. rewrite Pe, Msg. cbn. split; [reflexivity|]. cbn. auto.
Qed.

(** X17.  The start directory is [.] or a path of the host that exists and
    is a directory; it is [.] when the home directory is not known, and the
    [Downloads] directory of the home when that is a directory.  Both
    variants choose it in the same way. *)
Theorem start_directory_is_a_directory :
  (Tui.getDownloadsDirectory = "." \/
   exists info, os.Stat Tui.getDownloadsDirectory = Some info /\ os.Mode_IsDir info = true)
  /\ (os.UserHomeDir = None -> Tui.getDownloadsDirectory = ".")
  /\ (forall userDir info,
        os.UserHomeDir = Some userDir ->
        os.Stat (filepath.Join userDir "Downloads") = Some info ->
        os.Mode_IsDir info = true ->
        Tui.getDownloadsDirectory = filepath.Join userDir "Downloads")
  /\ Simple.getDownloadsDirectory = Tui.getDownloadsDirectory.
Proof.
  unfold Tui.getDownloadsDirectory. split; [|split; [|split]].
  - destruct os.UserHomeDir as [userDir|]; [|now left].
    destruct (find _ _) as [dir|] eqn:F; [|now left].
    right. apply find_some in F as [_ F].
    destruct (os.Stat dir) as [info|]; [eauto | discriminate].
  - now intros ->.
  - intros userDir info -> St D. cbn [find]. now rewrite St, D.
  - reflexivity.
Qed.

End Host.

(** ** The listing of the rich variant *)

Section Listing.

Context {unicode : strings.Unicode} {paths : filepath.Lib}.
Context {sorting : sort.Lib} {sortingLaws : sort.Laws sorting}.
Context {host : os.Host}.

Lemma NoDup_map_filter (A B : Type) (f : A -> B) (keep : A -> bool) (l : list A) :
  NoDup (map f l) -> NoDup (map f (filter keep l)).
Proof.
  induction l as [|a l IH]; cbn; [auto|]. intros N. inversion N as [|? ? Na Nl]; subst.
  destruct (keep a); cbn; [|auto]. constructor; [|auto].
  intros I. apply Na. apply in_map_iff in I as (x & E & Ix). apply filter_In in Ix as [Ix _].
  rewrite <- E. now apply in_map.
Qed.

(** X18.  When the names of the entries of a readable directory are
    distinct, so are the names of the rows of its listing, the parent entry
    included: a row is known by its name.  Every row is a directory. *)
Theorem listed_names_are_distinct (fuel : nat) (dirPath : string)
    (entries : list os.DirEntry) :
  os.ReadDir dirPath = Some entries ->
  Shallow (S fuel) dirPath ->
  NoDup (map os.Name entries) ->
  exists items,
    Tui.getDirectoryItems fuel dirPath = Some items /\
    NoDup (map Tui.name items) /\
    (forall item, In item items -> Tui.isDir item = true) /\
    (forall a b, In a items -> In b items -> Tui.name a = Tui.name b -> a = b).
Proof.
  intros R Sh N.
  eexists. split; [exact (getDirectoryItems_readable fuel dirPath entries R Sh)|].
  set (kept := filter (listed fuel dirPath) entries).
  assert (Names : NoDup (map Tui.name (sort.Slice Tui.moreRecent (map (Tui.itemOf dirPath) kept)))).
  { eapply Permutation_NoDup.
    - apply Permutation_map. apply sort.Slice_perm.
    - rewrite map_map. cbn. now apply NoDup_map_filter. }
  assert (NotParent : forall item,
             In item (sort.Slice Tui.moreRecent (map (Tui.itemOf dirPath) kept)) ->
             Tui.name item <> "..").
  { intros item I E. apply listed_items in I as (entry & _ & L & ->). cbn in E.
    unfold listed in L. rewrite E in L. cbn in L.
    now rewrite andb_false_r in L. }
  assert (ND : NoDup (map Tui.name
                        (Tui.parentItems dirPath ++
                         sort.Slice Tui.moreRecent (map (Tui.itemOf dirPath) kept)))).
  { unfold Tui.parentItems. destruct (String.eqb _ dirPath); cbn; [exact Names|].
    constructor; [|exact Names]. intros I. apply in_map_iff in I as (item & E & I).
    now apply (NotParent item). }
  split; [exact ND|]. split.
  - intros item I. apply in_app_or in I as [I|I].
    + unfold Tui.parentItems in I. destruct (String.eqb _ dirPath); [destruct I|].
      destruct I as [<-|[]]. reflexivity.
    + apply listed_items in I as (entry & _ & _ & ->). reflexivity.
  - intros a b Ia Ib E. revert ND Ia Ib E.
    generalize (Tui.parentItems dirPath ++
                sort.Slice Tui.moreRecent (map (Tui.itemOf dirPath) kept))%list.
    intros l. induction l as [|x l IH]; cbn; [tauto|].
    intros ND [->|Ia] [->|Ib] E; inversion ND as [|? ? Nx Nl]; subst; auto.
    + elim Nx. rewrite E. now apply in_map.
    + elim Nx. rewrite <- E. now apply in_map.
Qed.

End Listing.

(** ** The simple variant *)

Section SimpleVariant.

Context {paths : filepath.Lib} {host : os.Host} {runner : exec.Runner}.
Context {inputs : textinput.Lib} {lists : list.Lib}.

(** X19.  The listing of a readable directory in the simple variant is the
    parent entry when there is one, then one row for every subdirectory,
    hidden or empty ones included, in the order of the host, then the first
    twenty of the other entries and no more; each row has the path of its
    entry inside the directory. *)
Theorem simple_listing_directories_then_twenty_files (dirPath : string)
    (entries : list os.DirEntry) :
  os.ReadDir dirPath = Some entries ->
  exists dirs files,
    Simple.getDirectoryItems dirPath = (Simple.parentItems dirPath ++ dirs ++ files)%list /\
    map Simple.name dirs = map os.Name (filter os.IsDir entries) /\
    map Simple.name files =
      firstn 20 (map os.Name (filter (fun entry => negb (os.IsDir entry)) entries)) /\
    Forall (fun item => Simple.isDir item = true) dirs /\
    Forall (fun item => Simple.isDir item = false) files /\
    List.length files <= 20 /\
    (forall entry, In entry entries -> os.IsDir entry = true ->
       In (Simple.itemOf dirPath true entry) (Simple.getDirectoryItems dirPath)) /\
    (forall item, In item (dirs ++ files) ->
       Simple.path item = filepath.Join dirPath (Simple.name item)).
Proof.
  intros R. unfold Simple.getDirectoryItems. rewrite R. cbv zeta.
  exists (map (Simple.itemOf dirPath true) (filter os.IsDir entries)),
         (map (Simple.itemOf dirPath false)
            (firstn 20 (filter (fun entry => negb (os.IsDir entry)) entries))).
  split; [now rewrite app_assoc|].
  split; [now rewrite map_map|].
  split; [now rewrite map_map, firstn_map|].
  split; [apply Forall_forall; intros item I; apply in_map_iff in I as (e & <- & _); reflexivity|].
  split; [apply Forall_forall; intros item I; apply in_map_iff in I as (e & <- & _); reflexivity|].
  split; [rewrite length_map; apply firstn_le_length|].
  split.
  - intros entry I D. apply in_or_app. left. apply in_or_app. right.
    apply in_map. apply filter_In. auto.
  - intros item I. apply in_app_or in I as [I|I]; apply in_map_iff in I as (e & <- & _);
      reflexivity.
Qed.

(** X20.  In the browsing step of the simple variant the Tab key stays in
    the step and keeps the selection; either the current path is unchanged,
    or it becomes a different, non-empty path that exists and is a
    directory, and the listing of that directory is shown. *)
Theorem simple_tab_jumps_to_a_directory (m : Simple.model) :
  Simple.m_state m = Simple.selectingDirectory ->
  exists m' c,
    Simple.Update m (tea.KeyMsg "tab") = (m', c) /\
    Simple.m_state m' = Simple.selectingDirectory /\
    Simple.selectedDir m' = Simple.selectedDir m /\
    (Simple.currentPath m' = Simple.currentPath m \/
     (c = tea.Nil /\
      Simple.currentPath m' <> "" /\
      Simple.currentPath m' <> Simple.currentPath m /\
      (exists info, os.Stat (Simple.currentPath m') = Some info /\ os.Mode_IsDir info = true) /\
      list.items (Simple.directoryList m') = Simple.getDirectoryItems (Simple.currentPath m'))).
Proof.
  intros S. unfold Simple.Update, Simple.keyByState, Simple.keyDirectory. rewrite S.
  cbn [String.eqb Ascii.eqb Bool.eqb andb orb negb].
  destruct (find _ _) as [dir|] eqn:F.
  - apply find_some in F as [_ F].
    apply andb_true_iff in F as [F St]. apply andb_true_iff in F as [Ne Nc].
    apply negb_true_iff in Ne, Nc. apply String.eqb_neq in Ne, Nc.
    eexists. eexists. split; [reflexivity|]. cbn.
    split; [exact S|]. split; [reflexivity|]. right.
    repeat split; auto.
    destruct (os.Stat dir) as [info|]; [eauto | discriminate].
  - unfold Simple.updateComponents. rewrite S. eexists. eexists. split; [reflexivity|].
    cbn. auto.
Qed.

(** X21.  In the review step of the simple variant, the keys [1], [2] and
    [3] choose the format and [enter] then starts the companion with the
    script, the selected directory, the output name as typed, the flag of
    that format (none, [--csv-only], [--csv]) and [--debug] when debugging
    is on. *)
Theorem simple_format_keys_choose_the_flag (m : Simple.model) (script key : string)
    (flag : list string) :
  Simple.m_state m = Simple.configuring ->
  In (key, flag) [("1", []); ("2", ["--csv-only"]); ("3", ["--csv"])] ->
  exists chosen started,
    Simple.Update m (tea.KeyMsg key) = (chosen, tea.Nil) /\
    Simple.m_state chosen = Simple.configuring /\
    Simple.Update chosen (tea.KeyMsg "enter") = (started, tea.Script started) /\
    Simple.m_state started = Simple.processing /\
    Simple.scriptArgs started script =
    ([script; "--directory"; Simple.selectedDir m; "--output"; Simple.outputPath m]
     ++ flag ++ (if Simple.debugMode m then ["--debug"] else []))%list.
Proof.
  intros S I.
  assert (Step : forall format,
             Simple.m_state (Simple.set_exportFormat format m) = Simple.configuring)
    by (intros format; exact S).
  destruct I as [E|[E|[E|[]]]]; injection E as <- <-.
  1: exists (Simple.set_exportFormat "excel" m).
  2: exists (Simple.set_exportFormat "csv" m).
  3: exists (Simple.set_exportFormat "both" m).
  all: eexists.
  all: unfold Simple.Update, Simple.keyByState, Simple.updateComponents, Simple.keyConfiguring.
  all: rewrite S, Step; cbn; rewrite S.
  all: split; [reflexivity|]; split; [reflexivity|]; split; [reflexivity|].
  all: split; [reflexivity|].
  all: unfold Simple.scriptArgs; cbn; destruct (Simple.debugMode m); reflexivity.
Qed.

(** X22.  In the simple variant, from the initial model, the space key
    proposes the name of the start directory followed by [_index.xlsx], and
    twice [enter] starts the companion with the script, the start
    directory, that name as the output, and [--csv], the initial format
    being [both]. *)
Theorem simple_accepting_the_defaults (script : string) :
  exists named started,
    Simple.Update Simple.initialModel (tea.KeyMsg " ") = (named, tea.Nil) /\
    textinput.Value (Simple.outputInput named) =
      filepath.Base Simple.getDownloadsDirectory ++ "_index.xlsx" /\
    Simple.Update (fst (Simple.Update named (tea.KeyMsg "enter"))) (tea.KeyMsg "enter")
      = (started, tea.Script started) /\
    Simple.m_state started = Simple.processing /\
    Simple.scriptArgs started script =
    [script; "--directory"; Simple.getDownloadsDirectory;
     "--output"; filepath.Base Simple.getDownloadsDirectory ++ "_index.xlsx"; "--csv"].
Proof.
  eexists. eexists. split; [reflexivity|]. split; [reflexivity|].
  assert (N : String.eqb (filepath.Base Simple.getDownloadsDirectory ++ "_index.xlsx") "" = false)
    by (destruct (filepath.Base Simple.getDownloadsDirectory); reflexivity).
  unfold Simple.Update at 2, Simple.keyByState, Simple.keyOutput.
  cbn [String.eqb Ascii.eqb Bool.eqb andb orb negb fst snd
       Simple.m_state Simple.set_state Simple.set_outputInput Simple.set_selectedDir
       Simple.outputInput textinput.Value textinput.SetValue textinput.value
       Simple.selectedDir Simple.currentPath Simple.initialModel].
  rewrite N. cbn [negb fst].
  split; [reflexivity|]. split; [reflexivity|]. reflexivity.
Qed.

End SimpleVariant.

(** ** The screen of the rich variant *)

Section ScreenFacts.

Context {unicode : strings.Unicode} {paths : filepath.Lib} {sorting : sort.Lib}.
Context {host : os.Host} {runner : exec.Runner}.
Context {inputs : textinput.Lib} {lists : list.Lib}.
Context {styles : lipgloss.Lib} {views : bubbles.Views}.

(** X23.  In step 2 with a name typed, the screen announces in its active
    box the path the index will be saved as, and [enter] confirms the name.
    When the format is not [csv], or the name holds a dot, the announced
    path is the very path the companion is then given as its output.  When
    the format is [csv] and the name holds no dot, the two differ: the
    screen announces the name with [.xlsx], the companion is given the name
    with [.csv]. *)
Theorem announced_path_is_the_output_path (fuel : nat) (m : Tui.model) :
  Tui.m_state m = Tui.selectingOutput ->
  textinput.Value (Tui.outputInput m) <> "" ->
  exists confirmed announced,
    Tui.Update fuel m (tea.KeyMsg "enter") = Some (confirmed, tea.Nil) /\
    Tui.m_state confirmed = Tui.selectingLitigant /\
    (exists before after boxTail,
        Screen.View m =
        before ++
        lipgloss.Render Screen.activeBoxStyle
          ("Step 2: Output File Name" ++ nl ++ nl ++
           bubbles.inputView (Tui.outputInput m) ++ nl ++ nl ++
           "💾 Will save as: " ++ announced ++ nl ++ nl ++ "💡 Simple Mode:" ++ boxTail)
        ++ after) /\
    (Tui.exportFormat m <> "csv" \/
     strings.Contains (textinput.Value (Tui.outputInput m)) "." = true ->
     announced = Tui.fullOutputPath confirmed) /\
    (Tui.exportFormat m = "csv" ->
     strings.Contains (textinput.Value (Tui.outputInput m)) "." = false ->
     announced =
       filepath.Join (Tui.selectedDir m) (textinput.Value (Tui.outputInput m) ++ ".xlsx") /\
     Tui.fullOutputPath confirmed =
       filepath.Join (Tui.selectedDir m) (textinput.Value (Tui.outputInput m) ++ ".csv")).
Proof.
  intros S N. exists (Tui.confirmOutput m).
  exists (filepath.Join (Tui.selectedDir m)
            (if negb (strings.Contains (textinput.Value (Tui.outputInput m)) ".")
             then textinput.Value (Tui.outputInput m) ++ ".xlsx"
             else textinput.Value (Tui.outputInput m))).
  split; [now apply enter_confirms_name|]. split; [reflexivity|]. split; [|split].
  - unfold Screen.View. rewrite S. cbv zeta.
    unfold Screen.getActiveBoxStyle, Screen.getBoxStyle.
    exists (lipgloss.Render Screen.titleStyle
              (Screen.appTitle (Screen.getStrings (Tui.isSpanish m))) ++ nl ++ nl ++
            lipgloss.Render Screen.boxStyle ("Selected: " ++ Tui.selectedDir m) ++ nl ++ nl).
    exists (nl ++ nl ++
            lipgloss.Render Screen.helpStyle
              (if negb (Tui.advancedMode m)
               then Screen.quitAnytime (Screen.getStrings (Tui.isSpanish m)) ++ "  •  " ++
                    Screen.advancedMode (Screen.getStrings (Tui.isSpanish m)) ++ "  •  " ++
                    Screen.changeLanguage (Screen.getStrings (Tui.isSpanish m)) ++ "  •  " ++
                    Screen.reset (Screen.getStrings (Tui.isSpanish m))
               else Screen.quitAnytime (Screen.getStrings (Tui.isSpanish m)) ++ "  •  " ++
                    Screen.changeLanguage (Screen.getStrings (Tui.isSpanish m)) ++ "  •  " ++
                    Screen.reset (Screen.getStrings (Tui.isSpanish m)))).
    exists (nl ++ "  • Excel (.xlsx) format" ++ nl ++
            "  • File saved in selected directory" ++ nl ++
            "  • Enter to continue, B/Esc to go back" ++ nl ++
            "  • Ctrl+D = Advanced options (CSV, debug)").
    repeat rewrite append_assoc. reflexivity.
  - unfold Tui.fullOutputPath, Tui.outputFilename.
    cbn [Tui.confirmOutput Tui.selectedDir Tui.outputPath Tui.exportFormat
         Tui.set_outputPath Tui.set_state Tui.set_litigantInput].
    destruct (strings.Contains (textinput.Value (Tui.outputInput m)) "."); cbn [negb].
    + reflexivity.
    + intros [F|F]; [|discriminate]. apply String.eqb_neq in F. now rewrite F.
  - intros F C. unfold Tui.fullOutputPath, Tui.outputFilename.
    cbn [Tui.confirmOutput Tui.selectedDir Tui.outputPath Tui.exportFormat
         Tui.set_outputPath Tui.set_state Tui.set_litigantInput].
    rewrite C, F. split; reflexivity.
Qed.

(** X24.  Along the runs of the wizard, the result screen shows, under the
    directory and the output name, exactly one of two things: the failure
    banner with the error text, which is then not empty, and the hint to
    try again; or the success banner with the result text, which is then
    not empty, and the hint to process another directory. *)
Theorem result_screen_shows_the_outcome (fuel : nat) (rt : runtime) :
  reachable fuel rt ->
  Tui.m_state (current rt) = Tui.finished ->
  let m := current rt in
  let str := Screen.getStrings (Tui.isSpanish m) in
  let before :=
    lipgloss.Render Screen.titleStyle (Screen.appTitle str) ++ nl ++ nl ++
    lipgloss.Render Screen.boxStyle ("📁 Directory: " ++ Tui.selectedDir m) ++ nl ++
    lipgloss.Render Screen.boxStyle ("📄 Output: " ++ Tui.outputPath m) ++ nl ++ nl in
  exists statusBar,
    (Tui.error m <> "" /\ Tui.result m = "" /\
     Screen.View m =
     before ++
     lipgloss.Render Screen.errorStyle (Screen.processingFailed str) ++ nl ++
     lipgloss.Render Screen.boxStyle (Tui.error m) ++ nl ++
     lipgloss.Render Screen.helpStyle
       (Screen.tryAgain str ++ "  •  Enter/Esc " ++ Screen.toQuit str) ++ nl ++ nl ++
     lipgloss.Render Screen.helpStyle statusBar)
    \/
    (Tui.error m = "" /\ Tui.result m <> "" /\
     Screen.View m =
     before ++
     lipgloss.Render Screen.successStyle (Screen.processingSuccess str) ++ nl ++
     lipgloss.Render Screen.boxStyle (Tui.result m) ++ nl ++
     lipgloss.Render Screen.helpStyle
       (Screen.processAnother str ++ "  •  Enter/Esc " ++ Screen.toQuit str) ++ nl ++ nl ++
     lipgloss.Render Screen.helpStyle statusBar).
Proof.
  intros Re S m str before.
  destruct (reachable_consistent fuel rt Re) as (_ & _ & _ & Ex).
  specialize (Ex S). fold m in Ex, S.
  exists (if negb (Tui.advancedMode m)
          then Screen.quitAnytime str ++ "  •  " ++ Screen.advancedMode str ++ "  •  " ++
               Screen.changeLanguage str ++ "  •  " ++ Screen.reset str
          else Screen.quitAnytime str ++ "  •  " ++ Screen.changeLanguage str ++ "  •  " ++
               Screen.reset str).
  unfold Screen.View. rewrite S. cbv zeta.
  unfold Screen.getActiveBoxStyle, Screen.getBoxStyle.
  destruct Ex as [[E R]|[E R]].
  - left. split; [exact E|]. split; [exact R|].
    apply String.eqb_neq in E. rewrite E. cbn [negb].
    unfold before, str. repeat rewrite append_assoc. reflexivity.
  - right. split; [exact E|]. split; [exact R|].
    rewrite E. cbn [negb String.eqb].
    unfold before, str. repeat rewrite append_assoc. reflexivity.
Qed.

End ScreenFacts.

(** ** The message of a successful run

    [strings.Split] and [strings.Contains] on the output of the companion. *)

Section Lines.

Lemma prefix_empty (s : string) : String.prefix "" s = true.
Proof. now destruct s. Qed.

Lemma prefix_extend (m a b : string) :
  String.prefix m a = true -> String.prefix m (a ++ b) = true.
Proof.
  revert a. induction m as [|c m IH]; intros a; [intros _; apply prefix_empty|].
  destruct a as [|d a]; simpl; [discriminate|].
  destruct (ascii_dec c d); [apply IH | discriminate].
Qed.

(** Whether [s] starts [a ++ b] is decided inside [a] when [a] is long
    enough. *)
Lemma prefix_within (s a b : string) :
  String.length s <= String.length a ->
  String.prefix s (a ++ b) = String.prefix s a.
Proof.
  revert a. induction s as [|c s IH]; intros a L; [now rewrite !prefix_empty|].
  destruct a as [|d a]; simpl in *; [lia|].
  destruct (ascii_dec c d); [apply IH; lia | reflexivity].
Qed.

Lemma Contains_extend (a b sub : string) :
  strings.Contains a sub = true -> strings.Contains (a ++ b) sub = true.
Proof.
  induction a as [|c a IH]; intros C.
  - destruct sub; [apply Contains_empty | discriminate C].
  - change (String c a ++ b) with (String c (a ++ b)).
    cbn [strings.Contains] in C.
    destruct (String.prefix sub (String c a)) eqn:P.
    + apply Contains_here. exact (prefix_extend sub (String c a) b P).
    + apply Contains_later. now apply IH.
Qed.

Lemma Contains_after (a b sub : string) :
  strings.Contains b sub = true -> strings.Contains (a ++ b) sub = true.
Proof.
  intros C. induction a as [|c a IH]; cbn [append]; [exact C|].
  now apply Contains_later.
Qed.

Lemma Contains_parts (a b sub : string) :
  strings.Contains (a ++ b) sub = false ->
  strings.Contains a sub = false /\ strings.Contains b sub = false.
Proof.
  intros N. split.
  - destruct (strings.Contains a sub) eqn:C; [|reflexivity].
    now rewrite (Contains_extend a b sub C) in N.
  - destruct (strings.Contains b sub) eqn:C; [|reflexivity].
    now rewrite (Contains_after a b sub C) in N.
Qed.

Lemma append_empty (s : string) : s ++ "" = s.
Proof. induction s; simpl; congruence. Qed.

Lemma append_byte (cur : string) (c : ascii) (s : string) :
  (cur ++ String c "") ++ s = cur ++ String c s.
Proof. now rewrite append_assoc. Qed.

(** [strings.Split] on a string without the separator. *)
Lemma splitFrom_none (sep cur s : string) :
  strings.Contains s sep = false ->
  strings.splitFrom sep 0 cur s = [cur ++ s].
Proof.
  revert cur. induction s as [|c s IH]; intros cur N; cbn [strings.splitFrom].
  - now rewrite append_empty.
  - cbn [strings.Contains] in N.
    destruct (String.prefix sep (String c s)); [discriminate|].
    rewrite (IH _ N). now rewrite append_byte.
Qed.

Lemma splitFrom_skip (sep cur x rest : string) :
  strings.splitFrom sep (String.length x) cur (x ++ rest) = strings.splitFrom sep 0 cur rest.
Proof.
  induction x as [|c x IH]; cbn [String.length append strings.splitFrom].
  - reflexivity.
  - exact IH.
Qed.

(** [strings.Split] up to the first occurrence of the separator: [early]
    is the separator without its last byte, so the hypothesis says that the
    separator does not occur before the end of [pre]. *)
Lemma splitFrom_first (c : ascii) (early cur pre post : string) :
  strings.Contains (pre ++ early) (early ++ String c "") = false ->
  strings.splitFrom (early ++ String c "") 0 cur (pre ++ (early ++ String c "") ++ post) =
  (cur ++ pre) :: strings.splitFrom (early ++ String c "") 0 "" post.
Proof.
  set (sep := early ++ String c "").
  assert (Len : String.length sep = S (String.length early))
    by (unfold sep; rewrite string_length_app; simpl; lia).
  revert cur. induction pre as [|d pre IH]; intros cur N.
  - cbn [append]. rewrite append_empty.
    destruct sep as [|s0 sep'] eqn:E; [discriminate Len|].
    cbn [append strings.splitFrom].
    assert (P : String.prefix (String s0 sep') (String s0 (sep' ++ post)) = true)
      by (exact (prefix_app (String s0 sep') post)).
    rewrite P. f_equal.
    replace (String.length (String s0 sep') - 1) with (String.length sep')
      by (simpl; lia).
    apply splitFrom_skip.
  - cbn [append strings.Contains] in N |- *.
    destruct (String.prefix sep (String d (pre ++ early))) eqn:P; [discriminate|].
    cbn [strings.splitFrom].
    assert (Q : String.prefix sep (String d (pre ++ sep ++ post)) = false).
    { unfold sep at 2. rewrite append_assoc.
      change (String d (pre ++ early ++ String c "" ++ post))
        with (String d pre ++ early ++ String c "" ++ post).
      rewrite <- (append_assoc (String d pre)), <- P.
      change (String d (pre ++ early)) with (String d pre ++ early).
      apply prefix_within. rewrite Len, string_length_app. simpl. lia. }
    rewrite Q, (IH _ N). now rewrite append_byte.
Qed.

Lemma occurs_concat (c : ascii) (s t : string) :
  occurs c (s ++ t) = occurs c s || occurs c t.
Proof. induction s as [|d s IH]; simpl; [reflexivity|]. now rewrite IH, orb_assoc. Qed.

Lemma splitFrom_line (cur line rest : string) :
  occurs newline line = false ->
  strings.splitFrom nl 0 cur (line ++ rest) = strings.splitFrom nl 0 (cur ++ line) rest.
Proof.
  revert cur. induction line as [|d line IH]; intros cur N; cbn [append].
  - now rewrite append_empty.
  - cbn [occurs] in N. apply orb_false_iff in N as [Nd N].
    cbn [strings.splitFrom]. unfold nl at 1. cbn [String.prefix].
    destruct (ascii_dec (ascii_of_nat 10) d) as [E|_].
    + subst d. unfold newline in Nd. now rewrite Ascii.eqb_refl in Nd.
    + rewrite (IH _ N). now rewrite append_byte.
Qed.

Lemma splitFrom_newline (cur rest : string) :
  strings.splitFrom nl 0 cur (nl ++ rest) = cur :: strings.splitFrom nl 0 "" rest.
Proof.
  unfold nl at 2. cbn [append strings.splitFrom]. unfold nl at 1. cbn [String.prefix].
  destruct (ascii_dec (ascii_of_nat 10) (ascii_of_nat 10)) as [_|N]; [|now elim N].
  now rewrite prefix_empty.
Qed.

(** The lines of [b ++ nl] that fail a test are passed over. *)
Lemma find_after_lines (P : string -> bool) (rest b cur : string) :
  (forall x y z, cur ++ b ++ nl = x ++ y ++ z -> P y = false) ->
  find P (strings.splitFrom nl 0 cur (b ++ nl ++ rest)) =
  find P (strings.splitFrom nl 0 "" rest).
Proof.
  revert cur. induction b as [|d b IH]; intros cur H.
  - cbn [append]. rewrite splitFrom_newline. cbn [find].
    now rewrite (H "" cur nl eq_refl).
  - cbn [append strings.splitFrom]. unfold nl at 1. cbn [String.prefix].
    destruct (ascii_dec (ascii_of_nat 10) d) as [E|_].
    + rewrite prefix_empty. cbn [String.length Nat.sub find].
      rewrite (H "" cur (String d b ++ nl) eq_refl).
      apply IH. intros x y z E'. apply (H (cur ++ String d "" ++ x) y z).
      cbn [append] in E' |- *. rewrite append_assoc. cbn [append]. now rewrite E'.
    + apply IH. intros x y z E'. apply (H x y z). rewrite <- E'.
      now rewrite append_byte.
Qed.

(** The first line that passes a test, in an output whose earlier lines
    all fail it. *)
Lemma find_first_line (P : string -> bool) (before line after : string) :
  before = "" \/ (exists b, before = b ++ nl) ->
  after = "" \/ (exists a, after = nl ++ a) ->
  occurs newline line = false ->
  (forall x y z, before = x ++ y ++ z -> P y = false) ->
  P line = true ->
  find P (strings.Split (before ++ line ++ after) nl) = Some line.
Proof.
  intros B A N H T. unfold strings.Split.
  assert (L : find P (strings.splitFrom nl 0 "" (line ++ after)) = Some line).
  { rewrite (splitFrom_line "" line after N). cbn [append].
    destruct A as [->|[a ->]].
    - cbn [strings.splitFrom find]. now rewrite T.
    - rewrite splitFrom_newline. cbn [find]. now rewrite T. }
  destruct B as [->|[b ->]]; [exact L|].
  rewrite append_assoc, find_after_lines; [exact L|].
  intros x y z E. apply (H x y z). exact E.
Qed.

End Lines.

Section SuccessMessage.

Context {unicode : strings.Unicode} {paths : filepath.Lib}.
Context {host : os.Host} {runner : exec.Runner}.

Lemma savedPathOf_line (before pre post after fallback : string) :
  before = "" \/ (exists b, before = b ++ nl) ->
  after = "" \/ (exists a, after = nl ++ a) ->
  occurs newline pre = false ->
  occurs newline post = false ->
  strings.Contains before "saved to:" = false ->
  strings.Contains (pre ++ "saved to") "saved to:" = false ->
  strings.Contains post "saved to:" = false ->
  Tui.savedPathOf (before ++ (pre ++ "saved to:" ++ post) ++ after) fallback =
  strings.TrimSpace post.
Proof.
  intros B A Npre Npost Cb Cpre Cpost. unfold Tui.savedPathOf.
  assert (Here : strings.Contains (pre ++ "saved to:" ++ post) "saved to:" = true)
    by apply Contains_infix.
  rewrite (Contains_after before _ _ (Contains_extend _ after _ Here)).
  rewrite (find_first_line (fun line => strings.Contains line "saved to:")
             before (pre ++ "saved to:" ++ post) after B A).
  - unfold strings.Split.
    change (strings.splitFrom "saved to:" 0 "" (pre ++ "saved to:" ++ post))
      with (strings.splitFrom ("saved to" ++ ":") 0 ""
              (pre ++ ("saved to" ++ ":") ++ post)).
    rewrite (splitFrom_first ":" "saved to" "" pre post Cpre).
    rewrite (splitFrom_none ("saved to" ++ ":") "" post Cpost). reflexivity.
  - rewrite !occurs_concat, Npre, Npost. reflexivity.
  - intros x y z E. rewrite E in Cb.
    apply Contains_parts in Cb as [_ Cb]. now apply Contains_parts in Cb as [Cb _].
  - exact Here.
Qed.

Lemma wordBeforeFile_found (prev : string) (ws : list string) (count word : string)
    (rest : list string) :
  (forall w, In w (ws ++ [count]) -> strings.Contains w "file" = false) ->
  strings.Contains word "file" = true ->
  Tui.wordBeforeFile (Some prev) (ws ++ count :: word :: rest) = Some count.
Proof.
  revert prev. induction ws as [|w ws IH]; intros prev N F; cbn [app Tui.wordBeforeFile].
  - rewrite (N count) by (now left). now rewrite F.
  - rewrite (N w) by (now left). apply IH; [|exact F].
    intros w' I. apply N. now right.
Qed.

Lemma fileCountOf_line (before line after count word : string) (ws rest : list string) :
  before = "" \/ (exists b, before = b ++ nl) ->
  after = "" \/ (exists a, after = nl ++ a) ->
  occurs newline line = false ->
  strings.Contains before "processed" = false ->
  strings.Contains line "processed" = true ->
  strings.Contains line "file" = true ->
  strings.Fields line = (ws ++ count :: word :: rest)%list ->
  (forall w, In w (tl (ws ++ [count])) -> strings.Contains w "file" = false) ->
  strings.Contains word "file" = true ->
  Tui.fileCountOf (before ++ line ++ after) = count.
Proof.
  intros B A N Cb Cp Cf Fi Nw Fw. unfold Tui.fileCountOf.
  rewrite (Contains_after before _ _ (Contains_extend _ after _ Cp)).
  rewrite (find_first_line
             (fun line => strings.Contains line "processed" && strings.Contains line "file")
             before line after B A N).
  - rewrite Fi. destruct ws as [|first ws]; cbn [app Tui.wordBeforeFile].
    + now rewrite Fw.
    + cbn [app tl] in Nw. now rewrite (wordBeforeFile_found first ws count word rest Nw Fw).
  - intros x y z E. rewrite E in Cb.
    apply Contains_parts in Cb as [_ Cb]. apply Contains_parts in Cb as [Cb _].
    now rewrite Cb.
  - now rewrite Cp, Cf.
Qed.

(** X25.  When the companion is found and succeeds, the message has no
    error and its result names a file count and a saved path.  The path is
    the output path given to the companion when the output nowhere says
    [saved to:]; and when the first line of the output that says so is
    [pre ++ "saved to:" ++ post], the marker occurring there for the first
    and only time, the path is [post] with the white space around it
    trimmed. *)
Theorem success_message_reports_the_saved_path (m : Tui.model) (output : string) :
  Tui.findPythonScript <> "" ->
  exec.CombinedOutput python (Tui.scriptArgs m Tui.findPythonScript) = (output, None) ->
  exists count saved,
    Tui.runPythonScript m =
    tea.processCompleteMsg
      ("🎉 Index created successfully!" ++ nl ++ nl
       ++ "📋 Files processed: " ++ count ++ nl
       ++ "💾 Saved to: " ++ saved ++ nl ++ nl
       ++ "✅ Your file index is ready to use!")
      "" /\
    (strings.Contains output "saved to:" = false -> saved = Tui.fullOutputPath m) /\
    (forall before pre post after,
        output = before ++ (pre ++ "saved to:" ++ post) ++ after ->
        before = "" \/ (exists b, before = b ++ nl) ->
        after = "" \/ (exists a, after = nl ++ a) ->
        occurs newline pre = false ->
        occurs newline post = false ->
        strings.Contains before "saved to:" = false ->
        strings.Contains (pre ++ "saved to") "saved to:" = false ->
        strings.Contains post "saved to:" = false ->
        saved = strings.TrimSpace post).
Proof.
  intros F E. rewrite (runPythonScript_runs m F), E.
  eexists. eexists. split; [reflexivity|]. split.
  - intros N. unfold Tui.savedPathOf. now rewrite N.
  - intros before pre post after -> B A Npre Npost Cb Cpre Cpost.
    now apply savedPathOf_line.
Qed.

(** X26.  In the same message, the file count is [multiple] when the
    output nowhere says [processed]; and when the first line of the output
    that says [processed] also says [file], the count is the word that comes
    before the first word of that line, the very first apart, in which
    [file] occurs. *)
Theorem success_message_reports_the_file_count (m : Tui.model) (output : string) :
  Tui.findPythonScript <> "" ->
  exec.CombinedOutput python (Tui.scriptArgs m Tui.findPythonScript) = (output, None) ->
  exists counted saved,
    Tui.runPythonScript m =
    tea.processCompleteMsg
      ("🎉 Index created successfully!" ++ nl ++ nl
       ++ "📋 Files processed: " ++ counted ++ nl
       ++ "💾 Saved to: " ++ saved ++ nl ++ nl
       ++ "✅ Your file index is ready to use!")
      "" /\
    (strings.Contains output "processed" = false -> counted = "multiple") /\
    (forall before line after count word ws rest,
        output = before ++ line ++ after ->
        before = "" \/ (exists b, before = b ++ nl) ->
        after = "" \/ (exists a, after = nl ++ a) ->
        occurs newline line = false ->
        strings.Contains before "processed" = false ->
        strings.Contains line "processed" = true ->
        strings.Contains line "file" = true ->
        strings.Fields line = (ws ++ count :: word :: rest)%list ->
        (forall w, In w (tl (ws ++ [count])) -> strings.Contains w "file" = false) ->
        strings.Contains word "file" = true ->
        counted = count).
Proof.
  intros F E. rewrite (runPythonScript_runs m F), E.
  eexists. eexists. split; [reflexivity|]. split.
  - intros N. unfold Tui.fileCountOf. now rewrite N.
  - intros before line after count word ws rest -> B A N Cb Cp Cf Fi Nw Fw.
    now apply (fileCountOf_line before line after count word ws rest).
Qed.

End SuccessMessage.

Ltac open_simple :=
  unfold Simple.Update, Simple.keyByState, Simple.keyDirectory, Simple.keyOutput,
    Simple.keyConfiguring, Simple.keyProcessing, Simple.keyFinished,
    Simple.updateComponents.

(** ** The runs of the simple variant *)

Section SimpleRuns.

Context {paths : filepath.Lib} {host : os.Host} {runner : exec.Runner}.
Context {inputs : textinput.Lib} {lists : list.Lib}.

Lemma simple_Update_outside (m : Simple.model) (msg : tea.Msg) :
  fromOutside msg = true ->
  simpleSound m ->
  pairSat (fun m' c =>
             simpleSound m' /\
             (forall m0, In m0 (simpleLaunched c) -> m0 = m') /\
             List.length (simpleLaunched c) <= 1 /\
             (Simple.m_state m = Simple.processing ->
              Simple.m_state m' = Simple.processing /\ simpleLaunched c = [] /\
              simpleSettings m' = simpleSettings m) /\
             (Simple.m_state m' = Simple.processing ->
              Simple.m_state m = Simple.processing \/ simpleLaunched c <> []) /\
             (simpleLaunched c <> [] -> Simple.m_state m' = Simple.processing))
    (Simple.Update m msg).
Proof.
  intros O [K N]. destruct msg as [key|w h|r e|tag]; [| | discriminate O |].
  all: open_simple; walk; unfold pairSat; cbn [fst snd].
  all: repeat match goal with
       | H : Simple.m_state _ = _ |- _ => rewrite H in *
       | H : andb _ _ = true |- _ => apply andb_true_iff in H as [? ?]
       | H : orb _ _ = false |- _ => apply orb_false_iff in H as [? ?]
       | H : negb _ = true |- _ => apply negb_true_iff in H
       | H : String.eqb _ _ = false |- _ => apply String.eqb_neq in H
       end.
  all: unfold simpleSound, simpleSettings, knownFormat in *; cbn.
  all: repeat match goal with H : Simple.m_state _ = _ |- _ => rewrite H in * end.
  all: cbn.
  all: try solve [intuition (congruence || discriminate || lia || auto)].
Qed.

Lemma simple_executionError_output (err output : string) :
  exists banner, Simple.executionError err output = banner ++ output.
Proof.
  unfold Simple.executionError.
  destruct (strings.Contains err "executable file not found");
    eexists; rewrite <- !append_assoc; reflexivity.
Qed.

Lemma simple_executionError_nonempty (err output : string) :
  Simple.executionError err output <> "".
Proof.
  unfold Simple.executionError.
  destruct (strings.Contains err "executable file not found");
    rewrite !append_assoc; discriminate.
Qed.

Lemma simple_outcome (m : Simple.model) :
  exists result error,
    Simple.runPythonScript m = tea.processCompleteMsg result error /\
    ((error <> "" /\ result = "") \/ (error = "" /\ result <> "")).
Proof.
  unfold Simple.runPythonScript.
  destruct (String.eqb Simple.findPythonScript "").
  - do 2 eexists. split; [reflexivity|]. left. split; [discriminate | reflexivity].
  - destruct (exec.CombinedOutput _ _) as [output [err|]].
    + do 2 eexists. split; [reflexivity|]. left.
      split; [apply simple_executionError_nonempty | reflexivity].
    + do 2 eexists. split; [reflexivity|]. right.
      split; [reflexivity | discriminate].
Qed.

(** X27.  Running the companion of the simple variant gives a message
    with exactly one of an error and a result: the fixed not-found message
    when the script is not found; when the companion fails, an error that
    contains all it printed; when it succeeds, a result that is a banner
    followed by all it printed. *)
Theorem simple_companion_outcome (m : Simple.model) :
  (exists result error,
      Simple.runPythonScript m = tea.processCompleteMsg result error /\
      ((error <> "" /\ result = "") \/ (error = "" /\ result <> "")))
  /\ (Simple.findPythonScript = "" ->
      Simple.runPythonScript m = tea.processCompleteMsg "" Simple.companionNotFound)
  /\ (forall output err,
        Simple.findPythonScript <> "" ->
        exec.CombinedOutput python (Simple.scriptArgs m Simple.findPythonScript)
          = (output, Some err) ->
        exists error,
          Simple.runPythonScript m = tea.processCompleteMsg "" error /\
          strings.Contains error output = true)
  /\ (forall output,
        Simple.findPythonScript <> "" ->
        exec.CombinedOutput python (Simple.scriptArgs m Simple.findPythonScript)
          = (output, None) ->
        exists banner,
          Simple.runPythonScript m = tea.processCompleteMsg (banner ++ output) "" /\
          banner <> "").
Proof.
  split; [exact (simple_outcome m)|].
  unfold Simple.runPythonScript, python. split; [|split].
  - now intros ->.
  - intros output err F E. apply String.eqb_neq in F. rewrite F, E.
    eexists. split; [reflexivity|].
    destruct (simple_executionError_output err output) as [banner B]. rewrite B.
    apply Contains_suffix.
  - intros output F E. apply String.eqb_neq in F. rewrite F, E.
    exists ("🎉 Files successfully processed!" ++ nl ++ nl ++ "📊 Results:" ++ nl).
    split; [now rewrite !append_assoc | discriminate].
Qed.

Lemma simpleInvariant_deliver (rt rt' : simpleRuntime) (ev : Event) :
  simpleInvariant rt -> simpleDeliver rt ev = Some rt' -> simpleInvariant rt'.
Proof.
  intros (So & [Pf Pb] & Len & Se) D. destruct ev as [msg|]; cbn in D.
  - destruct (fromOutside msg) eqn:O; [|discriminate].
    pose proof (simple_Update_outside (simpleCurrent rt) msg O So) as U.
    destruct (Simple.Update (simpleCurrent rt) msg) as [m' c].
    cbn in D. injection D as <-. unfold pairSat in U. cbn [fst snd] in U.
    destruct U as (So' & La & Ll & Keep & Enter & Started).
    unfold simpleInvariant. cbn [simpleCurrent simplePending].
    destruct (simplePending rt) as [|p rest] eqn:Pe.
    + cbn [app]. split; [exact So'|]. split; [|split; [exact Ll|]].
      * split; [|exact Started]. intros S'. destruct (Enter S') as [S|N]; [|exact N].
        now elim (Pf S).
      * intros m0 In0. now rewrite (La m0 In0).
    + assert (S : Simple.m_state (simpleCurrent rt) = Simple.processing)
        by (apply Pb; discriminate).
      destruct (Keep S) as (S' & L0 & Same). rewrite L0, app_nil_r.
      split; [exact So'|]. split; [|split; [exact Len|]].
      * split; [discriminate | intros _; exact S'].
      * intros m0 In0. rewrite Same. now apply Se.
  - destruct (simplePending rt) as [|p rest] eqn:Pe; [discriminate|].
    assert (rest = []) as -> by (destruct rest; [reflexivity | cbn in Len; lia]).
    assert (S : Simple.m_state (simpleCurrent rt) = Simple.processing)
      by (apply Pb; discriminate).
    destruct (simple_outcome p) as (result & error & Msg & Ex).
    rewrite Msg in D. cbn in D. injection D as <-.
    unfold simpleInvariant. cbn [simpleCurrent simplePending].
    split; [|split; [|split]].
    + destruct So as [K N]. unfold simpleSound in *. rewrite S in N.
      destruct N as (Na & Er & Re).
      destruct Ex as [[Ne ->]|[-> Nr]].
      * apply String.eqb_neq in Ne. rewrite Ne. cbn. apply String.eqb_neq in Ne.
        split; [exact K|]. split; [exact Na|]. left. now split.
      * cbn. split; [exact K|]. split; [exact Na|]. right. now split.
    + destruct (negb (String.eqb error "")); cbn; split; [discriminate | now intros []
                                                         | discriminate | now intros []].
    + cbn. lia.
    + intros m0 [].
Qed.

(** X28.  Along the runs of the simple variant from its initial model: the
    format is one of the three; past step 2 the output name is not empty;
    an outcome is recorded in [finished] only, and there exactly one of an
    error and a result; the wizard is in [processing] exactly when a
    companion is in flight, there is never more than one, and it was
    started with the settings the wizard holds. *)
Theorem simple_wizard_invariants (rt : simpleRuntime) :
  simpleReachable rt ->
  simpleSound (simpleCurrent rt) /\
  (Simple.m_state (simpleCurrent rt) = Simple.processing <-> simplePending rt <> []) /\
  List.length (simplePending rt) <= 1 /\
  (forall m0, In m0 (simplePending rt) ->
              simpleSettings m0 = simpleSettings (simpleCurrent rt)).
Proof.
  intros [events R].
  assert (I0 : simpleInvariant {| simpleCurrent := Simple.initialModel; simplePending := [] |}).
  { unfold simpleInvariant, simpleSound, knownFormat. cbn.
    repeat split; auto; try discriminate; try lia; try tauto. }
  revert I0 R. generalize {| simpleCurrent := Simple.initialModel; simplePending := [] |}.
  induction events as [|ev events IH]; intros rt0 I0 R; cbn in R.
  - injection R as <-. exact I0.
  - destruct (simpleDeliver rt0 ev) as [rt1|] eqn:D; [|discriminate].
    cbn in R. apply (IH rt1); [|exact R]. now apply (simpleInvariant_deliver rt0 rt1 ev).
Qed.

End SimpleRuns.

(** ** The insertion sort of [Posix] keeps the promise of [sort.Slice] *)

Import Posix.

Lemma insertBack_perm {A : Type} (less : A -> A -> bool) (x : A) (l : list A) :
  Permutation (x :: l) (insertBack less x l).
Proof.
  induction l as [|y rest IH]; simpl.
  - apply Permutation_refl.
  - destruct (less x y).
    + eapply perm_trans; [apply perm_swap|]. now apply perm_skip.
    + apply Permutation_refl.
Qed.

Lemma insertLoop_perm {A : Type} (less : A -> A -> bool) (x acc : list A) :
  Permutation (x ++ acc)%list
    (fold_left (fun sortedRev a => insertBack less a sortedRev) x acc).
Proof.
  revert acc. induction x as [|a x IH]; intros acc; simpl.
  - apply Permutation_refl.
  - eapply perm_trans; [|apply IH].
    eapply perm_trans; [apply Permutation_middle|].
    apply Permutation_app_head. apply insertBack_perm.
Qed.

Lemma insertionSort_perm (A : Type) (less : A -> A -> bool) (x : list A) :
  Permutation x (insertionSort less x).
Proof.
  unfold insertionSort.
  eapply perm_trans; [|apply Permutation_rev].
  pose proof (insertLoop_perm less x []) as P.
  now rewrite app_nil_r in P.
Qed.

Section InsertionOrder.

Variable A : Type.
Variable less : A -> A -> bool.
Hypothesis less_asym : forall a b, less a b = true -> less b a = false.
Hypothesis geq_trans : forall a b c, less b a = false -> less c b = false -> less c a = false.

Lemma insertBack_sorted (x : A) (l : list A) :
  StronglySorted (fun a b => less a b = false) l ->
  StronglySorted (fun a b => less a b = false) (insertBack less x l).
Proof.
  induction l as [|y rest IH]; simpl; intros S.
  - constructor; [constructor | constructor].
  - inversion S as [|? ? Srest Hy]; subst.
    destruct (less x y) eqn:Hxy.
    + constructor; [now apply IH|].
      eapply Permutation_Forall; [apply insertBack_perm|].
      constructor; [now apply less_asym | exact Hy].
    + constructor; [exact S|].
      constructor; [exact Hxy|].
      rewrite Forall_forall in *. intros z Hz.
      eapply geq_trans; [apply Hy, Hz | exact Hxy].
Qed.

Lemma insertLoop_sorted (x acc : list A) :
  StronglySorted (fun a b => less a b = false) acc ->
  StronglySorted (fun a b => less a b = false)
    (fold_left (fun sortedRev a => insertBack less a sortedRev) x acc).
Proof.
  revert acc. induction x as [|a x IH]; intros acc S; simpl; [exact S|].
  apply IH. now apply insertBack_sorted.
Qed.

Lemma sorted_snoc (R : A -> A -> Prop) (l : list A) (x : A) :
  StronglySorted R l -> Forall (fun y => R y x) l -> StronglySorted R (l ++ [x])%list.
Proof.
  induction l as [|y l IH]; simpl; intros S F.
  - constructor; [constructor | constructor].
  - inversion S; subst. inversion F; subst.
    constructor; [now apply IH|].
    apply Forall_app. split; [assumption | now constructor].
Qed.

Lemma sorted_rev (R : A -> A -> Prop) (l : list A) :
  StronglySorted (fun a b => R b a) l -> StronglySorted R (rev l).
Proof.
  induction l as [|y l IH]; simpl; intros S; [constructor|].
  inversion S; subst.
  apply sorted_snoc; [now apply IH|].
  apply Forall_rev. assumption.
Qed.

Lemma insertionSort_sorted (x : list A) :
  StronglySorted (fun a b => less b a = false) (insertionSort less x).
Proof.
  unfold insertionSort. apply sorted_rev. apply insertLoop_sorted. constructor.
Qed.

End InsertionOrder.

#[global] Instance posix_sort_laws : sort.Laws Posix.sorting :=
  {| sort.Slice_perm := insertionSort_perm;
     sort.Slice_sorted :=
       fun A less x asym trans => insertionSort_sorted A less asym trans x |}.

(** * The scenarios of the specification, evaluated *)

Import Scenario.

(** C5 on the name [report.csv]: two presses of Tab give it back. *)
Lemma toggle_extension_twice_witness :
  outputName (pressTab (pressTab (namingOutput "report.csv"))) = "report.csv".
Proof.
  apply (proj1 (proj2 (toggle_extension_twice (namingOutput "report.csv") eq_refl))).
  left. reflexivity.
Defined.

Example toggle_csv_once :
  outputName (pressTab (namingOutput "report.csv")) = "report.xlsx".
Proof. reflexivity. Qed.

Example toggle_unknown_extension :
  outputName (pressTab (namingOutput "notes.txt")) = "notes.txt".
Proof. reflexivity. Qed.

Example toggle_no_extension :
  outputName (pressTab (namingOutput "index")) = "index.xlsx".
Proof. reflexivity. Qed.

(** ** The invoker *)

Example arguments_csv_debug_litigant :
  Tui.scriptArgs (reviewing "/tmp/docs" "index" "csv" true "Juan Perez") "extractor.py" =
  ["extractor.py"; "--directory"; "/tmp/docs"; "--output"; "/tmp/docs/index.csv";
   "--csv-only"; "--debug"; "--litigant"; "Juan Perez"].
Proof. reflexivity. Qed.

Example arguments_default_format :
  Tui.scriptArgs (reviewing "/tmp/docs" "index" "excel" false "") "extractor.py" =
  ["extractor.py"; "--directory"; "/tmp/docs"; "--output"; "/tmp/docs/index.xlsx"].
Proof. reflexivity. Qed.

Example arguments_both_formats :
  Tui.scriptArgs (reviewing "/tmp/docs" "cases.v2" "both" false "") "extractor.py" =
  ["extractor.py"; "--directory"; "/tmp/docs"; "--output"; "/tmp/docs/cases.v2"; "--csv"].
Proof. reflexivity. Qed.

(** The claim C1 as stated fails on the invoker of the simple variant.
    Space selects [/tmp] and proposes [tmp_index.xlsx]; five backspaces
    leave the name [tmp_index], which has no extension; two presses of
    Enter start the companion.  After [--output] comes [tmp_index] as it
    was typed, not [/tmp/tmp_index.xlsx]. *)
Lemma simple_invoker_passes_the_name_as_typed :
  exists rt started,
    simpleRun (runner := failing)
      {| simpleCurrent := Simple.initialModel; simplePending := [] |}
      (keys [" "; "backspace"; "backspace"; "backspace"; "backspace"; "backspace";
             "enter"; "enter"]) = Some rt /\
    simplePending rt = [started] /\
    Simple.selectedDir started = "/tmp" /\
    Simple.outputPath started = "tmp_index" /\
    strings.Contains (Simple.outputPath started) "." = false /\
    Simple.exportFormat started = "both" /\
    Simple.scriptArgs started Simple.findPythonScript =
      ["/opt/indexer/file_metadata_extractor.py"; "--directory"; "/tmp";
       "--output"; "tmp_index"; "--csv"] /\
    Simple.scriptArgs started Simple.findPythonScript <>
      [Simple.findPythonScript; "--directory"; Simple.selectedDir started; "--output";
       filepath.Join (Simple.selectedDir started)
         (Simple.outputPath started ++ defaultExtension (Simple.exportFormat started));
       "--csv"].
Proof.
  eexists. eexists. split; [vm_compute; reflexivity|].
  split; [reflexivity|]. repeat (split; [reflexivity|]).
  vm_compute. discriminate.
Qed.

(** ** The lister *)

Lemma holds_file (fuel : nat) (dirPath : string) :
  Tui.isDirEmpty fuel dirPath = Some false -> HasFile dirPath.
Proof. apply isDirEmpty_false. Qed.

Lemma holds_no_file (fuel : nat) (dirPath : string) :
  Tui.isDirEmpty fuel dirPath = Some true -> ~ HasFile dirPath.
Proof. apply isDirEmpty_true. Qed.

Example listing_docs :
  Tui.getDirectoryItems 2 "/tmp/docs" =
  Some [ {| Tui.name := ".."; Tui.path := "/tmp"; Tui.isDir := true; Tui.modTime := 0%Z |};
         {| Tui.name := "a"; Tui.path := "/tmp/docs/a"; Tui.isDir := true;
            Tui.modTime := 10%Z |} ].
Proof. reflexivity. Qed.

Example listing_data :
  option_map (map Tui.name) (Tui.getDirectoryItems 3 "/srv/data") =
  Some [".."; "new"; "deep"; "old"].
Proof. reflexivity. Qed.

Example listing_root :
  option_map (map Tui.name) (Tui.getDirectoryItems 4 "/") = Some ["tmp"; "srv"].
Proof. reflexivity. Qed.

(** The claim C2 as stated fails on [/srv/data]: its subdirectory [.cache]
    holds a file and is left out of the listing, because its name starts
    with a dot. *)
Lemma hidden_directory_with_files_is_excluded :
  ~ (forall (fuel : nat) (dirPath : string) (entries : list os.DirEntry)
            (entry : os.DirEntry) (items : list Tui.directoryItem),
        os.ReadDir dirPath = Some entries ->
        In entry entries ->
        os.IsDir entry = true ->
        Tui.getDirectoryItems fuel dirPath = Some items ->
        (~ In (Tui.itemOf dirPath entry) items <->
         ~ HasFile (filepath.Join dirPath (os.Name entry)))).
Proof.
  intros Claim.
  destruct (Claim 3 "/srv/data" dataEntries (dir ".cache" 60) _ eq_refl
              (or_introl eq_refl) eq_refl eq_refl) as [Excluded _].
  apply Excluded.
  - cbn. intros [E|[E|[E|[E|[]]]]]; discriminate E.
  - apply (holds_file 1). reflexivity.
Qed.

(** C2 on [/tmp/docs]: the listing is the parent entry and [a]. *)
Lemma listing_excludes_empty_subdirectories_witness :
  Tui.getDirectoryItems 2 "/tmp/docs" =
  Some [ {| Tui.name := ".."; Tui.path := "/tmp"; Tui.isDir := true; Tui.modTime := 0%Z |};
         {| Tui.name := "a"; Tui.path := "/tmp/docs/a"; Tui.isDir := true;
            Tui.modTime := 10%Z |} ].
Proof.
  change (Tui.getDirectoryItems 2 "/tmp/docs" =
          Some (Tui.parentItems "/tmp/docs" ++ [Tui.itemOf "/tmp/docs" (dir "a" 10)])%list).
  apply (proj2 listing_excludes_empty_subdirectories 2 "/tmp/docs" (dir "a" 10) (dir "b" 20)).
  - reflexivity.
  - apply shallowb_sound. reflexivity.
  - reflexivity.
  - reflexivity.
  - reflexivity.
  - apply (holds_file 1). reflexivity.
  - apply (holds_no_file 1). reflexivity.
Defined.

(** The claim C3 as stated fails on [/tmp/docs]: of its two visible
    children only [a] is listed, [b] holding no file. *)
Lemma visible_children_are_not_all_listed :
  ~ (forall (fuel : nat) (dirPath : string) (entries : list os.DirEntry)
            (items : list Tui.directoryItem),
        os.ReadDir dirPath = Some entries ->
        Tui.getDirectoryItems fuel dirPath = Some items ->
        List.length items =
        List.length (filter (fun entry => negb (strings.HasPrefix (os.Name entry) "."))
                       entries)
        + (if String.eqb (filepath.Dir dirPath) dirPath then 0 else 1)).
Proof.
  intros Claim.
  specialize (Claim 2 "/tmp/docs" _ _ eq_refl eq_refl). discriminate Claim.
Qed.

(** C3 on [/srv/data]: three of the six children are listed, most recent
    first, after the parent entry. *)
Lemma listing_of_readable_directory_witness :
  exists rest,
    Tui.getDirectoryItems 3 "/srv/data" = Some (Tui.parentItems "/srv/data" ++ rest)%list /\
    List.length rest = 3 /\
    StronglySorted (fun a b => (Tui.modTime b <= Tui.modTime a)%Z) rest.
Proof.
  pose proof (listing_of_readable_directory 3 "/srv/data" dataEntries) as Listing.
  assert (Sh : Shallow 4 "/srv/data") by (apply shallowb_sound; reflexivity).
  destruct (Listing eq_refl Sh)
    as (rest & G & _ & _ & _ & L & _ & S).
  exists rest. split; [exact G|]. split; [exact L | exact S].
Defined.

(** The claim C6 as stated fails on [/srv/data/locked], which cannot be
    read: the listing is not empty, it holds the parent entry. *)
Lemma unreadable_listing_keeps_parent :
  ~ (forall (fuel : nat) (dirPath : string),
        os.ReadDir dirPath = None ->
        Tui.getDirectoryItems fuel dirPath = Some []).
Proof.
  intros Claim. specialize (Claim 0 "/srv/data/locked" eq_refl). discriminate Claim.
Qed.

(** C6 on [/srv/data/locked]: both variants return the parent entry alone. *)
Lemma unreadable_directory_listing_witness :
  Tui.getDirectoryItems 0 "/srv/data/locked" =
    Some [ {| Tui.name := ".."; Tui.path := "/srv/data"; Tui.isDir := true;
              Tui.modTime := 0%Z |} ]
  /\ Simple.getDirectoryItems "/srv/data/locked" =
       [ {| Simple.name := ".."; Simple.path := "/srv/data"; Simple.isDir := true |} ].
Proof.
  pose proof (proj1 unreadable_directory_listing 0 "/srv/data/locked") as Listing.
  exact (Listing eq_refl).
Defined.

(** C10 on [/srv/data]: no listed subdirectory is the unreadable [locked]. *)
Lemma unreadable_directory_counts_as_empty_witness :
  exists rest,
    Tui.getDirectoryItems 3 "/srv/data" = Some (Tui.parentItems "/srv/data" ++ rest)%list /\
    forall item, In item rest -> Tui.name item <> "locked".
Proof.
  apply (proj1 (proj2 unreadable_directory_counts_as_empty) 3 "/srv/data" dataEntries
           (dir "locked" 70)).
  - reflexivity.
  - apply shallowb_sound. reflexivity.
  - cbn. auto.
  - reflexivity.
  - reflexivity.
Defined.

Example unreadable_is_empty : Tui.isDirEmpty 1 "/srv/data/locked" = Some true.
Proof. reflexivity. Qed.

Example hidden_file_counts : Tui.isDirEmpty 2 "/srv/data/deep" = Some false.
Proof. reflexivity. Qed.

(** ** The wizard *)

Lemma afterEvents_reachable (companion : exec.Runner) (events : list Event) (rt : runtime) :
  afterEvents companion events = Some rt -> reachable (runner := companion) 3 rt.
Proof.
  unfold afterEvents, reachable.
  destruct (Tui.initialModel 3) as [m0|] eqn:I; cbn [bind]; [eauto | discriminate].
Qed.

Example companion_fails :
  option_map (fun rt => (Tui.m_state (current rt), Tui.result (current rt),
                         strings.Contains (Tui.error (current rt)) "permission denied"))
    (afterEvents failing (toProcessing ++ [Completion])%list)
  = Some (Tui.finished, "", true).
Proof. reflexivity. Qed.

Example companion_succeeds :
  option_map (fun rt => (Tui.m_state (current rt), Tui.error (current rt),
                         strings.Contains (Tui.result (current rt)) "Files processed: 12"))
    (afterEvents succeeding (toProcessing ++ [Completion])%list)
  = Some (Tui.finished, "", true).
Proof. reflexivity. Qed.

(** C7 on a companion that prints [permission denied] and exits with
    status 1: the wizard ends in [finished] with that text in its error and
    no result. *)
Lemma companion_failure_outcome_witness :
  exists rt rt',
    afterEvents failing toProcessing = Some rt /\
    deliver (runner := failing) 3 rt Completion = Some rt' /\
    Tui.m_state (current rt') = Tui.finished /\
    strings.Contains (Tui.error (current rt')) "permission denied" = true /\
    Tui.result (current rt') = "".
Proof.
  destruct (afterEvents failing toProcessing) as [rt|] eqn:A;
    [|vm_compute in A; discriminate A].
  pose proof (afterEvents_reachable _ _ _ A) as R.
  assert (P : exists m0, pending rt = [m0]).
  { vm_compute in A. injection A as <-. eexists. reflexivity. }
  destruct P as [m0 P].
  assert (F : Tui.findPythonScript <> "") by (vm_compute; discriminate).
  destruct (proj2 (proj2 (companion_failure_outcome (runner := failing)))
              3 rt m0 [] "permission denied" "exit status 1" R P F eq_refl)
    as (rt' & D & S & C & Res).
  exists rt, rt'. auto.
Defined.

Example filter_shows_matches :
  option_map (fun m => (map Tui.name (list.items (Tui.directoryList m)),
                        textinput.Value (Tui.filterInput m)))
    (m0 <- Tui.initialModel 3 ;; pressKeys 3 m0 ["i"; "D"; "o"])
  = Some (["docs"], "Do").
Proof. reflexivity. Qed.

Example filter_cleared :
  option_map (fun m => (map Tui.name (list.items (Tui.directoryList m)),
                        textinput.Value (Tui.filterInput m), Tui.filtering m))
    (m0 <- Tui.initialModel 3 ;; pressKeys 3 m0 ["i"; "x"; "esc"])
  = Some ([".."; "docs"], "", false).
Proof. reflexivity. Qed.

(** C8 from the initial model: the filter [x] shows nothing, [esc] shows
    the listing again. *)
Lemma filter_then_clear_restores_witness :
  exists m filtered cleared,
    Tui.initialModel 3 = Some m /\
    pressKeys 3 m ["i"; "x"] = Some filtered /\
    list.items (Tui.directoryList filtered) = [] /\
    Tui.Update 3 filtered (tea.KeyMsg "esc") = Some (cleared, tea.Nil) /\
    list.items (Tui.directoryList cleared) = list.items (Tui.directoryList m).
Proof.
  destruct (Tui.initialModel 3) as [m|] eqn:I; [|vm_compute in I; discriminate I].
  assert (G : Tui.getDirectoryItems 3 (Tui.currentPath m) =
              Some (list.items (Tui.directoryList m)))
    by (vm_compute in I; injection I as <-; reflexivity).
  assert (S : Tui.m_state m = Tui.selectingDirectory /\ Tui.filtering m = false)
    by (vm_compute in I; injection I as <-; split; reflexivity).
  destruct S as [S F].
  assert (N : ["x"] <> []) by discriminate.
  destruct (filter_then_clear_restores 3 m _ ["x"] S F G eq_refl N)
    as (_ & filtered & cleared & P & Shown & U & Restored & _).
  exists m, filtered, cleared. split; [reflexivity|]. split; [exact P|].
  split; [|split; assumption].
  vm_compute in I. injection I as <-. vm_compute in P. injection P as <-. reflexivity.
Defined.

(** The line editor of [Posix] gains bytes from typing only. *)
Lemma occurs_app (c : ascii) (s t : string) :
  occurs c (s ++ t) = occurs c s || occurs c t.
Proof. induction s as [|d s IH]; simpl; [reflexivity|]. now rewrite IH, orb_assoc. Qed.

Lemma occurs_prefix (c : ascii) (s : string) (n : nat) :
  occurs c (substring 0 n s) = true -> occurs c s = true.
Proof.
  revert n. induction s as [|d s IH]; intros n; simpl.
  - now destruct n.
  - destruct n as [|n]; simpl; [discriminate|].
    destruct (Ascii.eqb c d); [reflexivity|]. apply IH.
Qed.

Lemma editLine_typed_only : typedOnly (inputs := Posix.inputs).
Proof.
  intros ti msg c. cbn. unfold editLine.
  destruct msg as [key| | |]; auto.
  destruct (String.eqb key "backspace").
  - cbn. unfold dropLast. intros O. left. eapply occurs_prefix, O.
  - destruct (Nat.eqb (String.length key) 1) eqn:L; auto.
    cbn. rewrite occurs_app. intros O. apply orb_true_iff in O as [O|O]; [now left|].
    right. destruct key as [|d [|? ?]]; try discriminate. cbn in O.
    rewrite orb_false_r in O. apply Ascii.eqb_eq in O. now subst.
Qed.

Example typed_output_name :
  option_map (fun rt => textinput.Value (Tui.outputInput (current rt)))
    (afterEvents failing (keys [" "; "_"; "2"; "0"; "2"; "4"]))
  = Some "index_2024".
Proof. reflexivity. Qed.

Example r_discards_the_entry :
  option_map (fun rt => (Tui.m_state (current rt),
                         textinput.Value (Tui.outputInput (current rt)),
                         Tui.selectedDir (current rt)))
    (afterEvents failing (keys [" "; "_"; "r"]))
  = Some (Tui.selectingDirectory, "", "").
Proof. reflexivity. Qed.



(** * The further properties, on the scenarios *)

(** X1 once the companion is started with the defaults. *)
Lemma companion_in_flight_exactly_while_processing_witness :
  exists rt,
    afterEvents failing toProcessing = Some rt /\
    (Tui.m_state (current rt) = Tui.processing <-> pending rt <> []) /\
    List.length (pending rt) <= 1.
Proof.
  destruct (afterEvents failing toProcessing) as [rt|] eqn:A;
    [|vm_compute in A; discriminate A].
  exists rt. split; [reflexivity|].
  destruct (companion_in_flight_exactly_while_processing (runner := failing) 3 rt
              (afterEvents_reachable _ _ _ A)) as (Fl & Len & _).
  split; assumption.
Defined.

(** X2 on the same run: the result screen holds the settings of the
    companion that ran. *)
Lemma outcome_belongs_to_the_settings_shown_witness :
  exists rt rt',
    afterEvents failing toProcessing = Some rt /\
    deliver (runner := failing) 3 rt Completion = Some rt' /\
    Tui.m_state (current rt') = Tui.finished /\
    configuration (current rt') = ("/tmp", "index", "", "excel", false).
Proof.
  destruct (afterEvents failing toProcessing) as [rt|] eqn:A;
    [|vm_compute in A; discriminate A].
  pose proof (afterEvents_reachable _ _ _ A) as R.
  assert (P : exists m0, pending rt = [m0] /\
                         configuration m0 = ("/tmp", "index", "", "excel", false)).
  { vm_compute in A. injection A as <-. eexists. split; reflexivity. }
  destruct P as (m0 & P & C).
  destruct (outcome_belongs_to_the_settings_shown (runner := failing) 3 rt m0 [] R P)
    as (rt' & D & S & K & _).
  exists rt, rt'. rewrite K. auto.
Defined.

(** X3 after the format key in the advanced mode. *)
Lemma export_format_stays_known_witness :
  exists rt,
    afterEvents failing (keys [" "; "enter"; "enter"; "ctrl+d"; "4"]) = Some rt /\
    knownFormat (Tui.exportFormat (current rt)).
Proof.
  destruct (afterEvents failing (keys [" "; "enter"; "enter"; "ctrl+d"; "4"]))
    as [rt|] eqn:A; [|vm_compute in A; discriminate A].
  exists rt. split; [reflexivity|].
  exact (proj1 (export_format_stays_known (runner := failing) 3 rt
                  (afterEvents_reachable _ _ _ A))).
Defined.

(** X4 once the companion is started. *)
Lemma companion_started_with_an_output_name_witness :
  exists rt,
    afterEvents failing toProcessing = Some rt /\
    forall m0, In m0 (pending rt) -> Tui.outputPath m0 <> "".
Proof.
  destruct (afterEvents failing toProcessing) as [rt|] eqn:A;
    [|vm_compute in A; discriminate A].
  exists rt. split; [reflexivity|].
  exact (proj2 (companion_started_with_an_output_name (runner := failing) 3 rt eq_refl
                  (afterEvents_reachable _ _ _ A))).
Defined.

(** X5 on the run that accepts the defaults. *)
Lemma simple_mode_runs_excel_without_debug_witness :
  exists m0 rt,
    Tui.initialModel 3 = Some m0 /\
    run (runner := failing) 3 {| current := m0; pending := [] |} toProcessing = Some rt /\
    plainOptions (current rt).
Proof.
  destruct (Tui.initialModel 3) as [m0|] eqn:I; [|vm_compute in I; discriminate I].
  destruct (run (runner := failing) 3 {| current := m0; pending := [] |} toProcessing)
    as [rt|] eqn:R;
    [|vm_compute in I; injection I as <-; vm_compute in R; discriminate R].
  exists m0, rt. split; [reflexivity|]. split; [exact R|].
  exact (proj1 (simple_mode_runs_excel_without_debug (runner := failing) 3 m0
                  toProcessing rt I eq_refl R)).
Defined.

(** X7 on the key [x]. *)
Lemma processing_ignores_the_keyboard_witness :
  Tui.Update 3 waiting (tea.KeyMsg "x") = Some (waiting, tea.Nil).
Proof.
  apply (processing_ignores_the_keyboard 3 waiting "x").
  - reflexivity.
  - discriminate.
Defined.

(** X8 from the format [excel]. *)
Lemma format_key_cycles_the_three_formats_witness :
  exists m1 m2,
    pressKeys 3 (reviewing "/tmp/docs" "index" "excel" false "") ["4"]
      = Some m1 /\
    pressKeys 3 (reviewing "/tmp/docs" "index" "excel" false "") ["4"; "4"]
      = Some m2 /\
    pressKeys 3 (reviewing "/tmp/docs" "index" "excel" false "")
      ["4"; "4"; "4"]
      = Some (reviewing "/tmp/docs" "index" "excel" false "") /\
    Tui.exportFormat m1 = "csv" /\ Tui.exportFormat m2 = "both".
Proof.
  destruct (format_key_cycles_the_three_formats 3
              (reviewing "/tmp/docs" "index" "excel" false "")
              eq_refl eq_refl (or_introl eq_refl))
    as (m1 & m2 & P1 & P2 & P3 & _ & _ & E & _).
  exists m1, m2. destruct (E eq_refl). auto.
Defined.

(** X9 on the key that starts the companion. *)
Lemma wizard_steps_in_order_witness :
  follows Tui.configuring Tui.processing = true /\
  (Tui.m_state waiting = Tui.m_state (reviewing "/tmp/docs" "index" "csv" false "") \/
   follows (Tui.m_state (reviewing "/tmp/docs" "index" "csv" false ""))
     (Tui.m_state waiting) = true \/
   (Tui.m_state (reviewing "/tmp/docs" "index" "csv" false "") <> Tui.processing /\
    tea.KeyMsg "enter" = tea.KeyMsg "r" /\
    Tui.initialModel 3 = Some waiting)).
Proof.
  split; [reflexivity|].
  apply (wizard_steps_in_order 3
           (reviewing "/tmp/docs" "index" "csv" false "") waiting
           (tea.Script waiting) (tea.KeyMsg "enter")).
  - reflexivity.
  - reflexivity.
Defined.

(** X10 from the initial model, whose cursor is on the parent entry of
    [/tmp]. *)
Lemma two_ways_up_agree_witness :
  exists m0 m',
    Tui.initialModel 4 = Some m0 /\
    Tui.Update 4 m0 (tea.KeyMsg "left") = Some (m', tea.Nil) /\
    Tui.Update 4 m0 (tea.KeyMsg "enter") = Some (m', tea.Nil) /\
    Tui.currentPath m' = "/".
Proof.
  destruct (Tui.initialModel 4) as [m0|] eqn:I; [|vm_compute in I; discriminate I].
  assert (F : Tui.m_state m0 = Tui.selectingDirectory /\ Tui.filtering m0 = false /\
              Tui.currentPath m0 = "/tmp" /\
              list.SelectedItem (Tui.directoryList m0) =
              Some {| Tui.name := ".."; Tui.path := "/"; Tui.isDir := true;
                      Tui.modTime := time.zero |})
    by (vm_compute in I; injection I as <-; repeat split; reflexivity).
  destruct F as (S & F & C & Sel).
  assert (Sh : Shallow 5 (filepath.Dir (Tui.currentPath m0)))
    by (rewrite C; apply shallowb_sound; reflexivity).
  destruct (proj2 (two_ways_up_agree 4 m0 S F) _ Sel)
    as (m' & L & E & _ & _ & P & _); [rewrite C; left; reflexivity | exact Sh |].
  exists m0, m'. rewrite P, C. auto.
Defined.

(** X11 from the initial model with the cursor moved down to [docs]. *)
Lemma descending_enters_the_highlighted_directory_witness :
  exists m m',
    (m0 <- Tui.initialModel 3 ;; pressKeys 3 m0 ["down"]) = Some m /\
    Tui.Update 3 m (tea.KeyMsg "right") = Some (m', tea.Nil) /\
    Tui.Update 3 m (tea.KeyMsg "n") = Some (m', tea.Nil) /\
    Tui.currentPath m' = "/tmp/docs".
Proof.
  destruct (m0 <- Tui.initialModel 3 ;; pressKeys 3 m0 ["down"])
    as [m|] eqn:P; [|vm_compute in P; discriminate P].
  assert (F : Tui.m_state m = Tui.selectingDirectory /\ Tui.filtering m = false /\
              Tui.currentPath m = "/tmp" /\
              list.SelectedItem (Tui.directoryList m) =
              Some (Tui.itemOf "/tmp" (dir "docs" 3)))
    by (vm_compute in P; injection P as <-; repeat split; reflexivity).
  destruct F as (S & F & C & Sel).
  destruct (descending_enters_the_highlighted_directory 3 m
              [dir "docs" 3]
              (Tui.parentItems "/tmp" ++ [Tui.itemOf "/tmp" (dir "docs" 3)])%list
              (Tui.itemOf "/tmp" (dir "docs" 3)) S F)
    as (entry & m' & _ & _ & _ & _ & _ & R & N & _ & _ & Cp & _).
  - rewrite C. reflexivity.
  - rewrite C. apply shallowb_sound. reflexivity.
  - rewrite C. reflexivity.
  - right. left. reflexivity.
  - exact Sel.
  - discriminate.
  - apply shallowb_sound. reflexivity.
  - exists m, m'. rewrite Cp. auto.
Defined.

(** X12 from the initial model with the filter [Do]: the first match is
    [docs], and the second [enter] selects it. *)
Lemma filter_then_enter_selects_the_first_match_witness :
  exists m0 filtered applied chosen,
    Tui.initialModel 3 = Some m0 /\
    pressKeys 3 m0 ["i"; "D"; "o"] = Some filtered /\
    Tui.Update 3 filtered (tea.KeyMsg "enter") = Some (applied, tea.Nil) /\
    Tui.Update 3 applied (tea.KeyMsg "enter") = Some (chosen, tea.Nil) /\
    Tui.m_state chosen = Tui.selectingOutput /\
    Tui.selectedDir chosen = "/tmp/docs".
Proof.
  destruct (Tui.initialModel 3) as [m0|] eqn:I; [|vm_compute in I; discriminate I].
  assert (F : Tui.m_state m0 = Tui.selectingDirectory /\ Tui.filtering m0 = false /\
              Tui.getDirectoryItems 3 (Tui.currentPath m0) =
              Some (Tui.parentItems "/tmp" ++ [Tui.itemOf "/tmp" (dir "docs" 3)])%list)
    by (vm_compute in I; injection I as <-; repeat split; reflexivity).
  destruct F as (S & F & G).
  assert (N : ["D"; "o"] <> []) by discriminate.
  destruct (filter_then_enter_selects_the_first_match 3 m0 _
              ["D"; "o"] S F G eq_refl N)
    as (filtered & applied & P & U & _ & _ & _ & Select).
  assert (T : textinput.Value (Tui.filterInput filtered) = "Do")
    by (vm_compute in I; injection I as <-; vm_compute in P; injection P as <-; reflexivity).
  rewrite T in Select.
  destruct (Select (Tui.itemOf "/tmp" (dir "docs" 3)) [] eq_refl)
    as (chosen & U2 & S2 & D2 & _); [discriminate|].
  exists m0, filtered, applied, chosen. auto 10.
Defined.

(** X13 on the host of the scenarios, whose start directory is [/tmp]. *)
Lemma accepting_the_defaults_indexes_the_start_directory_witness :
  exists m0 rt m,
    Tui.initialModel 3 = Some m0 /\
    run (runner := failing) 3 {| current := m0; pending := [] |} toProcessing = Some rt /\
    pending rt = [m] /\
    Tui.scriptArgs m "file_metadata_extractor.py" =
    ["file_metadata_extractor.py"; "--directory"; "/tmp"; "--output"; "/tmp/index.xlsx"].
Proof.
  destruct (Tui.initialModel 3) as [m0|] eqn:I; [|vm_compute in I; discriminate I].
  destruct (accepting_the_defaults_indexes_the_start_directory (runner := failing) 3 m0 I)
    as (rt & m & R & _ & P & A).
  exists m0, rt, m. split; [reflexivity|]. split; [exact R|]. split; [exact P|].
  exact (A "file_metadata_extractor.py").
Defined.

(** X14 after a failed run. *)
Lemma retry_reruns_with_the_same_settings_witness :
  exists m1 m2,
    Tui.Update 3 failed (tea.KeyMsg "b") = Some (m1, tea.Nil) /\
    Tui.error m1 = "" /\
    Tui.Update 3 m1 (tea.KeyMsg "enter") = Some (m2, tea.Script m2) /\
    Tui.runPythonScript (runner := failing) m2 = Tui.runPythonScript (runner := failing) failed.
Proof.
  destruct (retry_reruns_with_the_same_settings (runner := failing) 3 failed eq_refl)
    as (m1 & m2 & B & _ & E & _ & U & _ & _ & R).
  exists m1, m2. auto.
Defined.

(** X15 on the host of the scenarios: the script beside the executable. *)
Lemma companion_script_is_a_file_that_exists_witness :
  Tui.findPythonScript = "/opt/indexer/file_metadata_extractor.py" /\
  os.Stat Tui.findPythonScript <> None.
Proof.
  split.
  - change "/opt/indexer/file_metadata_extractor.py"
      with (filepath.Join (filepath.Dir "/opt/indexer/file-indexer")
              "file_metadata_extractor.py").
    apply (proj1 (proj2 (proj2 companion_script_is_a_file_that_exists))
             "/opt/indexer/file-indexer").
    + reflexivity.
    + discriminate.
  - apply (proj1 companion_script_is_a_file_that_exists). discriminate.
Defined.

(** X16 on the host that cannot tell where the executable is: the run that
    accepts the defaults ends with the not-found message, though the
    companion would have succeeded. *)
Lemma missing_companion_is_reported_witness :
  exists rt rt',
    (m0 <- Tui.initialModel (host := stranded) 3 ;;
     run (host := stranded) (runner := succeeding) 3
       {| current := m0; pending := [] |} toProcessing) = Some rt /\
    deliver (host := stranded) (runner := succeeding) 3 rt Completion = Some rt' /\
    Tui.m_state (current rt') = Tui.finished /\
    Tui.error (current rt') = Tui.companionNotFound.
Proof.
  destruct (Tui.initialModel (host := stranded) 3) as [m0|] eqn:I;
    [|vm_compute in I; discriminate I].
  cbn [bind].
  destruct (run (host := stranded) (runner := succeeding) 3
              {| current := m0; pending := [] |} toProcessing) as [rt|] eqn:R;
    [|vm_compute in I; injection I as <-; vm_compute in R; discriminate R].
  assert (Re : reachable (host := stranded) (runner := succeeding) 3 rt)
    by (exists m0, toProcessing; split; assumption).
  assert (P : exists m, pending rt = [m]).
  { vm_compute in I. injection I as <-. vm_compute in R. injection R as <-.
    eexists. reflexivity. }
  destruct P as [m P].
  destruct (missing_companion_is_reported (host := stranded) (runner := succeeding)
              3 rt m [] eq_refl Re P) as (_ & rt' & D & S & E & _).
  exists rt, rt'. auto.
Defined.

(** X17 on the host of the scenarios: the home directory [/tmp], none of
    the download directories being there. *)
Lemma start_directory_is_a_directory_witness :
  Tui.getDownloadsDirectory = "/tmp" /\
  exists info,
    os.Stat Tui.getDownloadsDirectory = Some info /\ os.Mode_IsDir info = true.
Proof.
  split; [reflexivity|].
  destruct (proj1 start_directory_is_a_directory) as [E|H]; [discriminate E | exact H].
Defined.

(** X18 on [/srv/data]. *)
Lemma listed_names_are_distinct_witness :
  exists items,
    Tui.getDirectoryItems 3 "/srv/data" = Some items /\
    NoDup (map Tui.name items).
Proof.
  destruct (listed_names_are_distinct 3 "/srv/data" dataEntries) as (items & G & N & _).
  - reflexivity.
  - apply shallowb_sound. reflexivity.
  - cbn. repeat constructor; cbn; intuition discriminate.
  - exists items. auto.
Defined.

(** X19 on [/srv/data]: five directories, the hidden and the unreadable
    ones among them, then the file. *)
Lemma simple_listing_directories_then_twenty_files_witness :
  exists dirs files,
    Simple.getDirectoryItems "/srv/data" =
      (Simple.parentItems "/srv/data" ++ dirs ++ files)%list /\
    map Simple.name dirs = [".cache"; "deep"; "locked"; "new"; "old"] /\
    map Simple.name files = ["notes.txt"].
Proof.
  destruct (simple_listing_directories_then_twenty_files "/srv/data" dataEntries)
    as (dirs & files & G & D & F & _); [reflexivity|].
  exists dirs, files. auto.
Defined.

(** X20 from the initial model, in [/tmp]: Tab jumps to [/]. *)
Lemma simple_tab_jumps_to_a_directory_witness :
  exists m' c,
    Simple.Update Simple.initialModel (tea.KeyMsg "tab") = (m', c) /\
    Simple.m_state m' = Simple.selectingDirectory /\
    Simple.currentPath m' = "/".
Proof.
  destruct (simple_tab_jumps_to_a_directory Simple.initialModel eq_refl)
    as (m' & c & U & S & _).
  exists m', c. split; [exact U|]. split; [exact S|].
  vm_compute in U. injection U as <- _. reflexivity.
Defined.

(** X21 on the key [2]. *)
Lemma simple_format_keys_choose_the_flag_witness :
  exists chosen started,
    Simple.Update simpleReviewing (tea.KeyMsg "2") = (chosen, tea.Nil) /\
    Simple.Update chosen (tea.KeyMsg "enter")
      = (started, tea.Script started) /\
    Simple.scriptArgs started "file_metadata_extractor.py" =
    ["file_metadata_extractor.py"; "--directory"; "/tmp"; "--output"; "tmp_index.xlsx";
     "--csv-only"].
Proof.
  destruct (simple_format_keys_choose_the_flag simpleReviewing
              "file_metadata_extractor.py" "2" ["--csv-only"] eq_refl)
    as (chosen & started & U & _ & E & _ & A); [right; left; reflexivity|].
  exists chosen, started. auto.
Defined.

(** X23 on the name [index] with the format [excel]: the path announced is
    the path the companion is given. *)
Lemma announced_path_is_the_output_path_witness :
  exists confirmed,
    Tui.Update 3 (naming "excel" "index") (tea.KeyMsg "enter") = Some (confirmed, tea.Nil) /\
    Tui.fullOutputPath confirmed = "/tmp/docs/index.xlsx" /\
    strings.Contains (Screen.View (naming "excel" "index"))
      ("Will save as: " ++ Tui.fullOutputPath confirmed) = true.
Proof.
  destruct (announced_path_is_the_output_path 3 (naming "excel" "index"))
    as (confirmed & announced & U & _ & _ & Same & _); [reflexivity | discriminate |].
  exists confirmed. split; [exact U|].
  vm_compute in U. injection U as <-. split; reflexivity.
Defined.

(** With the format [csv] the screen announces [index.xlsx] and the
    companion writes [index.csv]. *)
Example announced_extension_differs_for_csv :
  strings.Contains (Screen.View (naming "csv" "index")) "Will save as: /tmp/docs/index.xlsx"
    = true /\
  Tui.fullOutputPath (Tui.confirmOutput (naming "csv" "index")) = "/tmp/docs/index.csv".
Proof. split; reflexivity. Qed.

(** X24 after a failed run. *)
Lemma result_screen_shows_the_outcome_witness :
  exists rt,
    afterEvents failing (toProcessing ++ [Completion])%list = Some rt /\
    Tui.error (current rt) <> "" /\ Tui.result (current rt) = "" /\
    strings.Contains (Screen.View (current rt)) "permission denied" = true.
Proof.
  destruct (afterEvents failing (toProcessing ++ [Completion])%list) as [rt|] eqn:A;
    [|vm_compute in A; discriminate A].
  exists rt. split; [reflexivity|].
  assert (S : Tui.m_state (current rt) = Tui.finished)
    by (vm_compute in A; injection A as <-; reflexivity).
  destruct (result_screen_shows_the_outcome (runner := failing) 3 rt
              (afterEvents_reachable _ _ _ A) S) as (statusBar & [(E & R & V)|(E & R & V)]).
  - split; [exact E|]. split; [exact R|].
    vm_compute in A. injection A as <-. reflexivity.
  - exfalso. vm_compute in A. injection A as <-. discriminate E.
Defined.

(** X25 and X26 on a companion that prints [Done: processed 12 files] and
    [Index saved to: /tmp/docs/index.xlsx]. *)
Lemma success_message_reports_the_saved_path_witness :
  exists count,
    Tui.runPythonScript (runner := succeeding)
      (reviewing "/tmp/docs" "index" "excel" false "") =
    tea.processCompleteMsg
      ("🎉 Index created successfully!" ++ nl ++ nl
       ++ "📋 Files processed: " ++ count ++ nl
       ++ "💾 Saved to: " ++ "/tmp/docs/index.xlsx" ++ nl ++ nl
       ++ "✅ Your file index is ready to use!")
      "".
Proof.
  destruct (success_message_reports_the_saved_path (runner := succeeding)
              (reviewing "/tmp/docs" "index" "excel" false "")
              ("Done: processed 12 files" ++ nl ++ "Index saved to: /tmp/docs/index.xlsx" ++ nl))
    as (count & saved & Msg & _ & Line); [discriminate | reflexivity |].
  assert (S : saved = "/tmp/docs/index.xlsx").
  { apply (Line ("Done: processed 12 files" ++ nl) "Index " " /tmp/docs/index.xlsx" nl).
    - reflexivity.
    - right. exists "Done: processed 12 files". reflexivity.
    - right. exists "". reflexivity.
    - reflexivity.
    - reflexivity.
    - reflexivity.
    - reflexivity.
    - reflexivity. }
  exists count. rewrite Msg, S. reflexivity.
Defined.

Lemma success_message_reports_the_file_count_witness :
  exists saved,
    Tui.runPythonScript (runner := succeeding)
      (reviewing "/tmp/docs" "index" "excel" false "") =
    tea.processCompleteMsg
      ("🎉 Index created successfully!" ++ nl ++ nl
       ++ "📋 Files processed: " ++ "12" ++ nl
       ++ "💾 Saved to: " ++ saved ++ nl ++ nl
       ++ "✅ Your file index is ready to use!")
      "".
Proof.
  destruct (success_message_reports_the_file_count (runner := succeeding)
              (reviewing "/tmp/docs" "index" "excel" false "")
              ("Done: processed 12 files" ++ nl ++ "Index saved to: /tmp/docs/index.xlsx" ++ nl))
    as (counted & saved & Msg & _ & Line); [discriminate | reflexivity |].
  assert (C : counted = "12").
  { apply (Line "" "Done: processed 12 files"
             (nl ++ "Index saved to: /tmp/docs/index.xlsx" ++ nl)
             "12" "files" ["Done:"; "processed"] []).
    - reflexivity.
    - left. reflexivity.
    - right. eexists. reflexivity.
    - reflexivity.
    - reflexivity.
    - reflexivity.
    - reflexivity.
    - reflexivity.
    - cbn. intros w [<-|[<-|[]]]; reflexivity.
    - reflexivity. }
  exists saved. rewrite Msg, C. reflexivity.
Defined.

(** X27 on a companion that fails. *)
Lemma simple_companion_outcome_witness :
  exists error,
    Simple.runPythonScript (runner := failing) simpleReviewing
      = tea.processCompleteMsg "" error /\
    strings.Contains error "permission denied" = true.
Proof.
  apply (proj1 (proj2 (proj2 (simple_companion_outcome (runner := failing) simpleReviewing)))
           "permission denied" "exit status 1").
  - discriminate.
  - reflexivity.
Defined.

(** X28 once the companion of the simple variant is started with the
    defaults. *)
Lemma simple_wizard_invariants_witness :
  exists rt,
    simpleRun (runner := failing)
      {| simpleCurrent := Simple.initialModel; simplePending := [] |}
      (keys [" "; "enter"; "enter"]) = Some rt /\
    Simple.m_state (simpleCurrent rt) = Simple.processing /\
    simplePending rt <> [] /\
    simpleSound (simpleCurrent rt).
Proof.
  destruct (simpleRun (runner := failing)
              {| simpleCurrent := Simple.initialModel; simplePending := [] |}
              (keys [" "; "enter"; "enter"])) as [rt|] eqn:R;
    [|vm_compute in R; discriminate R].
  assert (S : Simple.m_state (simpleCurrent rt) = Simple.processing)
    by (vm_compute in R; injection R as <-; reflexivity).
  destruct (simple_wizard_invariants (runner := failing) rt) as (So & [Fl _] & _).
  - exists (keys [" "; "enter"; "enter"]). exact R.
  - exists rt. split; [reflexivity|]. split; [exact S|]. split; [exact (Fl S) | exact So].
Defined.
